(** * weather-display: frame loop, transition controller, refresh scheduler

    A shallow embedding of [src/main.py] and [src/config.py].

    Conventions of the embedding.
    - Python [str] is [string] (8-bit characters; the program's own
      literals are ASCII).
    - Python [int] is [Z]; wall-clock readings and durations ([time.time()],
      [float] configuration values) are exact rationals [Q].
    - The module-level globals and the locals of [main] that survive a loop
      iteration are the fields of one record, [AppState], threaded through
      every function that declares them [global].
    - What the program reads from outside (clock readings, HTTP responses)
      is supplied per loop iteration in an oracle record; what it does to
      the outside (HTTP requests, sleeps, flushed frames, cache files) is
      returned as a list of events. *)

From Stdlib Require Import ZArith QArith Qround String Ascii List Bool Lia Lqa.
From stdpp Require Import base gmap strings.
Import ListNotations.

Open Scope string_scope.
Open Scope Z_scope.

(** ** Python string primitives used by the program *)

Module PyStr.

(** [s.startswith(p)] *)
Fixpoint startswith (p s : string) : bool :=
  match p, s with
  | EmptyString, _ => true
  | String a p', String b s' => Ascii.eqb a b && startswith p' s'
  | String _ _, EmptyString => false
  end.

(** [needle in hay] *)
Fixpoint contains (needle hay : string) : bool :=
  startswith needle hay ||
  match hay with
  | EmptyString => false
  | String _ rest => contains needle rest
  end.

(** [s.split(sep)] for a one-character separator: never the empty list. *)
Fixpoint split (sep : ascii) (s : string) : list string :=
  match s with
  | EmptyString => [EmptyString]
  | String c rest =>
      if Ascii.eqb c sep then EmptyString :: split sep rest
      else match split sep rest with
           | [] => [String c EmptyString]
           | p :: ps => String c p :: ps
           end
  end.

(** Characters removed by [str.strip()]: tab, LF, VT, FF, CR, the
    separators 0x1c-0x1f and space. *)
Definition is_space (c : ascii) : bool :=
  let n := nat_of_ascii c in
  ((9 <=? n) && (n <=? 13))%nat || ((28 <=? n) && (n <=? 32))%nat.

Fixpoint lstrip (s : string) : string :=
  match s with
  | EmptyString => EmptyString
  | String c rest => if is_space c then lstrip rest else s
  end.

Fixpoint rstrip (s : string) : string :=
  match s with
  | EmptyString => EmptyString
  | String c rest =>
      match rstrip rest with
      | EmptyString => if is_space c then EmptyString else String c EmptyString
      | r => String c r
      end
  end.

Definition strip (s : string) : string := rstrip (lstrip s).

Definition lower_char (c : ascii) : ascii :=
  let n := nat_of_ascii c in
  if ((65 <=? n) && (n <=? 90))%nat then ascii_of_nat (n + 32) else c.

(** [s.lower()] on ASCII letters. *)
Fixpoint lower (s : string) : string :=
  match s with
  | EmptyString => EmptyString
  | String c rest => String (lower_char c) (lower rest)
  end.

Definition digit_val (c : ascii) : option Z :=
  let n := nat_of_ascii c in
  if ((48 <=? n) && (n <=? 57))%nat then Some (Z.of_nat (n - 48)) else None.

(** Digits of an integer literal after the sign: decimal digits, a single
    underscore allowed between two digits.  [prev_digit] tells whether the
    previous character was a digit; [acc] is the value read so far. *)
Fixpoint int_digits (s : string) (prev_digit : bool) (acc : Z) : option Z :=
  match s with
  | EmptyString => if prev_digit then Some acc else None
  | String c rest =>
      match digit_val c with
      | Some d => int_digits rest true (10 * acc + d)
      | None =>
          if Ascii.eqb c "_" && prev_digit
          then match rest with
               | EmptyString => None
               | String c' _ =>
                   match digit_val c' with
                   | Some _ => int_digits rest false acc
                   | None => None
                   end
               end
          else None
      end
  end.

(** White space as [int()] sees it in an ASCII string: tab, LF, VT, FF, CR
    and space.  Unlike [str.strip()], it leaves 0x1c-0x1f in place, and a
    string that keeps one of them is not a number. *)
Definition is_int_space (c : ascii) : bool :=
  let n := nat_of_ascii c in
  ((9 <=? n) && (n <=? 13))%nat || (n =? 32)%nat.

Fixpoint int_lstrip (s : string) : string :=
  match s with
  | EmptyString => EmptyString
  | String c rest => if is_int_space c then int_lstrip rest else s
  end.

Fixpoint int_rstrip (s : string) : string :=
  match s with
  | EmptyString => EmptyString
  | String c rest =>
      match int_rstrip rest with
      | EmptyString => if is_int_space c then EmptyString else String c EmptyString
      | r => String c r
      end
  end.

(** [int(s)] in base 10: [None] stands for [ValueError].  Surrounding
    white space is ignored, one sign is allowed. *)
Definition int (s : string) : option Z :=
  match int_rstrip (int_lstrip s) with
  | String "+" ds => int_digits ds false 0
  | String "-" ds => option_map Z.opp (int_digits ds false 0)
  | ds => int_digits ds false 0
  end.

Fixpoint digits_of_pos (fuel : nat) (n : Z) (acc : string) : string :=
  match fuel with
  | O => acc
  | S fuel' =>
      let acc' := String (ascii_of_nat (48 + Z.to_nat (n mod 10))) acc in
      if n / 10 =? 0 then acc' else digits_of_pos fuel' (n / 10) acc'
  end.

(** [str(n)] / [f"{n}"] for an integer. *)
Definition of_int (n : Z) : string :=
  if n <? 0 then String "-" (digits_of_pos (Z.to_nat (- n)) (- n) "")
  else digits_of_pos (S (Z.to_nat n)) n "".

End PyStr.

(** ** Operating hours ([is_within_operating_hours]) *)

(** [start_hour, end_hour = map(int, operating_hours_str.split('-'))]:
    [None] when the unpacking or one of the conversions raises. *)
Definition parse_operating_hours (operating_hours_str : string) : option (Z * Z) :=
  match PyStr.split "-" operating_hours_str with
  | [a; b] =>
      match PyStr.int a, PyStr.int b with
      | Some start_hour, Some end_hour => Some (start_hour, end_hour)
      | _, _ => None
      end
  | _ => None
  end.

(** [now_hour] is [get_current_time().hour].  The bare [except:] turns every
    failure of the parse into [True]. *)
Definition is_within_operating_hours (operating_hours_str : string) (now_hour : Z) : bool :=
  match parse_operating_hours operating_hours_str with
  | Some (start_hour, end_hour) =>
      if start_hour <=? end_hour
      then (start_hour <=? now_hour) && (now_hour <? end_hour)
      else (now_hour >=? start_hour) || (now_hour <? end_hour)
  | None => true
  end.

(** ** Configuration ([config.py]) *)

(** The entries of the dictionary built by [loadConfig] that [main.py]
    reads.  Integer entries are [Z], the [float] entry is [Q]. *)
Record Config := {
  API_KEY : string;
  LOCATION : string;
  DEBUG : bool;
  UPDATE_INTERVAL_SECONDS : Z;
  FORCE_REFRESH_ON_START : bool;
  OPERATING_HOURS : string;
  DISPLAY_DURATION : Z;
  SCROLL_PAUSE_SECONDS : Z;
  SCROLL_OFF_SCREEN_WAIT_SECONDS : Z;
  TRANSITION_DURATION_SECONDS : Q;
  TRANSITION_EFFECT : string;
  SHOW_UMBRELLA_ICON : bool
}.

(** [data['API_KEY'] = os.getenv('openWeatherApiKey', 'key_not_set')] *)
Definition loadConfig_API_KEY (getenv : string -> option string) : string :=
  match getenv "openWeatherApiKey" with
  | Some v => v
  | None => "key_not_set"
  end.

(** [config.get('MAX_RETRIES', 3)] and [config.get('RETRY_DELAY_SECONDS', 2)]:
    [loadConfig] sets neither key, so the defaults always apply. *)
Definition MAX_RETRIES : nat := 3.
Definition RETRY_DELAY_SECONDS : Q := 2.

(** ** Data *)

(** Parsed JSON bodies ([response.json()], [json.load]). *)
#[warnings="-register-all"]
Inductive Json :=
| JNull
| JBool (b : bool)
| JNum (q : Q)
| JStr (s : string)
| JList (items : list Json)
| JObj (fields : list (string * Json)).

(** Python truth value of a parsed JSON value. *)
Definition truthy (j : Json) : bool :=
  match j with
  | JNull => false
  | JBool b => b
  | JNum q => negb (Qeq_bool q 0)
  | JStr s => negb (String.eqb s "")
  | JList items => match items with [] => false | _ => true end
  | JObj fields => match fields with [] => false | _ => true end
  end.

(** A PIL font object, by the two methods the program calls on it. *)
Record Font := {
  font_file : string;
  font_size : Z;
  getname : string * string;
  getbbox : string -> Z * Z * Z * Z
}.

(** The image built by lines 126-128 of [cachedBitmapText]: an 'L' image of
    the given size with [text] drawn in [font] at the origin. *)
Inductive Bitmap :=
| DrawnText (size : Z * Z) (text : string) (font : Font).

(** Value stored in [bitmapRenderCache]. *)
Record CachedRasterEntry := {
  bitmap : Bitmap;
  txt_width : Z;
  txt_height : Z
}.

Abbreviation RasterCache := (gmap string CachedRasterEntry).

(** A pre-rendered view background.  The two composers,
    [render_current_weather_bg] and [render_forecast_bg], are outside this
    development: a background is identified by the composer that made it and
    the data it was made from.  (The composers also download icons and render
    their labels through [cachedBitmapText]; these effects are not
    modelled.) *)
Inductive Image :=
| RenderedCurrentWeather (weather_data : Json)
| RenderedForecast (forecast_data : Json).

Definition render_current_weather_bg (weather_data : Json) : Image :=
  RenderedCurrentWeather weather_data.
Definition render_forecast_bg (forecast_data : Json) : Image :=
  RenderedForecast forecast_data.

(** [a is b] for two background variables: both [None], or the same image
    object.  A background made by one composer is never the object made by
    the other, and at any time at most one object of each composer is
    live. *)
Definition image_is (a b : option Image) : bool :=
  match a, b with
  | None, None => true
  | Some (RenderedCurrentWeather _), Some (RenderedCurrentWeather _) => true
  | Some (RenderedForecast _), Some (RenderedForecast _) => true
  | _, _ => false
  end.

(** The umbrella icon, by its size. *)
Record Icon := { icon_width : Z; icon_height : Z }.

(** [transition_state]: Python [None] is [None], ['out'] and ['in'] are the
    two phases. *)
Inductive TransitionPhase := PhaseOut | PhaseIn.

(** A [datetime] in the display's time zone, with the weekday and month as
    indices (Monday = 0, January = 1). *)
Record DateTime := {
  year : Z;
  month : Z;
  day : Z;
  hour : Z;
  minute : Z;
  second : Z;
  weekday : Z
}.

(** What is drawn on a canvas. *)
Inductive Picture :=
| PicBackground (img : Image)
| PicText (b : Bitmap)
| PicIcon (i : Icon)
| PicViewport (size : Z * Z) (pasted : Bitmap) (offset : Z * Z).

Inductive DrawOp :=
| DrawBitmap (xy : Z * Z) (p : Picture)
| DrawRectangle (top_left bottom_right : Z * Z).

Inductive Endpoint := WeatherApi | ForecastApi | AssistantApi.
Inductive CacheFile := WEATHER_CACHE_FILE | FORECAST_CACHE_FILE.

(** Document written by [save_cache]. *)
Inductive CacheDoc :=
| WeatherDoc (timestamp : Q) (data : Json) (ai_tip : option string)
| ForecastDoc (data : Json).

(** What the program does to the outside world. *)
Inductive Event :=
| HttpRequest (target : Endpoint)
| Sleep (seconds : Q)
| SaveCache (file : CacheFile) (doc : CacheDoc)
| Flush (frame : list DrawOp)
| PrintFramerate.

(** ** Program state: the globals of [main.py] and the locals of [main] *)

Record AppState := mkAppState {
  last_update_time : Q;
  current_weather_bg : option Image;
  forecast_bg : option Image;
  weather_data_cache : option Json;
  forecast_data_cache : option Json;
  bitmapRenderCache : RasterCache;
  ai_tip_cache : string;
  pixelsUp : Z;
  hasElevated : Z;
  scroll_x : Z;
  animation_pause_timer : Q;
  scroll_completion_event_fired : bool;
  transition_state : option TransitionPhase;
  transition_start_time : Q;
  umbrella_icon : option Icon;
  animation_viewport : option (Z * Z);
  cached_date_str : string;
  cached_date_day : Z;
  (* locals of [main] *)
  log_timer : Q;
  is_showing_forecast : bool;
  scroll_off_event_time : Q;
  last_view_switch_time : Q;
  is_active : option bool
}.

(** Assignment to one variable: the state with field [f] replaced by [v]. *)
Definition set_last_update_time v (s : AppState) : AppState :=
  mkAppState
    v (current_weather_bg s) (forecast_bg s) (weather_data_cache s) (forecast_data_cache
    s) (bitmapRenderCache s) (ai_tip_cache s) (pixelsUp s) (hasElevated s) (scroll_x s)
    (animation_pause_timer s) (scroll_completion_event_fired s) (transition_state s)
    (transition_start_time s) (umbrella_icon s) (animation_viewport s) (cached_date_str
    s) (cached_date_day s) (log_timer s) (is_showing_forecast s) (scroll_off_event_time
    s) (last_view_switch_time s) (is_active s).
Definition set_current_weather_bg v (s : AppState) : AppState :=
  mkAppState
    (last_update_time s) v (forecast_bg s) (weather_data_cache s) (forecast_data_cache
    s) (bitmapRenderCache s) (ai_tip_cache s) (pixelsUp s) (hasElevated s) (scroll_x s)
    (animation_pause_timer s) (scroll_completion_event_fired s) (transition_state s)
    (transition_start_time s) (umbrella_icon s) (animation_viewport s) (cached_date_str
    s) (cached_date_day s) (log_timer s) (is_showing_forecast s) (scroll_off_event_time
    s) (last_view_switch_time s) (is_active s).
Definition set_forecast_bg v (s : AppState) : AppState :=
  mkAppState
    (last_update_time s) (current_weather_bg s) v (weather_data_cache s)
    (forecast_data_cache s) (bitmapRenderCache s) (ai_tip_cache s) (pixelsUp s)
    (hasElevated s) (scroll_x s) (animation_pause_timer s)
    (scroll_completion_event_fired s) (transition_state s) (transition_start_time s)
    (umbrella_icon s) (animation_viewport s) (cached_date_str s) (cached_date_day s)
    (log_timer s) (is_showing_forecast s) (scroll_off_event_time s)
    (last_view_switch_time s) (is_active s).
Definition set_weather_data_cache v (s : AppState) : AppState :=
  mkAppState
    (last_update_time s) (current_weather_bg s) (forecast_bg s) v (forecast_data_cache
    s) (bitmapRenderCache s) (ai_tip_cache s) (pixelsUp s) (hasElevated s) (scroll_x s)
    (animation_pause_timer s) (scroll_completion_event_fired s) (transition_state s)
    (transition_start_time s) (umbrella_icon s) (animation_viewport s) (cached_date_str
    s) (cached_date_day s) (log_timer s) (is_showing_forecast s) (scroll_off_event_time
    s) (last_view_switch_time s) (is_active s).
Definition set_forecast_data_cache v (s : AppState) : AppState :=
  mkAppState
    (last_update_time s) (current_weather_bg s) (forecast_bg s) (weather_data_cache s) v
    (bitmapRenderCache s) (ai_tip_cache s) (pixelsUp s) (hasElevated s) (scroll_x s)
    (animation_pause_timer s) (scroll_completion_event_fired s) (transition_state s)
    (transition_start_time s) (umbrella_icon s) (animation_viewport s) (cached_date_str
    s) (cached_date_day s) (log_timer s) (is_showing_forecast s) (scroll_off_event_time
    s) (last_view_switch_time s) (is_active s).
Definition set_bitmapRenderCache v (s : AppState) : AppState :=
  mkAppState
    (last_update_time s) (current_weather_bg s) (forecast_bg s) (weather_data_cache s)
    (forecast_data_cache s) v (ai_tip_cache s) (pixelsUp s) (hasElevated s) (scroll_x s)
    (animation_pause_timer s) (scroll_completion_event_fired s) (transition_state s)
    (transition_start_time s) (umbrella_icon s) (animation_viewport s) (cached_date_str
    s) (cached_date_day s) (log_timer s) (is_showing_forecast s) (scroll_off_event_time
    s) (last_view_switch_time s) (is_active s).
Definition set_ai_tip_cache v (s : AppState) : AppState :=
  mkAppState
    (last_update_time s) (current_weather_bg s) (forecast_bg s) (weather_data_cache s)
    (forecast_data_cache s) (bitmapRenderCache s) v (pixelsUp s) (hasElevated s)
    (scroll_x s) (animation_pause_timer s) (scroll_completion_event_fired s)
    (transition_state s) (transition_start_time s) (umbrella_icon s) (animation_viewport
    s) (cached_date_str s) (cached_date_day s) (log_timer s) (is_showing_forecast s)
    (scroll_off_event_time s) (last_view_switch_time s) (is_active s).
Definition set_pixelsUp v (s : AppState) : AppState :=
  mkAppState
    (last_update_time s) (current_weather_bg s) (forecast_bg s) (weather_data_cache s)
    (forecast_data_cache s) (bitmapRenderCache s) (ai_tip_cache s) v (hasElevated s)
    (scroll_x s) (animation_pause_timer s) (scroll_completion_event_fired s)
    (transition_state s) (transition_start_time s) (umbrella_icon s) (animation_viewport
    s) (cached_date_str s) (cached_date_day s) (log_timer s) (is_showing_forecast s)
    (scroll_off_event_time s) (last_view_switch_time s) (is_active s).
Definition set_hasElevated v (s : AppState) : AppState :=
  mkAppState
    (last_update_time s) (current_weather_bg s) (forecast_bg s) (weather_data_cache s)
    (forecast_data_cache s) (bitmapRenderCache s) (ai_tip_cache s) (pixelsUp s) v
    (scroll_x s) (animation_pause_timer s) (scroll_completion_event_fired s)
    (transition_state s) (transition_start_time s) (umbrella_icon s) (animation_viewport
    s) (cached_date_str s) (cached_date_day s) (log_timer s) (is_showing_forecast s)
    (scroll_off_event_time s) (last_view_switch_time s) (is_active s).
Definition set_scroll_x v (s : AppState) : AppState :=
  mkAppState
    (last_update_time s) (current_weather_bg s) (forecast_bg s) (weather_data_cache s)
    (forecast_data_cache s) (bitmapRenderCache s) (ai_tip_cache s) (pixelsUp s)
    (hasElevated s) v (animation_pause_timer s) (scroll_completion_event_fired s)
    (transition_state s) (transition_start_time s) (umbrella_icon s) (animation_viewport
    s) (cached_date_str s) (cached_date_day s) (log_timer s) (is_showing_forecast s)
    (scroll_off_event_time s) (last_view_switch_time s) (is_active s).
Definition set_animation_pause_timer v (s : AppState) : AppState :=
  mkAppState
    (last_update_time s) (current_weather_bg s) (forecast_bg s) (weather_data_cache s)
    (forecast_data_cache s) (bitmapRenderCache s) (ai_tip_cache s) (pixelsUp s)
    (hasElevated s) (scroll_x s) v (scroll_completion_event_fired s) (transition_state
    s) (transition_start_time s) (umbrella_icon s) (animation_viewport s)
    (cached_date_str s) (cached_date_day s) (log_timer s) (is_showing_forecast s)
    (scroll_off_event_time s) (last_view_switch_time s) (is_active s).
Definition set_scroll_completion_event_fired v (s : AppState) : AppState :=
  mkAppState
    (last_update_time s) (current_weather_bg s) (forecast_bg s) (weather_data_cache s)
    (forecast_data_cache s) (bitmapRenderCache s) (ai_tip_cache s) (pixelsUp s)
    (hasElevated s) (scroll_x s) (animation_pause_timer s) v (transition_state s)
    (transition_start_time s) (umbrella_icon s) (animation_viewport s) (cached_date_str
    s) (cached_date_day s) (log_timer s) (is_showing_forecast s) (scroll_off_event_time
    s) (last_view_switch_time s) (is_active s).
Definition set_transition_state v (s : AppState) : AppState :=
  mkAppState
    (last_update_time s) (current_weather_bg s) (forecast_bg s) (weather_data_cache s)
    (forecast_data_cache s) (bitmapRenderCache s) (ai_tip_cache s) (pixelsUp s)
    (hasElevated s) (scroll_x s) (animation_pause_timer s)
    (scroll_completion_event_fired s) v (transition_start_time s) (umbrella_icon s)
    (animation_viewport s) (cached_date_str s) (cached_date_day s) (log_timer s)
    (is_showing_forecast s) (scroll_off_event_time s) (last_view_switch_time s)
    (is_active s).
Definition set_transition_start_time v (s : AppState) : AppState :=
  mkAppState
    (last_update_time s) (current_weather_bg s) (forecast_bg s) (weather_data_cache s)
    (forecast_data_cache s) (bitmapRenderCache s) (ai_tip_cache s) (pixelsUp s)
    (hasElevated s) (scroll_x s) (animation_pause_timer s)
    (scroll_completion_event_fired s) (transition_state s) v (umbrella_icon s)
    (animation_viewport s) (cached_date_str s) (cached_date_day s) (log_timer s)
    (is_showing_forecast s) (scroll_off_event_time s) (last_view_switch_time s)
    (is_active s).
Definition set_umbrella_icon v (s : AppState) : AppState :=
  mkAppState
    (last_update_time s) (current_weather_bg s) (forecast_bg s) (weather_data_cache s)
    (forecast_data_cache s) (bitmapRenderCache s) (ai_tip_cache s) (pixelsUp s)
    (hasElevated s) (scroll_x s) (animation_pause_timer s)
    (scroll_completion_event_fired s) (transition_state s) (transition_start_time s) v
    (animation_viewport s) (cached_date_str s) (cached_date_day s) (log_timer s)
    (is_showing_forecast s) (scroll_off_event_time s) (last_view_switch_time s)
    (is_active s).
Definition set_animation_viewport v (s : AppState) : AppState :=
  mkAppState
    (last_update_time s) (current_weather_bg s) (forecast_bg s) (weather_data_cache s)
    (forecast_data_cache s) (bitmapRenderCache s) (ai_tip_cache s) (pixelsUp s)
    (hasElevated s) (scroll_x s) (animation_pause_timer s)
    (scroll_completion_event_fired s) (transition_state s) (transition_start_time s)
    (umbrella_icon s) v (cached_date_str s) (cached_date_day s) (log_timer s)
    (is_showing_forecast s) (scroll_off_event_time s) (last_view_switch_time s)
    (is_active s).
Definition set_cached_date_str v (s : AppState) : AppState :=
  mkAppState
    (last_update_time s) (current_weather_bg s) (forecast_bg s) (weather_data_cache s)
    (forecast_data_cache s) (bitmapRenderCache s) (ai_tip_cache s) (pixelsUp s)
    (hasElevated s) (scroll_x s) (animation_pause_timer s)
    (scroll_completion_event_fired s) (transition_state s) (transition_start_time s)
    (umbrella_icon s) (animation_viewport s) v (cached_date_day s) (log_timer s)
    (is_showing_forecast s) (scroll_off_event_time s) (last_view_switch_time s)
    (is_active s).
Definition set_cached_date_day v (s : AppState) : AppState :=
  mkAppState
    (last_update_time s) (current_weather_bg s) (forecast_bg s) (weather_data_cache s)
    (forecast_data_cache s) (bitmapRenderCache s) (ai_tip_cache s) (pixelsUp s)
    (hasElevated s) (scroll_x s) (animation_pause_timer s)
    (scroll_completion_event_fired s) (transition_state s) (transition_start_time s)
    (umbrella_icon s) (animation_viewport s) (cached_date_str s) v (log_timer s)
    (is_showing_forecast s) (scroll_off_event_time s) (last_view_switch_time s)
    (is_active s).
Definition set_log_timer v (s : AppState) : AppState :=
  mkAppState
    (last_update_time s) (current_weather_bg s) (forecast_bg s) (weather_data_cache s)
    (forecast_data_cache s) (bitmapRenderCache s) (ai_tip_cache s) (pixelsUp s)
    (hasElevated s) (scroll_x s) (animation_pause_timer s)
    (scroll_completion_event_fired s) (transition_state s) (transition_start_time s)
    (umbrella_icon s) (animation_viewport s) (cached_date_str s) (cached_date_day s) v
    (is_showing_forecast s) (scroll_off_event_time s) (last_view_switch_time s)
    (is_active s).
Definition set_is_showing_forecast v (s : AppState) : AppState :=
  mkAppState
    (last_update_time s) (current_weather_bg s) (forecast_bg s) (weather_data_cache s)
    (forecast_data_cache s) (bitmapRenderCache s) (ai_tip_cache s) (pixelsUp s)
    (hasElevated s) (scroll_x s) (animation_pause_timer s)
    (scroll_completion_event_fired s) (transition_state s) (transition_start_time s)
    (umbrella_icon s) (animation_viewport s) (cached_date_str s) (cached_date_day s)
    (log_timer s) v (scroll_off_event_time s) (last_view_switch_time s) (is_active s).
Definition set_scroll_off_event_time v (s : AppState) : AppState :=
  mkAppState
    (last_update_time s) (current_weather_bg s) (forecast_bg s) (weather_data_cache s)
    (forecast_data_cache s) (bitmapRenderCache s) (ai_tip_cache s) (pixelsUp s)
    (hasElevated s) (scroll_x s) (animation_pause_timer s)
    (scroll_completion_event_fired s) (transition_state s) (transition_start_time s)
    (umbrella_icon s) (animation_viewport s) (cached_date_str s) (cached_date_day s)
    (log_timer s) (is_showing_forecast s) v (last_view_switch_time s) (is_active s).
Definition set_last_view_switch_time v (s : AppState) : AppState :=
  mkAppState
    (last_update_time s) (current_weather_bg s) (forecast_bg s) (weather_data_cache s)
    (forecast_data_cache s) (bitmapRenderCache s) (ai_tip_cache s) (pixelsUp s)
    (hasElevated s) (scroll_x s) (animation_pause_timer s)
    (scroll_completion_event_fired s) (transition_state s) (transition_start_time s)
    (umbrella_icon s) (animation_viewport s) (cached_date_str s) (cached_date_day s)
    (log_timer s) (is_showing_forecast s) (scroll_off_event_time s) v (is_active s).
Definition set_is_active v (s : AppState) : AppState :=
  mkAppState
    (last_update_time s) (current_weather_bg s) (forecast_bg s) (weather_data_cache s)
    (forecast_data_cache s) (bitmapRenderCache s) (ai_tip_cache s) (pixelsUp s)
    (hasElevated s) (scroll_x s) (animation_pause_timer s)
    (scroll_completion_event_fired s) (transition_state s) (transition_start_time s)
    (umbrella_icon s) (animation_viewport s) (cached_date_str s) (cached_date_day s)
    (log_timer s) (is_showing_forecast s) (scroll_off_event_time s)
    (last_view_switch_time s) v.

(** ** State-passing style

    A function that declares some globals is a state transformer over
    [AppState] that also yields the events it caused, in order. *)

Definition Prog (A : Type) : Type := AppState -> A * AppState * list Event.

Definition ret {A} (a : A) : Prog A := fun s => (a, s, []).
Definition bind {A B} (m : Prog A) (k : A -> Prog B) : Prog B :=
  fun s =>
    let '(a, s1, ev1) := m s in
    let '(b, s2, ev2) := k a s1 in
    (b, s2, (ev1 ++ ev2)%list).
Definition gets {A} (proj : AppState -> A) : Prog A := fun s => (proj s, s, []).
Definition assign (upd : AppState -> AppState) : Prog unit := fun s => (tt, upd s, []).
Definition emit (e : Event) : Prog unit := fun s => (tt, s, [e]).
Definition when (c : bool) (m : Prog unit) : Prog unit := if c then m else ret tt.

Definition state_after {A} (r : A * AppState * list Event) : AppState := snd (fst r).
Definition events_of {A} (r : A * AppState * list Event) : list Event := snd r.
Definition value_of {A} (r : A * AppState * list Event) : A := fst (fst r).

Declare Scope prog_scope.
Delimit Scope prog_scope with prog.
Bind Scope prog_scope with Prog.
Notation "'let*' p ':=' c1 'in' c2" := (bind c1 (fun p => c2))
  (at level 10, p pattern, c1 at level 200, c2 at level 200) : prog_scope.
Notation "c1 ;;; c2" := (bind c1 (fun _ => c2))
  (at level 100, right associativity) : prog_scope.

(** Rational comparisons as the booleans Python computes. *)
Definition Qgtb (a b : Q) : bool := negb (Qle_bool a b).
Definition Qgeb (a b : Q) : bool := Qle_bool b a.

(** [int(x)] for a float: truncation towards zero. *)
Definition Qtrunc (q : Q) : Z :=
  if Qle_bool 0 q then Qfloor q else Qceiling q.

(** ** Text raster cache ([cachedBitmapText]) *)

(** [''.join(font.getname())] *)
Definition fontKey (font : Font) : string :=
  fst (getname font) ++ snd (getname font).

(** The body of the [else] branch without the store: what rasterising
    [text] in [font] gives. *)
Definition rasterize (text : string) (font : Font) : Z * Z * Bitmap :=
  let '(_, _, txt_width, txt_height) := getbbox font text in
  (txt_width, txt_height, DrawnText (txt_width, txt_height) text font).

(** [cachedBitmapText] reads and writes one global, [bitmapRenderCache]. *)
Definition cachedBitmapText (text : string) (font : Font) (cache : RasterCache)
  : (Z * Z * Bitmap) * RasterCache :=
  let key := text ++ fontKey font in
  match cache !! key with
  | Some pre => ((txt_width pre, txt_height pre, bitmap pre), cache)
  | None =>
      let '(_, _, txt_width, txt_height) := getbbox font text in
      let bitmap := DrawnText (txt_width, txt_height) text font in
      ((txt_width, txt_height, bitmap),
       <[key := {| bitmap := bitmap; txt_width := txt_width; txt_height := txt_height |}]> cache)
  end.

Definition cachedBitmapTextM (text : string) (font : Font) : Prog (Z * Z * Bitmap) :=
  fun s =>
    let (r, cache') := cachedBitmapText text font (bitmapRenderCache s) in
    (r, set_bitmapRenderCache cache' s, []).

(** ** Date strings *)

(** [get_ordinal_suffix]: [{1: 'st', 2: 'nd', 3: 'rd'}.get(day % 10, 'th')] *)
Definition get_ordinal_suffix (day : Z) : string :=
  if (11 <=? day) && (day <=? 13) then "th"
  else match day mod 10 with
       | 1 => "st"
       | 2 => "nd"
       | 3 => "rd"
       | _ => "th"
       end.

Definition DAY_ABBREVIATIONS : list (string * string) :=
  [("Monday", "Mon"); ("Tuesday", "Tues"); ("Wednesday", "Weds");
   ("Thursday", "Thur"); ("Friday", "Fri"); ("Saturday", "Sat"); ("Sunday", "Sun")].

(** [d.get(key, default)] on a dictionary given by its items. *)
Fixpoint dict_get (d : list (string * string)) (key default : string) : string :=
  match d with
  | [] => default
  | (k, v) :: rest => if String.eqb k key then v else dict_get rest key default
  end.

Definition pad2 (n : Z) : string :=
  if n <? 10 then "0" ++ PyStr.of_int n else PyStr.of_int n.

(** [strftime] in the C locale, for the five formats the program uses. *)
Definition strftime_A (now : DateTime) : string :=
  nth (Z.to_nat (weekday now))
      ["Monday"; "Tuesday"; "Wednesday"; "Thursday"; "Friday"; "Saturday"; "Sunday"] "".
Definition strftime_B (now : DateTime) : string :=
  nth (Z.to_nat (month now - 1))
      ["January"; "February"; "March"; "April"; "May"; "June"; "July";
       "August"; "September"; "October"; "November"; "December"] "".
Definition strftime_Y (now : DateTime) : string := PyStr.of_int (year now).
Definition strftime_HM (now : DateTime) : string := pad2 (hour now) ++ ":" ++ pad2 (minute now).
Definition strftime_S (now : DateTime) : string := ":" ++ pad2 (second now).

(** The list [date_formats] of [get_display_date_str]. *)
Definition date_formats (now : DateTime) : list string :=
  let day := day now in
  let suffix := get_ordinal_suffix day in
  let month_name := strftime_B now in
  let year_str := strftime_Y now in
  let full_day_name := strftime_A now in
  let short_day_name := dict_get DAY_ABBREVIATIONS full_day_name "----" in
  [ full_day_name ++ ", " ++ PyStr.of_int day ++ suffix ++ " " ++ month_name ++ " " ++ year_str;
    full_day_name ++ ", " ++ PyStr.of_int day ++ suffix ++ " " ++ month_name;
    short_day_name ++ ", " ++ PyStr.of_int day ++ suffix ++ " " ++ month_name ].

(** ** Layout fitter

    The [for ... break] loop of [get_display_date_str] over the candidates
    that are left: [final_date_str] is the value of that variable when the
    loop is entered.  [total_width] is [device.width], [reserved_left] is
    [MAX_CLOCK_WIDTH], [icon_space_needed] is the reserve for the icon. *)
Fixpoint fit_loop (font : Font) (total_width reserved_left icon_space_needed : Z)
    (candidates : list string) (final_date_str : string) (cache : RasterCache)
  : string * RasterCache :=
  match candidates with
  | [] => (final_date_str, cache)
  | date_format :: rest =>
      let '((date_width, _, _), cache') := cachedBitmapText date_format font cache in
      let date_start_x := total_width - date_width in
      let available_gap := date_start_x - reserved_left in
      if available_gap >=? icon_space_needed
      then (date_format, cache')
      else fit_loop font total_width reserved_left icon_space_needed rest final_date_str cache'
  end.

(** [candidates[-1]]; [None] stands for [IndexError]. *)
Definition last_item (candidates : list string) : option string :=
  match candidates with
  | [] => None
  | c :: rest => Some (List.last rest c)
  end.

(** The fitter on an arbitrary candidate list:
    [final = candidates[-1]], then the loop. *)
Definition select_fit (font : Font) (total_width reserved_left icon_space_needed : Z)
    (candidates : list string) (cache : RasterCache) : option (string * RasterCache) :=
  match last_item candidates with
  | None => None
  | Some final_date_str =>
      Some (fit_loop font total_width reserved_left icon_space_needed
                     candidates final_date_str cache)
  end.

(** ** What one loop iteration reads from outside

    One field per call site, named after what the call is for.  Clock
    readings are [time.time()] or [get_current_timestamp()]; an HTTP field
    gives, for attempt number [k] of a request, [None] when the attempt
    raises [RequestException] (time-out, connection error, non-2xx status)
    and the parsed body otherwise. *)
Record TickInput := {
  now_hour : Z;                     (* l.260, [get_current_time().hour] *)
  t_stale_check : Q;                (* l.525 *)
  weather_http : nat -> option Json;
  t_weather_received : Q;           (* l.196 *)
  forecast_http : nat -> option Json;
  (* body of the assistant's answer: [Some a] when the JSON object has the
     key ['answer'] with the string [a], [None] when it has no such key *)
  assistant_http : nat -> option (option string);
  t_display_check : Q;              (* l.546 *)
  t_out_start : Q;                  (* l.547, [transition_start_time] *)
  t_view_switch : Q;                (* l.547, [last_view_switch_time] *)
  t_scroll_off : Q;                 (* l.549 *)
  t_off_wait_check : Q;             (* l.550 *)
  t_out_start_marquee : Q;          (* l.551 *)
  t_elapsed : Q;                    (* l.555 *)
  t_phase_start : Q;                (* l.562 *)
  frame_now : DateTime;             (* l.421 *)
  t_pause_start : Q;                (* l.468 *)
  t_pause_check : Q;                (* l.470 *)
  t_log_check : Q;                  (* l.602 *)
  t_log_reset : Q                   (* l.604 *)
}.

(** The weather cache file as [load_cache] returns it: a dictionary read
    through [.get('data')], [.get('timestamp', 0)] and [.get('ai_tip', ...)]. *)
Record CachedInfo := {
  info_data : option Json;
  info_timestamp : option Q;
  info_ai_tip : option string
}.

(** What [main] reads before the loop. *)
Record StartupInput := {
  icon_file : option Icon;               (* [get_umbrella_icon()] *)
  weather_cache_file : option CachedInfo;  (* [load_cache(WEATHER_CACHE_FILE)] *)
  forecast_cache_file : option Json;     (* [load_cache(FORECAST_CACHE_FILE)] *)
  t_log_timer : Q;                       (* l.511 *)
  t_first_view : Q                       (* l.512 *)
}.

(** How a run of [main] over finitely many loop iterations ends: [main]
    returned, or it is still inside [while True]. *)
Inductive Outcome :=
| Returned (events : list Event)
| Running (s : AppState) (events : list Event).

(** ** HTTP with retries *)

(** [_make_request_with_retries]: the iterations [attempt], [attempt+1], ...
    of the [for] loop, [remaining] of them. *)
Fixpoint request_attempts {Body : Type} (target : Endpoint) (http : nat -> option Body)
    (attempt remaining : nat) : option Body * list Event :=
  match remaining with
  | O => (None, [])
  | S remaining' =>
      match http attempt with
      | Some response => (Some response, [HttpRequest target])
      | None =>
          let (response, ev) := request_attempts target http (S attempt) remaining' in
          (response,
           HttpRequest target ::
           ((if (attempt <? MAX_RETRIES - 1)%nat then [Sleep RETRY_DELAY_SECONDS] else []) ++ ev)%list)
      end
  end.

Definition _make_request_with_retries {Body : Type} (target : Endpoint)
    (http : nat -> option Body) : Prog (option Body) :=
  fun s =>
    let (response, ev) := request_attempts target http 0 MAX_RETRIES in
    (response, s, ev).

(** What the module fixes at import: the configuration, the display's size
    ([device.width], [device.height]) and the four fonts of lines 148-151. *)
Record Platform := {
  the_config : Config;
  the_device_width : Z;
  the_device_height : Z;
  the_font_small : Font;
  the_font_medium : Font;
  the_font_medium_tall : Font;
  the_font_large : Font
}.

Section Program.

Variable pf : Platform.

Local Abbreviation config := (the_config pf).
Local Abbreviation device_width := (the_device_width pf).
Local Abbreviation device_height := (the_device_height pf).
Local Abbreviation font_small := (the_font_small pf).
Local Abbreviation font_medium := (the_font_medium pf).
Local Abbreviation font_medium_tall := (the_font_medium_tall pf).
Local Abbreviation font_large := (the_font_large pf).

(** Lines 158-160, run at import on the empty cache. *)
Definition module_raster_init : Z * RasterCache :=
  let '((hm_width_max, _, _), c1) := cachedBitmapText "23:59" font_large ∅ in
  let '((sec_width_max, _, _), c2) := cachedBitmapText ":59" font_medium c1 in
  (hm_width_max + sec_width_max, c2).

Definition MAX_CLOCK_WIDTH : Z := fst module_raster_init.

(** The globals as the module leaves them at import; the locals of [main]
    hold what [main] first assigns to them, given its two clock readings. *)
Definition initial_state (t_log_timer t_first_view : Q) : AppState := {|
  last_update_time := 0;
  current_weather_bg := None;
  forecast_bg := None;
  weather_data_cache := None;
  forecast_data_cache := None;
  bitmapRenderCache := snd module_raster_init;
  ai_tip_cache := "Fetching weather tip...";
  pixelsUp := 0;
  hasElevated := 0;
  scroll_x := 0;
  animation_pause_timer := 0;
  scroll_completion_event_fired := false;
  transition_state := None;
  transition_start_time := 0;
  umbrella_icon := None;
  animation_viewport := None;
  cached_date_str := "";
  cached_date_day := -1;
  log_timer := t_log_timer;
  is_showing_forecast := false;
  scroll_off_event_time := 0;
  last_view_switch_time := t_first_view;
  is_active := None
|}.

(** *** Fetches *)

Definition get_weather (w : TickInput) : Prog (option Json) :=
  (let* response := _make_request_with_retries WeatherApi (weather_http w) in
   match response with
   | Some body =>
       assign (set_last_update_time (t_weather_received w)) ;;;
       ret (Some body)
   | None => ret None
   end)%prog.

Definition get_forecast (w : TickInput) : Prog (option Json) :=
  _make_request_with_retries ForecastApi (forecast_http w).

Definition key_missing : bool :=
  String.eqb (API_KEY config) "key_not_set" || String.eqb (API_KEY config) "".

Definition get_ai_weather_tip (w : TickInput) : Prog string :=
  if key_missing then ret "Weather tip currently unavailable."
  else
    (let* response := _make_request_with_retries AssistantApi (assistant_http w) in
     ret match response with
         | Some (Some answer) => PyStr.strip answer
         | _ => "Weather tip currently unavailable."
         end)%prog.

(** *** Date line ([get_display_date_str]) *)

(** [(umbrella_icon.width + 10) if is_umbrella_visible else 0] *)
Definition icon_space_needed (is_umbrella_visible : bool) (s : AppState) : Z :=
  if is_umbrella_visible
  then match umbrella_icon s with
       | Some icon => icon_width icon + 10
       | None => 0 (* not reached: a visible umbrella has an icon *)
       end
  else 0.

Definition get_display_date_str (now : DateTime) (is_umbrella_visible : bool)
  : Prog string :=
  fun s =>
    let candidates := date_formats now in
    let final_date_str := List.last candidates "" in
    let (final_date_str, cache') :=
      fit_loop font_medium_tall device_width MAX_CLOCK_WIDTH
               (icon_space_needed is_umbrella_visible s)
               candidates final_date_str (bitmapRenderCache s) in
    (final_date_str, set_bitmapRenderCache cache' s, []).

(** *** Frame content ([draw_frame_content]) *)

(** [pixelsUp, hasElevated, scroll_x, scroll_completion_event_fired = 0, 0, 0, False] *)
Definition reset_marquee : Prog unit :=
  (assign (set_pixelsUp 0) ;;;
   assign (set_hasElevated 0) ;;;
   assign (set_scroll_x 0) ;;;
   assign (set_scroll_completion_event_fired false))%prog.

(** Lines 464-472, the marquee's step on a frame that is not a transition
    frame. *)
Definition advance_marquee (w : TickInput) (tip_width tip_height : Z) : Prog unit :=
  (let* up := gets pixelsUp in
   let* elevated := gets hasElevated in
   (if up <? tip_height then assign (set_pixelsUp (up + 1))
    else if elevated =? 0 then
      assign (set_hasElevated 1) ;;;
      assign (set_animation_pause_timer (t_pause_start w))
    else ret tt) ;;;
   let* elevated := gets hasElevated in
   let* pause_start := gets animation_pause_timer in
   let* fired := gets scroll_completion_event_fired in
   when (negb (elevated =? 0)
         && Qgtb (t_pause_check w - pause_start) (inject_Z (SCROLL_PAUSE_SECONDS config))
         && negb fired)
     (let* x := gets scroll_x in
      assign (set_scroll_x (x + 1)) ;;;
      when (x + 1 >? tip_width) (assign (set_scroll_completion_event_fired true))))%prog.

Definition draw_frame_content (w : TickInput) (background : option Image)
    (is_transitioning : bool) : Prog (list DrawOp) :=
  (let* the_forecast_bg := gets forecast_bg in
   let is_forecast_view := image_is background the_forecast_bg in
   let now := frame_now w in
   let ops_background :=
     match background with
     | Some img => [DrawBitmap (0, 0) (PicBackground img)]
     | None => []
     end in
   (* clock *)
   let* (hm_width, hm_height, hm_bitmap) := cachedBitmapTextM (strftime_HM now) font_large in
   let* (sec_width, _, sec_bitmap) := cachedBitmapTextM (strftime_S now) font_medium in
   let ops_clock :=
     [DrawBitmap (0, 0) (PicText hm_bitmap); DrawBitmap (hm_width, 1) (PicText sec_bitmap)] in
   (* header right side and tip *)
   let* tip := gets ai_tip_cache in
   let* icon := gets umbrella_icon in
   let is_umbrella_visible :=
     SHOW_UMBRELLA_ICON config
     && match icon with Some _ => true | None => false end
     && (PyStr.contains "umbrella" (PyStr.lower tip) || DEBUG config) in
   let* right_content_str :=
     if is_forecast_view then ret (LOCATION config ++ " 24h forecast")
     else
       let* known_day := gets cached_date_day in
       when (negb (day now =? known_day))
         (let* date_str := get_display_date_str now is_umbrella_visible in
          assign (set_cached_date_str date_str) ;;;
          assign (set_cached_date_day (day now))) ;;;
       gets cached_date_str in
   let* (content_width, content_height, content_bitmap) :=
     cachedBitmapTextM right_content_str font_medium_tall in
   let content_x := device_width - content_width in
   let ops_content := [DrawBitmap (content_x, 1) (PicText content_bitmap)] in
   let ops_icon :=
     if is_umbrella_visible then
       match icon with
       | Some i =>
           let available_gap := content_x - MAX_CLOCK_WIDTH in
           let icon_x := MAX_CLOCK_WIDTH + (available_gap - icon_width i) / 2 in
           let icon_y := (hm_height - icon_height i) / 2 in
           [DrawBitmap (icon_x, icon_y) (PicIcon i)]
       | None => []
       end
     else [] in
   (* animated tip *)
   let* ops_tip :=
     if String.eqb tip "" then ret []
     else
       let* (tip_width, tip_height, tip_bitmap) := cachedBitmapTextM tip font_small in
       let* viewport := gets animation_viewport in
       when (match viewport with
             | None => true
             | Some (vw, vh) => negb ((vw =? tip_width) && (vh =? tip_height))
             end)
         (assign (set_animation_viewport (Some (tip_width, tip_height)))) ;;;
       let tip_x := content_x in
       let final_tip_y := 1 + content_height + 2 in
       when (negb is_transitioning) (advance_marquee w tip_width tip_height) ;;;
       let* x := gets scroll_x in
       let* up := gets pixelsUp in
       ret [DrawBitmap (tip_x, final_tip_y)
              (PicViewport (tip_width, tip_height) tip_bitmap (- x, tip_height - up))] in
   ret (ops_background ++ ops_clock ++ ops_content ++ ops_icon ++ ops_tip)%list)%prog.

(** [with canvas(device) as draw: ...]: the drawing is flushed to the
    device when the block is left. *)
Definition display_dynamic_elements (w : TickInput) (background : option Image)
  : Prog unit :=
  (let* ops := draw_frame_content w background false in
   emit (Flush ops))%prog.

(** *** The refresh scheduler (lines 525-543) *)

Definition refresh_due (now last : Q) : bool :=
  Qgtb (now - last) (inject_Z (UPDATE_INTERVAL_SECONDS config)).

(** The test of line 530 *)
Definition tip_accepted (new_tip current_tip : string) : bool :=
  negb (String.eqb new_tip "")
  && negb (String.eqb new_tip current_tip)
  && negb (PyStr.contains "unavailable" new_tip).

Definition refresh_block (w : TickInput) : Prog unit :=
  (let* last := gets last_update_time in
   if refresh_due (t_stale_check w) last then
     let* weather_data := get_weather w in
     let* forecast_data := get_forecast w in
     match weather_data with
     | Some data =>
         when (truthy data)
           (assign (set_weather_data_cache (Some data)) ;;;
            let* new_tip := get_ai_weather_tip w in
            let* current_tip := gets ai_tip_cache in
            when (tip_accepted new_tip current_tip)
              (assign (set_ai_tip_cache new_tip) ;;;
               reset_marquee) ;;;
            let* timestamp := gets last_update_time in
            let* tip := gets ai_tip_cache in
            emit (SaveCache WEATHER_CACHE_FILE
                    (WeatherDoc timestamp data
                       (if negb (PyStr.contains "unavailable" tip)
                           && negb (PyStr.contains "Fetching" tip)
                        then Some tip else None))) ;;;
            assign (set_current_weather_bg (Some (render_current_weather_bg data))))
     | None => ret tt
     end ;;;
     match forecast_data with
     | Some data =>
         when (truthy data)
           (assign (set_forecast_data_cache (Some data)) ;;;
            emit (SaveCache FORECAST_CACHE_FILE (ForecastDoc data)) ;;;
            assign (set_forecast_bg (Some (render_forecast_bg data))))
     | None => ret tt
     end
   else ret tt)%prog.

(** *** Start of a view switch (lines 545-552) *)

Definition view_switch_block (w : TickInput) : Prog unit :=
  (let duration := DISPLAY_DURATION config in
   let* last_switch := gets last_view_switch_time in
   let* state := gets transition_state in
   if (duration >? 0)
      && Qgtb (t_display_check w - last_switch) (inject_Z duration)
      && match state with None => true | Some _ => false end
   then
     assign (set_transition_state (Some PhaseOut)) ;;;
     assign (set_transition_start_time (t_out_start w)) ;;;
     assign (set_last_view_switch_time (t_view_switch w))
   else if duration =? 0 then
     let* fired := gets scroll_completion_event_fired in
     let* off_time := gets scroll_off_event_time in
     when (fired && Qeq_bool off_time 0)
       (assign (set_scroll_off_event_time (t_scroll_off w))) ;;;
     let* off_time := gets scroll_off_event_time in
     let* state := gets transition_state in
     when (negb (Qeq_bool off_time 0)
           && Qgtb (t_off_wait_check w - off_time)
                   (inject_Z (SCROLL_OFF_SCREEN_WAIT_SECONDS config))
           && match state with None => true | Some _ => false end)
       (assign (set_transition_state (Some PhaseOut)) ;;;
        assign (set_transition_start_time (t_out_start_marquee w)) ;;;
        assign (set_scroll_off_event_time 0) ;;;
        assign (set_scroll_completion_event_fired false))
   else ret tt)%prog.

(** *** Transition phases and frame rendering (lines 554-600) *)

(** [config.get('TRANSITION_EFFECT') in ['wipe', 'blink']] *)
Definition effect_has_in_phase : bool :=
  String.eqb (TRANSITION_EFFECT config) "wipe"
  || String.eqb (TRANSITION_EFFECT config) "blink".

(** [forecast_bg if is_showing_forecast else current_weather_bg] *)
Definition view_background (s : AppState) : option Image :=
  if is_showing_forecast s then forecast_bg s else current_weather_bg s.

(** The rectangles drawn over the frame (lines 584-598).  [progress] is
    [elapsed / duration]; the division is reached with [elapsed < duration]
    only. *)
Definition transition_overlay (is_out : bool) (progress : Q) : list DrawOp :=
  let effect := TRANSITION_EFFECT config in
  let center_x := device_width / 2 in
  let center_y := device_height / 2 in
  if String.eqb effect "wipe" then
    if is_out then
      let curtain_width := Qtrunc (inject_Z device_width * progress) in
      [DrawRectangle (device_width - curtain_width, 0) (device_width, device_height)]
    else
      let curtain_x := Qtrunc (inject_Z device_width * progress) in
      [DrawRectangle (curtain_x, 0) (device_width, device_height)]
  else if String.eqb effect "blink" then
    let p := (if is_out then 1 - progress else progress)%Q in
    let w := Qtrunc (inject_Z center_x * p) in
    let h := Qtrunc (inject_Z center_y * p) in
    [DrawRectangle (0, 0) (device_width, center_y - h);
     DrawRectangle (0, center_y + h) (device_width, device_height);
     DrawRectangle (0, center_y - h) (center_x - w, center_y + h);
     DrawRectangle (center_x + w, center_y - h) (device_width, center_y + h)]
  else [].

Definition transition_block (w : TickInput) : Prog unit :=
  (let* state := gets transition_state in
   match state with
   | Some phase =>
       let* start := gets transition_start_time in
       let elapsed := (t_elapsed w - start)%Q in
       let duration := TRANSITION_DURATION_SECONDS config in
       if Qgeb elapsed duration then
         match phase with
         | PhaseOut =>
             let* showing := gets is_showing_forecast in
             assign (set_is_showing_forecast (negb showing)) ;;;
             reset_marquee ;;;
             assign (set_transition_state
                       (if effect_has_in_phase then Some PhaseIn else None)) ;;;
             assign (set_transition_start_time (t_phase_start w))
         | PhaseIn =>
             assign (set_transition_state None)
         end
       else
         let progress := (elapsed / duration)%Q in
         let is_out := match phase with PhaseOut => true | PhaseIn => false end in
         let* bg_to_draw :=
           if is_out then gets view_background   (* fading out the current view *)
           else gets view_background in          (* fading in the new view *)
         let* ops := draw_frame_content w bg_to_draw true in
         emit (Flush (ops ++ transition_overlay is_out progress)%list)
   | None =>
       let* background := gets view_background in
       display_dynamic_elements w background
   end)%prog.

(** Lines 602-604 *)
Definition log_block (w : TickInput) : Prog unit :=
  (let* since := gets log_timer in
   when (Qgtb (t_log_check w - since) 30)
     (emit PrintFramerate ;;;
      assign (set_log_timer (t_log_reset w))))%prog.

(** *** The loop *)

(** The body of [with regulator:], one frame tick. *)
Definition tick (w : TickInput) : Prog unit :=
  (refresh_block w ;;;
   view_switch_block w ;;;
   transition_block w ;;;
   log_block w)%prog.

(** One iteration of [while True]. *)
Definition loop_iteration (w : TickInput) : Prog unit :=
  (let should_be_active :=
     is_within_operating_hours (OPERATING_HOURS config) (now_hour w) in
   let* active := gets is_active in
   when (match active with
         | Some b => negb (Bool.eqb should_be_active b)
         | None => true
         end)
     (assign (set_is_active (Some should_be_active))) ;;;
   let* active := gets is_active in
   match active with
   | Some true => tick w
   | _ => emit (Sleep 60)
   end)%prog.

(** [while True] over the iterations for which input is supplied. *)
Fixpoint main_loop (inputs : list TickInput) : Prog unit :=
  match inputs with
  | [] => ret tt
  | w :: rest => (loop_iteration w ;;; main_loop rest)%prog
  end.

(** Lines 498-513 *)
Definition startup (i : StartupInput) : AppState :=
  let s := initial_state (t_log_timer i) (t_first_view i) in
  let s := set_umbrella_icon (icon_file i) s in
  let cached_info_truthy :=
    match weather_cache_file i with
    | Some info =>
        match info_data info, info_timestamp info, info_ai_tip info with
        | None, None, None => false
        | _, _, _ => true
        end
    | None => false
    end in
  let s :=
    match weather_cache_file i with
    | Some info =>
        if cached_info_truthy then
          set_ai_tip_cache
            (match info_ai_tip info with
             | Some tip => tip
             | None => "Weather tip unavailable."
             end)
            (set_last_update_time
               (match info_timestamp info with Some t => t | None => 0 end)
               (set_weather_data_cache (info_data info) s))
        else s
    | None => s
    end in
  let s :=
    if FORCE_REFRESH_ON_START config || negb cached_info_truthy
    then set_last_update_time 0 s else s in
  let s := set_forecast_data_cache (forecast_cache_file i) s in
  let s :=
    match weather_data_cache s with
    | Some data =>
        if truthy data
        then set_current_weather_bg (Some (render_current_weather_bg data)) s else s
    | None => s
    end in
  match forecast_data_cache s with
  | Some data =>
      if truthy data
      then set_forecast_bg (Some (render_forecast_bg data)) s else s
  | None => s
  end.

(** [main]: the guard on the API key, then start-up and the loop.  (The
    frame-rate regulator only paces the loop and is left out.) *)
Definition main (i : StartupInput) (inputs : list TickInput) : Outcome :=
  if key_missing
  then
    let '(_, _, bmp) := fst (cachedBitmapText "API Key Not Set!" font_medium
                               (snd module_raster_init)) in
    Returned [Flush [DrawBitmap (10, 20) (PicText bmp)]; Sleep 1800]
  else
    let '(_, s, ev) := main_loop inputs (startup i) in
    Running s ev.

End Program.

(** ** Concrete values for examples *)

Module Sample.

(** A fixed-pitch stand-in for a TrueType face: every glyph advances by
    [advance] pixels, the line is [size] pixels high. *)
Definition fixed_pitch (file family style : string) (size advance : Z) : Font := {|
  font_file := file;
  font_size := size;
  getname := (family, style);
  getbbox := fun text => (0, 0, advance * Z.of_nat (String.length text), size)
|}.

(** The fonts of lines 148-151: [font_medium], [font_medium_tall] and
    [font_large] are loaded from the same file at sizes 10, 10 and 16. *)
Definition font_small := fixed_pitch "Dot Matrix Regular4.ttf" "Dot Matrix" "Regular" 10 5.
Definition font_medium := fixed_pitch "Dot Matrix Bold.ttf" "Dot Matrix" "Bold" 10 6.
Definition font_medium_tall := fixed_pitch "Dot Matrix Bold.ttf" "Dot Matrix" "Bold" 10 6.
Definition font_large := fixed_pitch "Dot Matrix Bold.ttf" "Dot Matrix" "Bold" 16 9.

(** The defaults of [loadConfig], with an API key. *)
Definition config : Config := {|
  API_KEY := "0123456789abcdef";
  LOCATION := "London";
  DEBUG := false;
  UPDATE_INTERVAL_SECONDS := 1800;
  FORCE_REFRESH_ON_START := false;
  OPERATING_HOURS := "8-22";
  DISPLAY_DURATION := 0;
  SCROLL_PAUSE_SECONDS := 2;
  SCROLL_OFF_SCREEN_WAIT_SECONDS := 1;
  TRANSITION_DURATION_SECONDS := 2 # 10;
  TRANSITION_EFFECT := "wipe";
  SHOW_UMBRELLA_ICON := true
|}.

(** The same with [displayDuration=5]. *)
Definition config_timed : Config := {|
  API_KEY := "0123456789abcdef";
  LOCATION := "London";
  DEBUG := false;
  UPDATE_INTERVAL_SECONDS := 1800;
  FORCE_REFRESH_ON_START := false;
  OPERATING_HOURS := "8-22";
  DISPLAY_DURATION := 5;
  SCROLL_PAUSE_SECONDS := 2;
  SCROLL_OFF_SCREEN_WAIT_SECONDS := 1;
  TRANSITION_DURATION_SECONDS := 2 # 10;
  TRANSITION_EFFECT := "wipe";
  SHOW_UMBRELLA_ICON := true
|}.

(** The defaults of [loadConfig] when [openWeatherApiKey] is not set. *)
Definition config_no_key : Config := {|
  API_KEY := loadConfig_API_KEY (fun _ => None);
  LOCATION := "London";
  DEBUG := false;
  UPDATE_INTERVAL_SECONDS := 1800;
  FORCE_REFRESH_ON_START := false;
  OPERATING_HOURS := "8-22";
  DISPLAY_DURATION := 0;
  SCROLL_PAUSE_SECONDS := 2;
  SCROLL_OFF_SCREEN_WAIT_SECONDS := 1;
  TRANSITION_DURATION_SECONDS := 2 # 10;
  TRANSITION_EFFECT := "wipe";
  SHOW_UMBRELLA_ICON := true
|}.

(** The ssd1322 is 256 by 64 pixels. *)
Definition platform_with (cfg : Config) : Platform := {|
  the_config := cfg;
  the_device_width := 256;
  the_device_height := 64;
  the_font_small := font_small;
  the_font_medium := font_medium;
  the_font_medium_tall := font_medium_tall;
  the_font_large := font_large
|}.

(** A narrower display, to see the date line shorten. *)
Definition platform_of_width (width : Z) : Platform := {|
  the_config := config;
  the_device_width := width;
  the_device_height := 64;
  the_font_small := font_small;
  the_font_medium := font_medium;
  the_font_medium_tall := font_medium_tall;
  the_font_large := font_large
|}.

Definition platform : Platform := platform_with config.
Definition platform_timed : Platform := platform_with config_timed.
Definition platform_no_key : Platform := platform_with config_no_key.

Definition weather_body : Json :=
  JObj [("name", JStr "London"); ("main", JObj [("temp", JNum 11)])].
Definition forecast_body : Json := JObj [("list", JList [])].

(** Monday 1 January 2024, 12:00:00 *)
Definition new_year : DateTime :=
  {| year := 2024; month := 1; day := 1; hour := 12; minute := 0; second := 0; weekday := 0 |}.

(** An iteration at wall-clock second [t] in which every clock reading is
    [t], the servers answer at the first attempt and the assistant answers
    [tip]. *)
Definition input_at (t : Q) (tip : string) : TickInput := {|
  now_hour := 12;
  t_stale_check := t;
  weather_http := fun _ => Some weather_body;
  t_weather_received := t;
  forecast_http := fun _ => Some forecast_body;
  assistant_http := fun _ => Some (Some tip);
  t_display_check := t;
  t_out_start := t;
  t_view_switch := t;
  t_scroll_off := t;
  t_off_wait_check := t;
  t_out_start_marquee := t;
  t_elapsed := t;
  t_phase_start := t;
  frame_now := new_year;
  t_pause_start := t;
  t_pause_check := t;
  t_log_check := t;
  t_log_reset := t
|}.

(** A start with no icon and no cache files, at second 0. *)
Definition cold_start : StartupInput := {|
  icon_file := None;
  weather_cache_file := None;
  forecast_cache_file := None;
  t_log_timer := 0;
  t_first_view := 0
|}.

Definition state0 : AppState := startup platform cold_start.

End Sample.

(** ** Vocabulary of the statements *)

(** The string is two integers separated by one dash. *)
Definition two_dash_separated_integers (s : string) : Prop :=
  exists a b x y,
    s = a ++ "-" ++ b
    /\ PyStr.contains "-" a = false /\ PyStr.contains "-" b = false
    /\ PyStr.int a = Some x /\ PyStr.int b = Some y.

(** [m] leaves the observation [f] of the state as it was. *)
Definition Preserves {A B} (f : AppState -> B) (m : Prog A) : Prop :=
  forall s, f (state_after (m s)) = f s.

(** Every event [m] causes satisfies [P]. *)
Definition Emits {A} (P : Event -> Prop) (m : Prog A) : Prop :=
  forall s, Forall P (events_of (m s)).

(** [m] returns a value satisfying [Q]. *)
Definition Returns {A} (Q : A -> Prop) (m : Prog A) : Prop :=
  forall s, Q (value_of (m s)).

Definition is_http (e : Event) : bool :=
  match e with HttpRequest _ => true | _ => false end.

Definition is_flush (e : Event) : bool :=
  match e with Flush _ => true | _ => false end.

Definition no_http (e : Event) : Prop := is_http e = false.

(** The spec's RefreshState: last success, cached weather, cached forecast,
    cached tip. *)
Definition refresh_state_of (s : AppState) : Q * option Json * option Json * string :=
  (last_update_time s, weather_data_cache s, forecast_data_cache s, ai_tip_cache s).

(** The four marquee fields: vertical offset, has-fully-risen, horizontal
    offset, scroll-complete. *)
Definition marquee_of (s : AppState) : Z * Z * Z * bool :=
  (pixelsUp s, hasElevated s, scroll_x s, scroll_completion_event_fired s).

Definition marquee_zero : Z * Z * Z * bool := (0, 0, 0, false).

(** The transition controller's variables and the view selector. *)
Definition control_of (s : AppState) : option TransitionPhase * Q * bool :=
  (transition_state s, transition_start_time s, is_showing_forecast s).

(** Everything a frame drawing never assigns. *)
Definition beyond_drawing (s : AppState) :=
  (refresh_state_of s, control_of s, (current_weather_bg s, forecast_bg s),
   (umbrella_icon s, log_timer s, scroll_off_event_time s,
    last_view_switch_time s, is_active s)).

(** The background picture at the bottom of a frame, if it has one. *)
Definition frame_background (ops : list DrawOp) : option Image :=
  match ops with
  | DrawBitmap _ (PicBackground img) :: _ => Some img
  | _ => None
  end.

Section Stages.
Variable pf : Platform.

(** The state of a tick after each of its blocks. *)
Definition after_refresh (w : TickInput) (s : AppState) : AppState :=
  state_after (refresh_block pf w s).
Definition after_view_switch (w : TickInput) (s : AppState) : AppState :=
  state_after (view_switch_block pf w (after_refresh w s)).
Definition after_transition (w : TickInput) (s : AppState) : AppState :=
  state_after (transition_block pf w (after_view_switch w s)).

(** The test of line 557, as the state stands when line 555 is reached. *)
Definition phase_elapsed (w : TickInput) (s : AppState) : bool :=
  Qgeb (t_elapsed w - transition_start_time s)
       (TRANSITION_DURATION_SECONDS (the_config pf)).

(** The tick reaches the end of an Out phase: at line 554 the state is
    ['out'] and the phase's time is up. *)
Definition completes_out_phase (w : TickInput) (s : AppState) : bool :=
  match transition_state (after_view_switch w s) with
  | Some PhaseOut => phase_elapsed w (after_view_switch w s)
  | _ => false
  end.
End Stages.

(** The key under which [cachedBitmapText] files a call. *)
Definition raster_key (call : string * Font) : string :=
  fst call ++ fontKey (snd call).

(** What a cache entry gives back on a hit. *)
Definition entry_result (pre : CachedRasterEntry) : Z * Z * Bitmap :=
  (txt_width pre, txt_height pre, bitmap pre).

(** Successive calls of [cachedBitmapText], each on the cache the previous
    one left: the results in order and the final cache. *)
Fixpoint raster_calls (calls : list (string * Font)) (cache : RasterCache)
  : list (Z * Z * Bitmap) * RasterCache :=
  match calls with
  | [] => ([], cache)
  | (text, font) :: rest =>
      let (r, cache') := cachedBitmapText text font cache in
      let (rs, cache'') := raster_calls rest cache' in
      (r :: rs, cache'')
  end.

(** Calls filed under one key rasterise to the same result. *)
Definition no_key_clash (calls : list (string * Font)) : Prop :=
  forall c1 c2, In c1 calls -> In c2 calls ->
    raster_key c1 = raster_key c2 ->
    rasterize (fst c1) (snd c1) = rasterize (fst c2) (snd c2).

(** The width the raster cache reports for [text] in [font]. *)
Definition measured_width (font : Font) (cache : RasterCache) (text : string) : Z :=
  fst (fst (fst (cachedBitmapText text font cache))).

(** The fitter's test: the gap left of the text, after the reserved width
    on the left, holds the extra reserve. *)
Definition fits (font : Font) (total_width reserved_left extra_reserved : Z)
    (cache : RasterCache) (text : string) : bool :=
  (total_width - measured_width font cache text) - reserved_left >=? extra_reserved.

(** The first candidate that passes the test, the fallback when none does. *)
Definition first_fit (fit : string -> bool) (candidates : list string)
    (fallback : string) : string :=
  match List.find fit candidates with
  | Some c => c
  | None => fallback
  end.

(** [main] is still in its loop. *)
Definition still_running (o : Outcome) : Prop :=
  match o with
  | Running _ _ => True
  | Returned _ => False
  end.

(** [needle] occurs in [hay]. *)
Definition is_substring (needle hay : string) : Prop :=
  exists pre post, hay = pre ++ needle ++ post.

(** The answer of the weather request of an iteration, after retries. *)
Definition weather_fetched (w : TickInput) : option Json :=
  fst (request_attempts WeatherApi (weather_http w) 0 MAX_RETRIES).

(** The iteration asks the assistant for a tip: a refresh is due and the
    weather request gave (truthy) data. *)
Definition tip_requested (pf : Platform) (w : TickInput) (s : AppState) : bool :=
  refresh_due pf (t_stale_check w) (last_update_time s)
  && match weather_fetched w with
     | Some data => truthy data
     | None => false
     end.

(** ** The transition controller as a state machine *)

(** The moves of [transition_state] the specification allows; [has_in_phase]
    tells whether the configured effect has an entry animation. *)
Inductive allowed_move (has_in_phase : bool)
  : option TransitionPhase -> option TransitionPhase -> Prop :=
| idle_to_out : allowed_move has_in_phase None (Some PhaseOut)
| out_to_in : has_in_phase = true ->
              allowed_move has_in_phase (Some PhaseOut) (Some PhaseIn)
| out_to_idle : has_in_phase = false ->
                allowed_move has_in_phase (Some PhaseOut) None
| in_to_idle : allowed_move has_in_phase (Some PhaseIn) None.

Definition stays_or_moves (has_in_phase : bool)
    (a b : option TransitionPhase) : Prop :=
  a = b \/ allowed_move has_in_phase a b.

(** Every two neighbours of the list are related. *)
Fixpoint chain {A} (R : A -> A -> Prop) (l : list A) : Prop :=
  match l with
  | a :: (b :: _) as tl => R a b /\ chain R tl
  | _ => True
  end.

Section Runs.
Variable pf : Platform.

(** [transition_state] after each of the four blocks of a tick: within a
    block the variable is assigned at most once. *)
Definition tick_trace (w : TickInput) (s : AppState) : list (option TransitionPhase) :=
  [ transition_state (after_refresh pf w s);
    transition_state (after_view_switch pf w s);
    transition_state (after_transition pf w s);
    transition_state (state_after (tick pf w s)) ].

(** The values of [transition_state] along a sequence of ticks. *)
Fixpoint run_trace (inputs : list TickInput) (s : AppState)
  : list (option TransitionPhase) :=
  match inputs with
  | [] => []
  | w :: rest => (tick_trace w s ++ run_trace rest (state_after (tick pf w s)))%list
  end.

(** The state after a sequence of ticks. *)
Fixpoint run (inputs : list TickInput) (s : AppState) : AppState :=
  match inputs with
  | [] => s
  | w :: rest => run rest (state_after (tick pf w s))
  end.

(** [forecast_bg] for the forecast view, [current_weather_bg] for the
    other. *)
Definition background_of_view (showing_forecast : bool) (s : AppState)
  : option Image :=
  if showing_forecast then forecast_bg s else current_weather_bg s.

(** The pre-switch view of the transition in progress, [None] when no
    transition is in progress: it is noted when a tick enters the Out
    phase ... *)
Definition cycle_start (w : TickInput) (s : AppState) (pre_switch : option bool)
  : option bool :=
  match transition_state (after_refresh pf w s),
        transition_state (after_view_switch pf w s) with
  | None, Some PhaseOut => Some (is_showing_forecast (after_view_switch pf w s))
  | _, _ => pre_switch
  end.

(** ... and forgotten when the tick leaves the controller idle. *)
Definition cycle_end (w : TickInput) (s : AppState) (pre_switch : option bool)
  : option bool :=
  match transition_state (after_transition pf w s) with
  | None => None
  | Some _ => pre_switch
  end.

(** The transition frame of a tick, if it draws one, shows the pre-switch
    view's background in the Out phase and the other view's background in
    the In phase. *)
Definition transition_frame_ok (w : TickInput) (s : AppState)
    (pre_switch : option bool) : Prop :=
  let s2 := after_view_switch pf w s in
  forall phase ops,
    transition_state s2 = Some phase ->
    events_of (transition_block pf w s2) = [Flush ops] ->
    exists v,
      pre_switch = Some v
      /\ frame_background ops
         = background_of_view
             (match phase with PhaseOut => v | PhaseIn => negb v end) s2.

Fixpoint transition_frames_ok (pre_switch : option bool)
    (inputs : list TickInput) (s : AppState) : Prop :=
  match inputs with
  | [] => True
  | w :: rest =>
      let pre := cycle_start w s pre_switch in
      transition_frame_ok w s pre
      /\ transition_frames_ok (cycle_end w s pre) rest (state_after (tick pf w s))
  end.
End Runs.

(** While a transition is in progress, the noted pre-switch view is the
    selected view in the Out phase and the other view in the In phase. *)
Definition cycle_inv (pre_switch : option bool) (s : AppState) : Prop :=
  match transition_state s with
  | None => True
  | Some PhaseOut => pre_switch = Some (is_showing_forecast s)
  | Some PhaseIn => pre_switch = Some (negb (is_showing_forecast s))
  end.

(** ** A sample run through one view switch *)

Module SampleRun.
Import Sample.

Definition tip : string := "Mild in London, light wind".

Definition state0_timed : AppState := startup platform_timed cold_start.

(** Ticks at 1801.0, 1801.1, ..., 1801.5 seconds with [displayDuration=5]
    and a transition of 0.2 seconds. *)
Definition view_switch_run : list TickInput :=
  [ input_at 1801 tip; input_at (18011 # 10) tip; input_at (18012 # 10) tip;
    input_at (18013 # 10) tip; input_at (18014 # 10) tip; input_at (18015 # 10) tip ].

Definition current_bg : option Image := Some (RenderedCurrentWeather weather_body).
Definition new_forecast_bg : option Image := Some (RenderedForecast forecast_body).

(** The backgrounds of the frames flushed by a list of events. *)
Definition flushed_backgrounds (events : list Event) : list (option Image) :=
  flat_map (fun e => match e with
                     | Flush ops => [frame_background ops]
                     | _ => []
                     end) events.

(** Per tick of a run: the state and view selector it ends in, and the
    backgrounds of the frames it flushed. *)
Fixpoint observe (pf : Platform) (inputs : list TickInput) (s : AppState)
  : list (option TransitionPhase * bool * list (option Image)) :=
  match inputs with
  | [] => []
  | w :: rest =>
      let r := tick pf w s in
      (transition_state (state_after r), is_showing_forecast (state_after r),
       flushed_backgrounds (events_of r))
      :: observe pf rest (state_after r)
  end.
End SampleRun.

(** ** Further functions of [main.py] *)

Definition Qltb (a b : Q) : bool := negb (Qle_bool b a).

(** [format_time_ago]: [now] is [get_current_timestamp()]. *)
Definition format_time_ago (now timestamp : Q) : string :=
  if Qeq_bool timestamp 0 then ""
  else
    let diff := (now - timestamp)%Q in
    if Qltb diff 60 then "Just updated"
    else if Qltb diff 3600 then
      "Updated " ++ PyStr.of_int (Qtrunc (diff / 60)) ++ "m ago"
    else if Qltb diff 86400 then
      "Updated " ++ PyStr.of_int (Qtrunc (diff / 3600)) ++ "h ago"
    else "Updated " ++ PyStr.of_int (Qtrunc (diff / 86400)) ++ "d ago".

(** ** Observations of a tick's events and inputs *)

(** The endpoints requested, in order. *)
Definition requests_of (events : list Event) : list Endpoint :=
  flat_map (fun e => match e with HttpRequest t => [t] | _ => [] end) events.

(** The seconds slept. *)
Definition sleeps_of (events : list Event) : list Q :=
  flat_map (fun e => match e with Sleep q => [q] | _ => [] end) events.

(** The cache documents written, in order. *)
Definition saved_docs (events : list Event) : list (CacheFile * CacheDoc) :=
  flat_map (fun e => match e with SaveCache f d => [(f, d)] | _ => [] end) events.

(** The answer of the forecast request of an iteration, after retries. *)
Definition forecast_fetched (w : TickInput) : option Json :=
  fst (request_attempts ForecastApi (forecast_http w) 0 MAX_RETRIES).

(** [if data:] for what a fetch returned: a response with a truthy body. *)
Definition usable (data : option Json) : bool :=
  match data with
  | Some j => truthy j
  | None => false
  end.

Definition answered (data : option Json) : bool :=
  match data with
  | Some _ => true
  | None => false
  end.

(** The events of a request with its retries. *)
Definition attempt_events {Body : Type} (target : Endpoint) (http : nat -> option Body)
  : list Event :=
  snd (request_attempts target http 0 MAX_RETRIES).

(** Lines 535-536: the tip as it goes into the cache file, left out when it
    is a placeholder. *)
Definition saved_tip (tip : string) : option string :=
  if negb (PyStr.contains "unavailable" tip) && negb (PyStr.contains "Fetching" tip)
  then Some tip else None.

(** What [load_cache] returns for a file that [save_cache] wrote with this
    document: the dictionary with the keys ['timestamp'], ['data'] and, when
    the tip was saved, ['ai_tip']. *)
Definition cached_info_of_doc (doc : CacheDoc) : option CachedInfo :=
  match doc with
  | WeatherDoc timestamp data ai_tip =>
      Some {| info_data := Some data;
              info_timestamp := Some timestamp;
              info_ai_tip := ai_tip |}
  | ForecastDoc _ => None
  end.

Module SampleNet.
Import Sample.

(** An iteration at second [t] in which every request fails. *)
Definition offline_at (t : Q) : TickInput := {|
  now_hour := 12;
  t_stale_check := t;
  weather_http := fun _ => None;
  t_weather_received := t;
  forecast_http := fun _ => None;
  assistant_http := fun _ => None;
  t_display_check := t;
  t_out_start := t;
  t_view_switch := t;
  t_scroll_off := t;
  t_off_wait_check := t;
  t_out_start_marquee := t;
  t_elapsed := t;
  t_phase_start := t;
  frame_now := new_year;
  t_pause_start := t;
  t_pause_check := t;
  t_log_check := t;
  t_log_reset := t
|}.

(** An iteration at second [t] in which the weather server answers with an
    empty JSON object and the forecast server with a forecast. *)
Definition empty_answer_at (t : Q) : TickInput := {|
  now_hour := 12;
  t_stale_check := t;
  weather_http := fun _ => Some (JObj []);
  t_weather_received := t;
  forecast_http := fun _ => Some forecast_body;
  assistant_http := fun _ => None;
  t_display_check := t;
  t_out_start := t;
  t_view_switch := t;
  t_scroll_off := t;
  t_off_wait_check := t;
  t_out_start_marquee := t;
  t_elapsed := t;
  t_phase_start := t;
  frame_now := new_year;
  t_pause_start := t;
  t_pause_check := t;
  t_log_check := t;
  t_log_reset := t
|}.

(** A start from the cache file a tick of the running program wrote. *)
Definition restart_from (doc : CacheDoc) : StartupInput := {|
  icon_file := None;
  weather_cache_file := cached_info_of_doc doc;
  forecast_cache_file := None;
  t_log_timer := 5000;
  t_first_view := 5000
|}.

Definition saved_weather_doc : CacheDoc :=
  WeatherDoc 1801 weather_body (Some SampleRun.tip).
End SampleNet.


Module SampleNight.
Import Sample.

(** An iteration at second [t] of an hour past the operating hours. *)
Definition night_at (t : Q) : TickInput := {|
  now_hour := 23;
  t_stale_check := t;
  weather_http := fun _ => Some weather_body;
  t_weather_received := t;
  forecast_http := fun _ => Some forecast_body;
  assistant_http := fun _ => None;
  t_display_check := t;
  t_out_start := t;
  t_view_switch := t;
  t_scroll_off := t;
  t_off_wait_check := t;
  t_out_start_marquee := t;
  t_elapsed := t;
  t_phase_start := t;
  frame_now := new_year;
  t_pause_start := t;
  t_pause_check := t;
  t_log_check := t;
  t_log_reset := t
|}.

Definition night : list TickInput := [night_at 5000; night_at 5060; night_at 5120].
End SampleNight.

(** ** Geometry of the transition overlay *)

(** A rectangle of the overlay lies within a screen of the given size,
    corners in order. *)
Definition rect_on_screen (width height : Z) (op : DrawOp) : Prop :=
  match op with
  | DrawRectangle (x0, y0) (x1, y1) =>
      0 <= x0 <= x1 /\ x1 <= width /\ 0 <= y0 <= y1 /\ y1 <= height
  | DrawBitmap _ _ => True
  end.

(** The frames flushed to the device. *)
Definition frames_of (events : list Event) : list (list DrawOp) :=
  flat_map (fun e => match e with Flush ops => [ops] | _ => [] end) events.

Module SampleFrozen.
Import Sample.

(** The defaults with [displayDuration=-1]. *)
Definition config_frozen : Config := {|
  API_KEY := "0123456789abcdef";
  LOCATION := "London";
  DEBUG := false;
  UPDATE_INTERVAL_SECONDS := 1800;
  FORCE_REFRESH_ON_START := false;
  OPERATING_HOURS := "8-22";
  DISPLAY_DURATION := -1;
  SCROLL_PAUSE_SECONDS := 2;
  SCROLL_OFF_SCREEN_WAIT_SECONDS := 1;
  TRANSITION_DURATION_SECONDS := 2 # 10;
  TRANSITION_EFFECT := "wipe";
  SHOW_UMBRELLA_ICON := true
|}.

Definition platform_frozen : Platform := platform_with config_frozen.
Definition state0_frozen : AppState := startup platform_frozen cold_start.
Definition day_run : list TickInput :=
  [input_at 1801 SampleRun.tip; input_at 1900 SampleRun.tip; input_at 90000 SampleRun.tip].
End SampleFrozen.

(** ** The marquee from one frame to the next *)

(** What one frame may do to [(pixelsUp, hasElevated, scroll_x,
    scroll_completion_event_fired)]: each offset stays or grows by one,
    [hasElevated] stays or goes from 0 to 1, the completion flag is not
    cleared and stops the scroll, and the text scrolls only once it has
    risen. *)
Definition marquee_step (before after : Z * Z * Z * bool) : Prop :=
  let '(up, elevated, x, fired) := before in
  let '(up', elevated', x', fired') := after in
  up <= up' <= up + 1
  /\ x <= x' <= x + 1
  /\ (elevated' = elevated \/ elevated = 0 /\ elevated' = 1 /\ up' = up)
  /\ (fired = true -> fired' = true /\ x' = x)
  /\ (x' <> x -> elevated' <> 0).

Definition Steps {A} (m : Prog A) : Prop :=
  forall s, marquee_step (marquee_of s) (marquee_of (state_after (m s))).

(** Without a tip, [m] leaves the marquee alone. *)
Definition IdleWithoutTip {A} (m : Prog A) : Prop :=
  forall s, ai_tip_cache s = "" -> marquee_of (state_after (m s)) = marquee_of s.

(** ** The cached date line *)

Definition date_line_of (s : AppState) : string * Z :=
  (cached_date_str s, cached_date_day s).

(** On the day [d] for which the date line was fitted, [m] keeps it. *)
Definition KeepsDateLine {A} (d : Z) (m : Prog A) : Prop :=
  forall s, cached_date_day s = d -> date_line_of (state_after (m s)) = date_line_of s.

Module SampleDay.
Import Sample.

(** The state after a first frame on 1 January. *)
Definition after_first_frame : AppState :=
  state_after (tick platform (input_at 1801 SampleRun.tip) state0).
End SampleDay.

(** ** [loadConfig] ([config.py]) *)

Section LoadConfig.

(** [os.getenv(name)], and [float(s)] with [None] for [ValueError]. *)
Variable getenv : string -> option string.
Variable float : string -> option Q.

(** [os.getenv(name, default)] for a string default. *)
Definition getenv_or (name default : string) : string :=
  match getenv name with
  | Some v => v
  | None => default
  end.

(** [int(os.getenv(name, default))] for an integer default: the default is
    used as it is, a value of the environment goes through [int()]. *)
Definition int_setting (name : string) (default : Z) : option Z :=
  match getenv name with
  | Some v => PyStr.int v
  | None => Some default
  end.

(** [float(os.getenv(name, default))] for a float default. *)
Definition float_setting (name : string) (default : Q) : option Q :=
  match getenv name with
  | Some v => float v
  | None => Some default
  end.

(** [os.getenv(name, default).lower() == 'true'] *)
Definition flag_setting (name default : string) : bool :=
  String.eqb (PyStr.lower (getenv_or name default)) "true".

Definition and_then {A B} (x : option A) (k : A -> option B) : option B :=
  match x with
  | Some a => k a
  | None => None
  end.

(** [loadConfig()], in the order of its assignments; [None] when one of the
    conversions raises [ValueError].  The result keeps the entries that
    [Config] has. *)
Definition loadConfig : option Config :=
  and_then (int_setting "screenRotation" 0) (fun _ =>
  and_then (int_setting "dcPin" 24) (fun _ =>
  and_then (int_setting "rstPin" 25) (fun _ =>
  and_then (int_setting "fps" 40) (fun _ =>
  and_then (int_setting "updateIntervalSeconds" 1800) (fun update_interval =>
  and_then (int_setting "apiErrorSleepSeconds" 1800) (fun _ =>
  and_then (int_setting "logIntervalSeconds" 1800) (fun _ =>
  and_then (int_setting "displayDuration" 0) (fun display_duration =>
  and_then (int_setting "scrollPauseSeconds" 2) (fun scroll_pause =>
  and_then (int_setting "scrollOffScreenWaitSeconds" 1) (fun scroll_off_wait =>
  and_then (float_setting "transitionDurationSeconds" (2 # 10)) (fun transition_duration =>
  Some {|
    API_KEY := loadConfig_API_KEY getenv;
    LOCATION := getenv_or "location" "London";
    DEBUG := flag_setting "debug" "False";
    UPDATE_INTERVAL_SECONDS := update_interval;
    FORCE_REFRESH_ON_START := flag_setting "forceRefresh" "False";
    OPERATING_HOURS := getenv_or "operatingHours" "8-22";
    DISPLAY_DURATION := display_duration;
    SCROLL_PAUSE_SECONDS := scroll_pause;
    SCROLL_OFF_SCREEN_WAIT_SECONDS := scroll_off_wait;
    TRANSITION_DURATION_SECONDS := transition_duration;
    TRANSITION_EFFECT := PyStr.lower (getenv_or "transitionEffect" "wipe");
    SHOW_UMBRELLA_ICON := flag_setting "showBrollyIcon" "True"
  |}))))))))))).

(** The variables [loadConfig] passes to [int()]. *)
Definition int_variables : list string :=
  ["screenRotation"; "dcPin"; "rstPin"; "fps"; "updateIntervalSeconds";
   "apiErrorSleepSeconds"; "logIntervalSeconds"; "displayDuration";
   "scrollPauseSeconds"; "scrollOffScreenWaitSeconds"].

End LoadConfig.

Module SampleEnv.

(** An environment that sets the key, the effect in capitals and a
    display duration. *)
Definition environment (name : string) : option string :=
  if String.eqb name "openWeatherApiKey" then Some "0123456789abcdef"
  else if String.eqb name "transitionEffect" then Some "WIPE"
  else if String.eqb name "displayDuration" then Some " 5 "
  else None.

(** No variable is set. *)
Definition empty_environment (name : string) : option string := None.

(** [float] on the literals the examples use. *)
Definition float_of_examples (s : string) : option Q :=
  if String.eqb s "0.2" then Some (2 # 10) else None.

(** The configuration loaded from [environment], and the platform with it. *)
Definition loaded : Config :=
  match loadConfig environment float_of_examples with
  | Some cfg => cfg
  | None => Sample.config
  end.
Definition platform_loaded : Platform := Sample.platform_with loaded.
End SampleEnv.
(** * Properties *)

(** ** Sanity checks of the primitives *)

Example hours_22_6_at_23 : is_within_operating_hours "22-6" 23 = true.
Proof. reflexivity. Qed.
Example hours_22_6_at_10 : is_within_operating_hours "22-6" 10 = false.
Proof. reflexivity. Qed.
Example hours_default_at_8 : is_within_operating_hours "8-22" 8 = true.
Proof. reflexivity. Qed.
Example hours_default_at_22 : is_within_operating_hours "8-22" 22 = false.
Proof. reflexivity. Qed.
Example int_examples :
  PyStr.int " 12 " = Some 12 /\ PyStr.int "+7" = Some 7 /\ PyStr.int "1_0" = Some 10 /\
  PyStr.int "" = None /\ PyStr.int "1__0" = None /\ PyStr.int "a" = None /\
  PyStr.int "_1" = None /\ PyStr.int "1_" = None /\ PyStr.int "007" = Some 7 /\
  PyStr.int (String (ascii_of_nat 28) "8") = None.
Proof. repeat split; reflexivity. Qed.
Example of_int_examples :
  PyStr.of_int 0 = "0" /\ PyStr.of_int 31 = "31" /\ PyStr.of_int 2024 = "2024".
Proof. repeat split; reflexivity. Qed.
Example split_examples :
  PyStr.split "-" "" = [""] /\ PyStr.split "-" "8-22" = ["8"; "22"] /\
  PyStr.split "-" "-5-10" = [""; "5"; "10"] /\ PyStr.split "-" "8" = ["8"].
Proof. repeat split; reflexivity. Qed.

(** ** Splitting and joining *)

Lemma split_nonempty sep s : PyStr.split sep s <> [].
Proof.
  destruct s as [|c rest]; cbn; [discriminate|].
  destruct (Ascii.eqb c sep); [discriminate|].
  destruct (PyStr.split sep rest); discriminate.
Qed.

(** Joining the fields of a split with the separator gives the string back. *)
Lemma concat_split sep s :
  String.concat (String sep "") (PyStr.split sep s) = s.
Proof.
  induction s as [|c rest IH]; cbn; [reflexivity|].
  destruct (Ascii.eqb_spec c sep) as [->|Hne].
  - pose proof (split_nonempty sep rest) as Hn.
    cbn. destruct (PyStr.split sep rest) as [|p ps]; [congruence|].
    cbn in IH |- *. now rewrite IH.
  - pose proof (split_nonempty sep rest) as Hn.
    destruct (PyStr.split sep rest) as [|p ps]; [congruence|].
    destruct ps as [|q qs]; cbn in IH |- *; now rewrite <- IH.
Qed.

(** No field of a split contains the separator. *)
Lemma split_fields_free sep s :
  Forall (fun p => PyStr.contains (String sep "") p = false) (PyStr.split sep s).
Proof.
  induction s as [|c rest IH]; cbn.
  - repeat constructor.
  - destruct (Ascii.eqb_spec c sep) as [->|Hne].
    + constructor; [reflexivity | exact IH].
    + pose proof (split_nonempty sep rest) as Hn.
      destruct (PyStr.split sep rest) as [|p ps]; [congruence|].
      inversion IH as [|? ? Hp Hps]; subst.
      constructor; [|exact Hps].
      cbn [PyStr.contains PyStr.startswith].
      destruct (Ascii.eqb_spec sep c) as [->|_]; [congruence|].
      exact Hp.
Qed.

Lemma split_two sep s a b :
  PyStr.split sep s = [a; b] ->
  s = a ++ String sep b
  /\ PyStr.contains (String sep "") a = false
  /\ PyStr.contains (String sep "") b = false.
Proof.
  intros H.
  pose proof (concat_split sep s) as Hc.
  pose proof (split_fields_free sep s) as Hf.
  rewrite H in Hc, Hf. cbn in Hc.
  inversion Hf as [|? ? Ha Hf']; subst. inversion Hf' as [|? ? Hb _]; subst.
  auto.
Qed.

(** ** Operating hours *)

Lemma parse_operating_hours_some s start_hour end_hour :
  parse_operating_hours s = Some (start_hour, end_hour) ->
  two_dash_separated_integers s.
Proof.
  unfold parse_operating_hours.
  destruct (PyStr.split "-" s) as [|a [|b [|c l]]] eqn:Hs; try discriminate.
  destruct (PyStr.int a) as [x|] eqn:Ha; [|discriminate].
  destruct (PyStr.int b) as [y|] eqn:Hb; [|discriminate].
  intros _. apply split_two in Hs as (-> & Hfa & Hfb).
  exists a, b, x, y. auto.
Qed.

Lemma operating_hours_parse_failure s now_hour :
  parse_operating_hours s = None -> is_within_operating_hours s now_hour = true.
Proof. unfold is_within_operating_hours. now intros ->. Qed.


Lemma not_two_integers_without_dash s :
  PyStr.contains "-" s = false -> ~ two_dash_separated_integers s.
Proof.
  intros Hs (a & b & x & y & -> & _).
  revert Hs. clear. induction a as [|c a IH].
  - change ("" ++ "-" ++ b) with (String "-" b). discriminate.
  - change (String c a ++ "-" ++ b) with (String c (a ++ "-" ++ b)).
    cbn [PyStr.contains PyStr.startswith].
    destruct (Ascii.eqb "-" c); [discriminate | exact IH].
Qed.

(** ** Reasoning about state transformers *)

Section Frames.
Context {B : Type} (f : AppState -> B).

Lemma preserves_ret {A} (a : A) : Preserves f (ret a).
Proof. intros s. reflexivity. Qed.

Lemma preserves_gets {A} (proj : AppState -> A) : Preserves f (gets proj).
Proof. intros s. reflexivity. Qed.

Lemma preserves_emit e : Preserves f (emit e).
Proof. intros s. reflexivity. Qed.

Lemma preserves_assign upd :
  (forall s, f (upd s) = f s) -> Preserves f (assign upd).
Proof. intros H s. apply H. Qed.

Lemma preserves_bind {A C} (m : Prog A) (k : A -> Prog C) :
  Preserves f m -> (forall a, Preserves f (k a)) -> Preserves f (bind m k).
Proof.
  intros Hm Hk s. unfold bind, state_after.
  specialize (Hm s). unfold state_after in Hm.
  destruct (m s) as [[a s1] ev1]. specialize (Hk a s1). unfold state_after in Hk.
  destruct (k a s1) as [[b s2] ev2]. cbn in *. congruence.
Qed.

Lemma preserves_when c m : Preserves f m -> Preserves f (when c m).
Proof. destruct c; [trivial | intros _; apply preserves_ret]. Qed.

Lemma preserves_request {Body} target (http : nat -> option Body) :
  Preserves f (_make_request_with_retries target http).
Proof.
  intros s. unfold _make_request_with_retries.
  destruct (request_attempts target http 0 MAX_RETRIES). reflexivity.
Qed.

Lemma preserves_cachedBitmapTextM text font :
  (forall c s, f (set_bitmapRenderCache c s) = f s) ->
  Preserves f (cachedBitmapTextM text font).
Proof.
  intros H s. unfold cachedBitmapTextM.
  destruct (cachedBitmapText text font (bitmapRenderCache s)). apply H.
Qed.
End Frames.

Section Silence.
Context (P : Event -> Prop).

Lemma emits_ret {A} (a : A) : Emits P (ret a).
Proof. intros s. constructor. Qed.

Lemma emits_gets {A} (proj : AppState -> A) : Emits P (gets proj).
Proof. intros s. constructor. Qed.

Lemma emits_assign upd : Emits P (assign upd).
Proof. intros s. constructor. Qed.

Lemma emits_request {Body} target (http : nat -> option Body) :
  P (HttpRequest target) -> (forall q, P (Sleep q)) ->
  Emits P (_make_request_with_retries target http).
Proof.
  intros Hreq Hsleep s. unfold _make_request_with_retries.
  assert (H : forall remaining attempt,
             Forall P (snd (request_attempts target http attempt remaining))).
  { induction remaining as [|n IH]; intros attempt; cbn; [constructor|].
    destruct (http attempt); [repeat constructor; exact Hreq|].
    specialize (IH (S attempt)).
    destruct (request_attempts target http (S attempt) n) as [r ev]. cbn in *.
    constructor; [exact Hreq|]. apply Forall_app. split; [|exact IH].
    match goal with
    | |- context [if ?c then _ else _] => destruct c
    end; repeat constructor. apply Hsleep. }
  specialize (H MAX_RETRIES 0%nat).
  destruct (request_attempts target http 0 MAX_RETRIES). exact H.
Qed.

Lemma emits_emit e : P e -> Emits P (emit e).
Proof. intros H s. repeat constructor. exact H. Qed.

Lemma emits_bind {A C} (m : Prog A) (k : A -> Prog C) :
  Emits P m -> (forall a, Emits P (k a)) -> Emits P (bind m k).
Proof.
  intros Hm Hk s. unfold bind, events_of.
  specialize (Hm s). unfold events_of in Hm.
  destruct (m s) as [[a s1] ev1]. specialize (Hk a s1). unfold events_of in Hk.
  destruct (k a s1) as [[b s2] ev2]. cbn in *.
  apply Forall_app; auto.
Qed.

Lemma emits_when c m : Emits P m -> Emits P (when c m).
Proof. destruct c; [trivial | intros _; apply emits_ret]. Qed.

Lemma emits_cachedBitmapTextM text font : Emits P (cachedBitmapTextM text font).
Proof.
  intros s. unfold cachedBitmapTextM.
  destruct (cachedBitmapText text font (bitmapRenderCache s)). constructor.
Qed.
End Silence.

Section Values.
Context {A : Type} (Q : A -> Prop).

Lemma returns_ret a : Q a -> Returns Q (ret a).
Proof. intros H s. exact H. Qed.

Lemma returns_bind {C} (m : Prog C) (k : C -> Prog A) :
  (forall c, Returns Q (k c)) -> Returns Q (bind m k).
Proof.
  intros Hk s. unfold bind, value_of.
  destruct (m s) as [[c s1] ev1]. specialize (Hk c s1). unfold value_of in Hk.
  destruct (k c s1) as [[b s2] ev2]. exact Hk.
Qed.
End Values.

(** Structural descent through a program. *)
Ltac step_preserves :=
  first
    [ apply preserves_ret
    | apply preserves_gets
    | apply preserves_emit
    | apply preserves_request
    | apply preserves_cachedBitmapTextM; intros; reflexivity
    | apply preserves_assign; intros; reflexivity
    | apply preserves_bind; [| intros ?]
    | apply preserves_when
    | match goal with
      | |- Preserves _ (match ?x with _ => _ end) => destruct x
      end ].

Ltac step_emits :=
  first
    [ apply emits_ret
    | apply emits_gets
    | apply emits_assign
    | apply emits_cachedBitmapTextM
    | apply emits_emit; reflexivity
    | apply emits_bind; [| intros ?]
    | apply emits_when
    | match goal with
      | |- Emits _ (match ?x with _ => _ end) => destruct x
      end ].


(** From the preservation of a tuple to that of its components. *)
Ltac split_obs H :=
  unfold beyond_drawing, refresh_state_of, control_of, marquee_of in H;
  repeat match type of H with
         | (_, _) = (_, _) =>
             let H1 := fresh H in
             let H2 := fresh H in
             injection H as H1 H2; try split_obs H1; try split_obs H2
         end.

(** Case analysis on the next test of the program text. *)
Ltac case_if :=
  match goal with
  | |- context [if ?c then _ else _] => destruct c eqn:?
  end.

(** Boolean tests in the hypotheses as propositions. *)
Ltac bool_hyps :=
  repeat match goal with
         | H : _ && _ = true |- _ => apply andb_true_iff in H; destruct H
         | H : (_ >? _) = true |- _ => apply Z.gtb_lt in H
         | H : (_ =? _) = true |- _ => apply Z.eqb_eq in H
         | H : (_ <? _) = true |- _ => apply Z.ltb_lt in H
         end.

Section ProgramFacts.
Variable pf : Platform.

Local Abbreviation config := (the_config pf).

(** *** What drawing leaves alone *)

Lemma preserves_get_display_date_str {B} (f : AppState -> B) now visible :
  (forall c s, f (set_bitmapRenderCache c s) = f s) ->
  Preserves f (get_display_date_str pf now visible).
Proof.
  intros H s. unfold get_display_date_str.
  destruct fit_loop. apply H.
Qed.

Lemma emits_get_display_date_str P now visible :
  Emits P (get_display_date_str pf now visible).
Proof.
  intros s. unfold get_display_date_str.
  destruct fit_loop. constructor.
Qed.

Lemma draw_frame_content_beyond w background is_transitioning :
  Preserves beyond_drawing (draw_frame_content pf w background is_transitioning).
Proof.
  unfold draw_frame_content, advance_marquee.
  repeat first
    [ apply preserves_get_display_date_str; intros; reflexivity
    | step_preserves ].
Qed.

Lemma draw_frame_content_frozen w background :
  Preserves marquee_of (draw_frame_content pf w background true).
Proof.
  unfold draw_frame_content. cbn [negb].
  repeat first
    [ apply preserves_get_display_date_str; intros; reflexivity
    | match goal with
      | |- Preserves _ (when false _) => apply preserves_ret
      end
    | step_preserves ].
Qed.

Lemma draw_frame_content_silent w background is_transitioning :
  Emits (fun _ => False) (draw_frame_content pf w background is_transitioning).
Proof.
  unfold draw_frame_content, advance_marquee.
  repeat first
    [ apply emits_get_display_date_str
    | step_emits ].
Qed.

(** The frame starts with the background it was given, when there is
    one, and with the clock otherwise. *)
Lemma draw_frame_content_background w background is_transitioning :
  Returns (fun ops => forall overlay,
             frame_background (ops ++ overlay) = background)
          (draw_frame_content pf w background is_transitioning).
Proof.
  unfold draw_frame_content.
  repeat (apply returns_bind; intros;
          repeat match goal with
                 | x : (_ * _)%type |- _ => destruct x
                 end).
  apply returns_ret. intros overlay. destruct background; reflexivity.
Qed.

(** *** The blocks of a tick, one by one *)

Lemma refresh_block_not_due w s :
  refresh_due pf (t_stale_check w) (last_update_time s) = false ->
  refresh_block pf w s = (tt, s, []).
Proof.
  intros H. unfold refresh_block, bind, gets. now rewrite H.
Qed.

Lemma refresh_block_control w :
  Preserves (fun s => (control_of s, (umbrella_icon s, log_timer s,
                       scroll_off_event_time s, last_view_switch_time s)))
            (refresh_block pf w).
Proof.
  unfold refresh_block, get_weather, get_forecast, get_ai_weather_tip, reset_marquee.
  repeat step_preserves.
Qed.

Lemma silent_events {A} (m : Prog A) s :
  Emits (fun _ => False) m -> events_of (m s) = [].
Proof.
  intros H. specialize (H s). destruct (events_of (m s)); [reflexivity|].
  inversion H; contradiction.
Qed.

Lemma bind_state {A C} (m : Prog A) (k : A -> Prog C) s :
  state_after (bind m k s) = state_after (k (value_of (m s)) (state_after (m s))).
Proof.
  unfold bind, state_after, value_of. destruct (m s) as [[a s1] e1]. cbn.
  destruct (k a s1) as [[b s2] e2]. reflexivity.
Qed.

Lemma bind_events {A C} (m : Prog A) (k : A -> Prog C) s :
  events_of (bind m k s)
  = (events_of (m s) ++ events_of (k (value_of (m s)) (state_after (m s))))%list.
Proof.
  unfold bind, state_after, value_of, events_of. destruct (m s) as [[a s1] e1]. cbn.
  destruct (k a s1) as [[b s2] e2]. reflexivity.
Qed.

Lemma view_switch_block_spec w s :
  let s' := state_after (view_switch_block pf w s) in
  events_of (view_switch_block pf w s) = []
  /\ refresh_state_of s' = refresh_state_of s
  /\ is_showing_forecast s' = is_showing_forecast s
  /\ (current_weather_bg s', forecast_bg s') = (current_weather_bg s, forecast_bg s)
  /\ (pixelsUp s', hasElevated s', scroll_x s') = (pixelsUp s, hasElevated s, scroll_x s)
  /\ (transition_state s' = transition_state s
      /\ scroll_completion_event_fired s' = scroll_completion_event_fired s
      \/ transition_state s = None /\ transition_state s' = Some PhaseOut
         /\ (0 < DISPLAY_DURATION config
             /\ scroll_completion_event_fired s' = scroll_completion_event_fired s
             \/ DISPLAY_DURATION config = 0
                /\ scroll_completion_event_fired s' = false)).
Proof.
  unfold view_switch_block, bind, gets, assign, when, ret.
  destruct (transition_state s) as [[|]|] eqn:Hts; cbn;
    rewrite ?andb_false_r; cbn;
    repeat (case_if; cbn; rewrite ?Hts; cbn);
    repeat split; auto; bool_hyps; right; repeat split; auto; lia.
Qed.

(** A transition frame: the phase is running and its time is not up. *)
Lemma transition_block_progress w s phase :
  transition_state s = Some phase ->
  phase_elapsed pf w s = false ->
  exists ops,
    events_of (transition_block pf w s) = [Flush ops]
    /\ frame_background ops = view_background s
    /\ beyond_drawing (state_after (transition_block pf w s)) = beyond_drawing s
    /\ marquee_of (state_after (transition_block pf w s)) = marquee_of s.
Proof.
  intros Hts Hel. unfold phase_elapsed in Hel.
  pose proof (draw_frame_content_background w (view_background s) true s) as Hbg.
  pose proof (draw_frame_content_beyond w (view_background s) true s) as Hby.
  pose proof (draw_frame_content_frozen w (view_background s) s) as Hfr.
  pose proof (silent_events _ s
                (draw_frame_content_silent w (view_background s) true)) as Hev.
  unfold value_of, state_after, events_of in *.
  unfold transition_block, bind, gets, emit. rewrite Hts.
  cbn -[draw_frame_content]. rewrite Hel.
  destruct phase; cbn -[draw_frame_content];
    destruct (draw_frame_content pf w (view_background s) true s) as [[ops s'] ev];
    cbn in *; subst ev; eexists; repeat split; eauto.
Qed.

(** The end of the Out phase: the view flips, the marquee is reset, no
    frame is drawn. *)
Lemma transition_block_out_done w s :
  transition_state s = Some PhaseOut ->
  phase_elapsed pf w s = true ->
  let s' := state_after (transition_block pf w s) in
  events_of (transition_block pf w s) = []
  /\ transition_state s' = (if effect_has_in_phase pf then Some PhaseIn else None)
  /\ is_showing_forecast s' = negb (is_showing_forecast s)
  /\ marquee_of s' = marquee_zero
  /\ refresh_state_of s' = refresh_state_of s
  /\ (current_weather_bg s', forecast_bg s') = (current_weather_bg s, forecast_bg s).
Proof.
  intros Hts Hel. unfold phase_elapsed in Hel.
  unfold transition_block, reset_marquee, bind, gets, assign. rewrite Hts. cbn.
  rewrite Hel. cbn. repeat split.
Qed.

(** The end of the In phase. *)
Lemma transition_block_in_done w s :
  transition_state s = Some PhaseIn ->
  phase_elapsed pf w s = true ->
  transition_block pf w s = (tt, set_transition_state None s, []).
Proof.
  intros Hts Hel. unfold phase_elapsed in Hel.
  unfold transition_block, bind, gets, assign. rewrite Hts. cbn.
  now rewrite Hel.
Qed.

(** A steady-state frame. *)
Lemma transition_block_idle w s :
  transition_state s = None ->
  exists ops,
    events_of (transition_block pf w s) = [Flush ops]
    /\ frame_background ops = view_background s
    /\ beyond_drawing (state_after (transition_block pf w s)) = beyond_drawing s.
Proof.
  intros Hts.
  pose proof (draw_frame_content_background w (view_background s) false s) as Hbg.
  pose proof (draw_frame_content_beyond w (view_background s) false s) as Hby.
  pose proof (silent_events _ s
                (draw_frame_content_silent w (view_background s) false)) as Hev.
  unfold value_of, state_after, events_of in *.
  unfold transition_block, display_dynamic_elements, bind, gets, emit.
  rewrite Hts. cbn -[draw_frame_content].
  destruct (draw_frame_content pf w (view_background s) false s) as [[ops s'] ev].
  cbn in *. subst ev. exists ops. repeat split; auto.
  specialize (Hbg []). now rewrite app_nil_r in Hbg.
Qed.

Lemma log_block_spec w s :
  exists t,
    state_after (log_block w s) = set_log_timer t s
    /\ Forall no_http (events_of (log_block w s))
    /\ Forall (fun e => is_flush e = false) (events_of (log_block w s)).
Proof.
  unfold log_block, bind, gets, when, emit, assign. cbn.
  case_if; cbn.
  - exists (t_log_reset w). repeat split; repeat constructor.
  - exists (log_timer s). destruct s; repeat split; repeat constructor.
Qed.

(** *** A tick as the sequence of its blocks *)

Lemma tick_state w s :
  state_after (tick pf w s) = state_after (log_block w (after_transition pf w s)).
Proof.
  unfold tick. rewrite !bind_state. reflexivity.
Qed.

Lemma tick_events w s :
  events_of (tick pf w s)
  = (events_of (refresh_block pf w s)
     ++ events_of (view_switch_block pf w (after_refresh pf w s))
     ++ events_of (transition_block pf w (after_view_switch pf w s))
     ++ events_of (log_block w (after_transition pf w s)))%list.
Proof.
  unfold tick, after_transition, after_view_switch, after_refresh.
  rewrite !bind_events, ?bind_state. reflexivity.
Qed.

(** *** The transition block touches neither the network nor the data *)

Lemma transition_block_quiet w s :
  let s' := state_after (transition_block pf w s) in
  Forall no_http (events_of (transition_block pf w s))
  /\ refresh_state_of s' = refresh_state_of s
  /\ (current_weather_bg s', forecast_bg s') = (current_weather_bg s, forecast_bg s).
Proof.
  cbn zeta.
  destruct (transition_state s) as [phase|] eqn:Hts.
  - destruct (phase_elapsed pf w s) eqn:Hel.
    + destruct phase.
      * destruct (transition_block_out_done w s Hts Hel)
          as (-> & _ & _ & _ & Hr & Hb).
        auto.
      * rewrite (transition_block_in_done w s Hts Hel).
        repeat split; constructor.
    + destruct (transition_block_progress w s phase Hts Hel)
        as (ops & -> & _ & Hb & _).
      split_obs Hb. unfold refresh_state_of.
      repeat split; try congruence. repeat constructor.
  - destruct (transition_block_idle w s Hts) as (ops & -> & _ & Hb).
    split_obs Hb. unfold refresh_state_of.
    repeat split; try congruence. repeat constructor.
Qed.

(** *** The staleness test *)

Lemma Qgtb_lt a b : Qgtb a b = true <-> (b < a)%Q.
Proof.
  unfold Qgtb. rewrite negb_true_iff, <- not_true_iff_false, Qle_bool_iff.
  split; [apply Qnot_le_lt | apply Qlt_not_le].
Qed.

Lemma Qgtb_le a b : Qgtb a b = false <-> (a <= b)%Q.
Proof.
  unfold Qgtb. rewrite negb_false_iff. apply Qle_bool_iff.
Qed.

Lemma refresh_due_stale now last :
  refresh_due pf now last = true
  <-> (inject_Z (UPDATE_INTERVAL_SECONDS config) < now - last)%Q.
Proof. apply Qgtb_lt. Qed.

Lemma refresh_due_fresh now last :
  refresh_due pf now last = false
  <-> (now - last <= inject_Z (UPDATE_INTERVAL_SECONDS config))%Q.
Proof. apply Qgtb_le. Qed.

(** The first attempt of a request is always made. *)
Lemma request_attempts_first {Body} target (http : nat -> option Body) attempt remaining :
  exists ev,
    snd (request_attempts target http attempt (S remaining)) = HttpRequest target :: ev.
Proof.
  cbn. destruct (http attempt).
  - eexists. reflexivity.
  - destruct (request_attempts target http (S attempt) remaining).
    eexists. reflexivity.
Qed.

Lemma refresh_block_due_fetches w s :
  refresh_due pf (t_stale_check w) (last_update_time s) = true ->
  exists ev, events_of (refresh_block pf w s) = HttpRequest WeatherApi :: ev.
Proof.
  intros Hdue. unfold refresh_block.
  rewrite bind_events. cbn [gets events_of value_of state_after fst snd app].
  rewrite Hdue. rewrite bind_events. unfold get_weather at 1.
  rewrite bind_events. unfold _make_request_with_retries at 1.
  destruct (request_attempts_first WeatherApi (weather_http w) 0 2) as [ev Hev].
  change MAX_RETRIES with 3%nat.
  destruct (request_attempts WeatherApi (weather_http w) 0 3) as [r ev'].
  cbn in Hev. subst ev'. cbn. eexists. reflexivity.
Qed.

(** A tick whose data is fresh does not touch the network, and leaves the
    refresh state as it was. *)
Lemma tick_not_due w s :
  refresh_due pf (t_stale_check w) (last_update_time s) = false ->
  Forall no_http (events_of (tick pf w s))
  /\ refresh_state_of (state_after (tick pf w s)) = refresh_state_of s.
Proof.
  intros Hfresh.
  rewrite tick_events, tick_state.
  unfold after_transition, after_view_switch, after_refresh.
  rewrite (refresh_block_not_due w s Hfresh).
  cbn [state_after events_of fst snd app].
  destruct (view_switch_block_spec w s) as (-> & Hr1 & _).
  destruct (transition_block_quiet w (state_after (view_switch_block pf w s)))
    as (Hq & Hr2 & _).
  destruct (log_block_spec w
              (state_after (transition_block pf w
                 (state_after (view_switch_block pf w s)))))
    as (t & -> & Hl & _).
  split.
  - cbn [app]. apply Forall_app. auto.
  - rewrite <- Hr1, <- Hr2. reflexivity.
Qed.

(** C1 (amended): a refresh is due exactly when
    [now - last_success_timestamp > updateIntervalSeconds]; a tick at which
    it is due starts with the weather request; a tick at which it is not
    due makes no network call and leaves the refresh state unchanged.  With
    an interval of 1800 and a last success at 0, the tick at 1801 refreshes,
    the ticks at 1800 and 1799 do not. *)
Theorem refresh_exactly_when_stale (w : TickInput) (s : AppState) :
  let now := t_stale_check w in
  let last := last_update_time s in
  let due := refresh_due pf now last in
  (due = true <-> (inject_Z (UPDATE_INTERVAL_SECONDS config) < now - last)%Q)
  /\ (due = true ->
      exists ev, events_of (tick pf w s) = HttpRequest WeatherApi :: ev)
  /\ (due = false ->
      Forall no_http (events_of (tick pf w s))
      /\ refresh_state_of (state_after (tick pf w s)) = refresh_state_of s)
  /\ (UPDATE_INTERVAL_SECONDS config = 1800 -> (last == 0)%Q ->
      ((now == 1801)%Q -> due = true)
      /\ ((now == 1800)%Q -> due = false)
      /\ ((now == 1799)%Q -> due = false)).
Proof.
  cbn zeta. split; [apply refresh_due_stale|].
  split.
  { intros Hdue. rewrite tick_events.
    destruct (refresh_block_due_fetches w s Hdue) as [ev ->].
    eexists. reflexivity. }
  split; [apply tick_not_due|].
  intros Hint Hlast. repeat split; intros Hnow.
  - apply refresh_due_stale. rewrite Hint, Hnow, Hlast. reflexivity.
  - apply refresh_due_fresh. rewrite Hint, Hnow, Hlast. discriminate.
  - apply refresh_due_fresh. rewrite Hint, Hnow, Hlast. discriminate.
Qed.

(** *** Substrings *)

Lemma append_cons c a b : String c a ++ b = String c (a ++ b).
Proof. reflexivity. Qed.

Lemma append_nil_l a : "" ++ a = a.
Proof. reflexivity. Qed.

Lemma startswith_spec p s :
  PyStr.startswith p s = true <-> exists post, s = p ++ post.
Proof.
  revert s. induction p as [|a p IH]; intros s.
  - cbn. split; [intros _; exists s; reflexivity | reflexivity].
  - destruct s as [|b s]; cbn [PyStr.startswith].
    + split; [discriminate | intros [post H]; discriminate].
    + rewrite andb_true_iff, IH. split.
      * intros [Hab [post ->]]. apply Ascii.eqb_eq in Hab as ->.
        exists post. reflexivity.
      * intros [post H]. rewrite append_cons in H. injection H as -> ->.
        split; [apply Ascii.eqb_refl | eauto].
Qed.

Lemma contains_spec needle hay :
  PyStr.contains needle hay = true <-> is_substring needle hay.
Proof.
  unfold is_substring. induction hay as [|c hay IH].
  - cbn [PyStr.contains]. rewrite orb_false_r, startswith_spec. split.
    + intros [post H]. exists "", post. exact H.
    + intros (pre & post & H). destruct pre; [|discriminate].
      exists post. exact H.
  - cbn [PyStr.contains]. rewrite orb_true_iff, startswith_spec, IH. split.
    + intros [[post H] | (pre & post & H)].
      * exists "", post. exact H.
      * exists (String c pre), post. rewrite append_cons. now f_equal.
    + intros (pre & post & H). destruct pre as [|c' pre].
      * left. exists post. exact H.
      * right. rewrite append_cons in H. injection H as -> ->. eauto.
Qed.

Lemma tip_accepted_spec new_tip current :
  tip_accepted new_tip current = true
  <-> new_tip <> "" /\ new_tip <> current /\ ~ is_substring "unavailable" new_tip.
Proof.
  unfold tip_accepted.
  rewrite !andb_true_iff, !negb_true_iff, <- contains_spec.
  rewrite !String.eqb_neq, not_true_iff_false. tauto.
Qed.

(** *** The refresh block and the tip *)

Lemma get_ai_weather_tip_value w s s0 :
  value_of (get_ai_weather_tip pf w s) = value_of (get_ai_weather_tip pf w s0).
Proof.
  unfold get_ai_weather_tip. destruct (key_missing pf); [reflexivity|].
  unfold bind, _make_request_with_retries, ret, value_of.
  destruct (request_attempts AssistantApi (assistant_http w) 0 MAX_RETRIES).
  reflexivity.
Qed.

Lemma request_attempts_all_fail {Body} target (http : nat -> option Body) attempt remaining :
  (forall k, http k = None) ->
  fst (request_attempts target http attempt remaining) = None.
Proof.
  intros Hfail. revert attempt.
  induction remaining as [|n IH]; intros attempt; cbn; [reflexivity|].
  rewrite Hfail. specialize (IH (S attempt)).
  destruct (request_attempts target http (S attempt) n). exact IH.
Qed.

Lemma get_ai_weather_tip_failed w s :
  (forall k, assistant_http w k = None) ->
  value_of (get_ai_weather_tip pf w s) = "Weather tip currently unavailable.".
Proof.
  intros Hfail. unfold get_ai_weather_tip.
  destruct (key_missing pf); [reflexivity|].
  unfold bind, _make_request_with_retries, ret, value_of.
  pose proof (request_attempts_all_fail AssistantApi (assistant_http w) 0 MAX_RETRIES Hfail) as H.
  destruct (request_attempts AssistantApi (assistant_http w) 0 MAX_RETRIES) as [r ev].
  cbn in H. subst r. reflexivity.
Qed.

Lemma refresh_block_tip w s :
  let new_tip := value_of (get_ai_weather_tip pf w s) in
  let accepted := tip_requested pf w s && tip_accepted new_tip (ai_tip_cache s) in
  ai_tip_cache (after_refresh pf w s) = (if accepted then new_tip else ai_tip_cache s)
  /\ (accepted = true -> marquee_of (after_refresh pf w s) = marquee_zero).
Proof.
  cbn zeta. unfold after_refresh, tip_requested, weather_fetched.
  unfold refresh_block, get_weather, get_forecast, get_ai_weather_tip,
    _make_request_with_retries, reset_marquee, bind, gets, assign, when, emit, ret.
  generalize (request_attempts WeatherApi (weather_http w) 0 MAX_RETRIES).
  generalize (request_attempts ForecastApi (forecast_http w) 0 MAX_RETRIES).
  generalize (request_attempts AssistantApi (assistant_http w) 0 MAX_RETRIES).
  intros [tip_response ev3] [forecast_data ev2] [weather_data ev1].
  destruct (refresh_due pf (t_stale_check w) (last_update_time s)); cbn;
    [|split; [reflexivity | discriminate]].
  assert (Hfc : forecast_data = None
                \/ (exists fc, forecast_data = Some fc /\ truthy fc = false)
                \/ (exists fc, forecast_data = Some fc /\ truthy fc = true)).
  { destruct forecast_data as [fc|]; [|now left].
    right. destruct (truthy fc) eqn:E; eauto. }
  destruct weather_data as [data|];
    [|destruct Hfc as [-> | [(fc & -> & Hfc) | (fc & -> & Hfc)]];
      cbn; rewrite ?Hfc; (split; [reflexivity | discriminate])].
  destruct (truthy data);
    [|destruct Hfc as [-> | [(fc & -> & Hfc) | (fc & -> & Hfc)]];
      cbn; rewrite ?Hfc; (split; [reflexivity | discriminate])].
  destruct (key_missing pf); [|destruct tip_response as [[answer|]|]];
    (destruct Hfc as [-> | [(fc & -> & Hfc) | (fc & -> & Hfc)]];
     cbn; rewrite ?Hfc; cbn;
     (case_if; cbn; (split; [reflexivity | try reflexivity; try discriminate]))).
Qed.

(** After the refresh block nothing in a tick assigns the refresh state. *)
Lemma tick_refresh_state w s :
  refresh_state_of (state_after (tick pf w s)) = refresh_state_of (after_refresh pf w s).
Proof.
  rewrite tick_state. unfold after_transition, after_view_switch.
  destruct (view_switch_block_spec w (after_refresh pf w s)) as (_ & Hr1 & _).
  destruct (transition_block_quiet w
              (state_after (view_switch_block pf w (after_refresh pf w s))))
    as (_ & Hr2 & _).
  destruct (log_block_spec w
              (state_after (transition_block pf w
                 (state_after (view_switch_block pf w (after_refresh pf w s))))))
    as (t & -> & _).
  rewrite <- Hr1, <- Hr2. reflexivity.
Qed.

(** C7: the tip the assistant returns replaces [ai_tip_cache] exactly when
    it was asked for and is non-empty, different from the cached tip and
    free of the word "unavailable"; then the marquee is reset; in every
    other case the cached tip stays, in particular for a sentinel and for a
    failed request. *)
Theorem tip_accepted_only_if_real (w : TickInput) (s : AppState) :
  let new_tip := value_of (get_ai_weather_tip pf w s) in
  let current := ai_tip_cache s in
  let accepted := tip_requested pf w s && tip_accepted new_tip current in
  let s' := after_refresh pf w s in
  ai_tip_cache s' = (if accepted then new_tip else current)
  /\ (tip_accepted new_tip current = true
      <-> new_tip <> "" /\ new_tip <> current /\ ~ is_substring "unavailable" new_tip)
  /\ (accepted = true -> marquee_of s' = marquee_zero)
  /\ (is_substring "unavailable" new_tip -> ai_tip_cache s' = current)
  /\ ((forall k, assistant_http w k = None) -> ai_tip_cache s' = current)
  /\ ai_tip_cache (state_after (tick pf w s)) = ai_tip_cache s'.
Proof.
  cbn zeta.
  destruct (refresh_block_tip w s) as [Htip Hreset]. cbn zeta in Htip, Hreset.
  assert (Hsentinel : is_substring "unavailable" (value_of (get_ai_weather_tip pf w s)) ->
                      ai_tip_cache (after_refresh pf w s) = ai_tip_cache s).
  { intros Hsub. rewrite Htip.
    destruct (tip_accepted _ _) eqn:Hacc; [|now rewrite andb_false_r].
    apply tip_accepted_spec in Hacc. tauto. }
  refine (conj Htip (conj (tip_accepted_spec _ _)
            (conj Hreset (conj Hsentinel (conj _ _))))).
  - intros Hfail. apply Hsentinel.
    rewrite (get_ai_weather_tip_failed w s Hfail).
    apply contains_spec. reflexivity.
  - pose proof (tick_refresh_state w s) as H.
    unfold refresh_state_of in H. congruence.
Qed.

(** *** The view-transition controller *)

(** What the transition block does, by the state it finds. *)
Lemma transition_block_cases w s :
  let r := transition_block pf w s in
  let s' := state_after r in
  match transition_state s with
  | None =>
      transition_state s' = None
      /\ is_showing_forecast s' = is_showing_forecast s
      /\ exists ops, events_of r = [Flush ops]
                     /\ frame_background ops = view_background s
  | Some phase =>
      if phase_elapsed pf w s then
        events_of r = []
        /\ match phase with
           | PhaseOut =>
               transition_state s'
               = (if effect_has_in_phase pf then Some PhaseIn else None)
               /\ is_showing_forecast s' = negb (is_showing_forecast s)
               /\ marquee_of s' = marquee_zero
           | PhaseIn =>
               transition_state s' = None
               /\ is_showing_forecast s' = is_showing_forecast s
               /\ marquee_of s' = marquee_of s
           end
      else
        transition_state s' = Some phase
        /\ is_showing_forecast s' = is_showing_forecast s
        /\ marquee_of s' = marquee_of s
        /\ exists ops, events_of r = [Flush ops]
                       /\ frame_background ops = view_background s
  end.
Proof.
  cbn zeta.
  destruct (transition_state s) as [phase|] eqn:Hts.
  - destruct (phase_elapsed pf w s) eqn:Hel.
    + destruct phase.
      * destruct (transition_block_out_done w s Hts Hel)
          as (Hev & Hst & Hfl & Hmq & _).
        auto.
      * rewrite (transition_block_in_done w s Hts Hel). cbn. auto.
    + destruct (transition_block_progress w s phase Hts Hel)
        as (ops & Hev & Hbg & Hb & Hmq).
      split_obs Hb. repeat split; try congruence. eauto.
  - destruct (transition_block_idle w s Hts) as (ops & Hev & Hbg & Hb).
    split_obs Hb. repeat split; try congruence. eauto.
Qed.

Lemma log_block_control w s :
  control_of (state_after (log_block w s)) = control_of s
  /\ marquee_of (state_after (log_block w s)) = marquee_of s.
Proof.
  destruct (log_block_spec w s) as (t & -> & _). split; reflexivity.
Qed.

Lemma effect_has_in_phase_spec :
  effect_has_in_phase pf = true
  <-> TRANSITION_EFFECT config = "wipe" \/ TRANSITION_EFFECT config = "blink".
Proof.
  unfold effect_has_in_phase. now rewrite orb_true_iff, !String.eqb_eq.
Qed.

Lemma tick_moves w s :
  chain (stays_or_moves (effect_has_in_phase pf))
        (transition_state s :: tick_trace pf w s).
Proof.
  unfold tick_trace. rewrite tick_state. cbn [chain].
  pose proof (refresh_block_control w s) as Hr. cbv beta in Hr.
  fold (after_refresh pf w s) in Hr.
  pose proof (view_switch_block_spec w (after_refresh pf w s)) as Hv.
  cbn zeta in Hv. fold (after_view_switch pf w s) in Hv.
  pose proof (transition_block_cases w (after_view_switch pf w s)) as Ht.
  cbn zeta in Ht. fold (after_transition pf w s) in Ht.
  destruct (log_block_control w (after_transition pf w s)) as [Hl _].
  split_obs Hr. split_obs Hl.
  destruct Hv as (_ & _ & _ & _ & _ & Hv).
  repeat split.
  - left. congruence.
  - destruct Hv as [[Hv _] | (Hv1 & Hv2 & _)].
    + left. congruence.
    + right. rewrite Hv1, Hv2. constructor.
  - destruct (transition_state (after_view_switch pf w s)) as [[|]|].
    + destruct (phase_elapsed pf w (after_view_switch pf w s)).
      * destruct Ht as (_ & -> & _). right.
        destruct (effect_has_in_phase pf) eqn:He; now constructor.
      * destruct Ht as (-> & _). now left.
    + destruct (phase_elapsed pf w (after_view_switch pf w s)).
      * destruct Ht as (_ & -> & _). right. constructor.
      * destruct Ht as (-> & _). now left.
    + destruct Ht as (-> & _). now left.
  - left. congruence.
Qed.

Lemma last_cons {A} (l : list A) x d : List.last (x :: l) d = List.last l x.
Proof.
  revert x d. induction l as [|y l IH]; intros x d; [reflexivity|].
  change (List.last (x :: y :: l) d) with (List.last (y :: l) d).
  now rewrite !IH.
Qed.

Lemma chain_app {A} (R : A -> A -> Prop) a l b l' :
  chain R (a :: l) -> List.last l a = b -> chain R (b :: l') ->
  chain R (a :: l ++ l').
Proof.
  revert a. induction l as [|x l IH]; intros a Hc Hlast Hc'.
  - cbn in Hlast. subst b. exact Hc'.
  - destruct Hc as [Hax Hc]. cbn [app chain]. split; [exact Hax|].
    apply IH; auto. now rewrite <- last_cons with (d := a).
Qed.

(** C2: along every sequence of ticks, from every state, each assignment
    to [transition_state] is one of Idle to Out, Out to In, Out to Idle,
    In to Idle; Out is left for In exactly when the effect is 'wipe' or
    'blink', and for Idle otherwise. *)
Theorem only_allowed_transitions (inputs : list TickInput) (s : AppState) :
  chain (stays_or_moves (effect_has_in_phase pf))
        (transition_state s :: run_trace pf inputs s)
  /\ (effect_has_in_phase pf = true
      <-> TRANSITION_EFFECT config = "wipe" \/ TRANSITION_EFFECT config = "blink").
Proof.
  split; [|apply effect_has_in_phase_spec].
  revert s. induction inputs as [|w rest IH]; intros s; [exact I|].
  cbn [run_trace].
  eapply chain_app; [apply tick_moves | reflexivity | apply IH].
Qed.

Lemma Qgeb_le a b : Qgeb a b = true <-> (b <= a)%Q.
Proof. apply Qle_bool_iff. Qed.

Lemma refresh_block_no_flush w :
  Emits (fun e => is_flush e = false) (refresh_block pf w).
Proof.
  unfold refresh_block, get_weather, get_forecast, get_ai_weather_tip, reset_marquee.
  repeat first
    [ apply emits_request; [reflexivity | intros; reflexivity]
    | step_emits ].
Qed.

(** The view selector along a tick. *)
Lemma tick_view w s :
  is_showing_forecast (state_after (tick pf w s))
  = (if completes_out_phase pf w s
     then negb (is_showing_forecast s) else is_showing_forecast s).
Proof.
  rewrite tick_state. unfold completes_out_phase.
  pose proof (refresh_block_control w s) as Hr. cbv beta in Hr.
  fold (after_refresh pf w s) in Hr.
  pose proof (view_switch_block_spec w (after_refresh pf w s)) as Hv.
  cbn zeta in Hv. fold (after_view_switch pf w s) in Hv.
  pose proof (transition_block_cases w (after_view_switch pf w s)) as Ht.
  cbn zeta in Ht. fold (after_transition pf w s) in Ht.
  destruct (log_block_control w (after_transition pf w s)) as [Hl _].
  split_obs Hr. split_obs Hl.
  destruct Hv as (_ & _ & Hv & _).
  destruct (transition_state (after_view_switch pf w s)) as [[|]|];
    [destruct (phase_elapsed pf w (after_view_switch pf w s))
    |destruct (phase_elapsed pf w (after_view_switch pf w s))|];
    cbv iota; intuition congruence.
Qed.

(** A tick that ends an Out phase draws nothing. *)
Lemma out_completion_draws_nothing w s :
  completes_out_phase pf w s = true ->
  Forall (fun e => is_flush e = false) (events_of (tick pf w s)).
Proof.
  unfold completes_out_phase. intros Hc. rewrite tick_events.
  pose proof (refresh_block_no_flush w s) as Hr.
  destruct (view_switch_block_spec w (after_refresh pf w s)) as (Hv & _).
  fold (after_view_switch pf w s) in *.
  pose proof (transition_block_cases w (after_view_switch pf w s)) as Ht.
  cbn zeta in Ht.
  destruct (log_block_spec w (after_transition pf w s)) as (t & _ & _ & Hl).
  destruct (transition_state (after_view_switch pf w s)) as [[|]|]; try discriminate.
  rewrite Hc in Ht. destruct Ht as (Ht & _).
  rewrite Hv, Ht. cbn [app]. apply Forall_app. auto.
Qed.

(** C3: in a tick the view selector is negated if the tick ends an Out
    phase (the state is 'out' and the elapsed time has reached the
    transition duration, so that 'out' is left) and keeps its value
    otherwise; a tick that draws a frame - a transition frame of the Out or
    the In phase, or a steady frame - never changes it. *)
Theorem view_flips_exactly_when_out_phase_ends (w : TickInput) (s : AppState) :
  let s2 := after_view_switch pf w s in
  let s3 := after_transition pf w s in
  let s' := state_after (tick pf w s) in
  let ends_out := completes_out_phase pf w s in
  is_showing_forecast s'
  = (if ends_out then negb (is_showing_forecast s) else is_showing_forecast s)
  /\ (ends_out = true
      <-> transition_state s2 = Some PhaseOut
          /\ (TRANSITION_DURATION_SECONDS config
              <= t_elapsed w - transition_start_time s2)%Q)
  /\ (ends_out = true
      <-> transition_state s2 = Some PhaseOut
          /\ transition_state s3 <> Some PhaseOut)
  /\ (forall ops, In (Flush ops) (events_of (tick pf w s)) ->
      ends_out = false /\ is_showing_forecast s' = is_showing_forecast s).
Proof.
  cbn zeta.
  assert (Hel : completes_out_phase pf w s = true
                <-> transition_state (after_view_switch pf w s) = Some PhaseOut
                    /\ phase_elapsed pf w (after_view_switch pf w s) = true).
  { unfold completes_out_phase.
    destruct (transition_state (after_view_switch pf w s)) as [[|]|];
      intuition congruence. }
  split; [apply tick_view|]. split; [|split].
  - rewrite Hel. unfold phase_elapsed. now rewrite Qgeb_le.
  - rewrite Hel.
    pose proof (transition_block_cases w (after_view_switch pf w s)) as Ht.
    cbn zeta in Ht. fold (after_transition pf w s) in Ht.
    split.
    + intros [Hout Hup]. split; [exact Hout|].
      rewrite Hout, Hup in Ht. destruct Ht as (_ & -> & _).
      destruct (effect_has_in_phase pf); discriminate.
    + intros [Hout Hleft]. split; [exact Hout|].
      rewrite Hout in Ht.
      destruct (phase_elapsed pf w (after_view_switch pf w s)); [reflexivity|].
      destruct Ht as (Ht & _). contradiction.
  - intros ops Hin.
    destruct (completes_out_phase pf w s) eqn:Hc.
    + exfalso. pose proof (out_completion_draws_nothing w s Hc) as Hq.
      rewrite List.Forall_forall in Hq. specialize (Hq _ Hin). discriminate.
    + split; [reflexivity|]. rewrite tick_view, Hc. reflexivity.
Qed.

(** The marquee along a tick that ends an Out phase. *)
Lemma tick_marquee_reset w s :
  completes_out_phase pf w s = true ->
  marquee_of (state_after (tick pf w s)) = marquee_zero.
Proof.
  unfold completes_out_phase. intros Hc. rewrite tick_state.
  pose proof (transition_block_cases w (after_view_switch pf w s)) as Ht.
  cbn zeta in Ht. fold (after_transition pf w s) in Ht.
  destruct (log_block_control w (after_transition pf w s)) as [_ ->].
  destruct (transition_state (after_view_switch pf w s)) as [[|]|]; try discriminate.
  rewrite Hc in Ht. tauto.
Qed.

(** C6 (amended): the marquee fields are reset to zero at the tick that
    ends the Out phase, as they are when a new tip is accepted; at the
    entry into the Out phase the two offsets and the has-risen flag keep
    their values. *)
Theorem marquee_reset_when_out_phase_ends (w : TickInput) (s : AppState) :
  let s1 := after_refresh pf w s in
  let s2 := after_view_switch pf w s in
  (completes_out_phase pf w s = true ->
   marquee_of (state_after (tick pf w s)) = marquee_zero)
  /\ (transition_state s1 = None -> transition_state s2 = Some PhaseOut ->
      (pixelsUp s2, hasElevated s2, scroll_x s2)
      = (pixelsUp s1, hasElevated s1, scroll_x s1))
  /\ (tip_requested pf w s
      && tip_accepted (value_of (get_ai_weather_tip pf w s)) (ai_tip_cache s) = true ->
      marquee_of s1 = marquee_zero).
Proof.
  cbn zeta. split; [apply tick_marquee_reset|]. split.
  - intros _ _.
    destruct (view_switch_block_spec w (after_refresh pf w s)) as (_ & _ & _ & _ & H & _).
    exact H.
  - apply refresh_block_tip.
Qed.

(** *** Backgrounds of the transition frames *)

Lemma cycle_inv_ext pre s s' :
  transition_state s' = transition_state s ->
  is_showing_forecast s' = is_showing_forecast s ->
  cycle_inv pre s -> cycle_inv pre s'.
Proof. unfold cycle_inv. intros -> ->. trivial. Qed.

Lemma tick_cycle_inv w s pre :
  cycle_inv pre s ->
  let pre1 := cycle_start pf w s pre in
  transition_frame_ok pf w s pre1
  /\ cycle_inv (cycle_end pf w s pre1) (state_after (tick pf w s)).
Proof.
  intros Hinv. cbn zeta.
  pose proof (refresh_block_control w s) as Hr. cbv beta in Hr.
  fold (after_refresh pf w s) in Hr.
  pose proof (view_switch_block_spec w (after_refresh pf w s)) as Hv.
  cbn zeta in Hv. fold (after_view_switch pf w s) in Hv.
  pose proof (transition_block_cases w (after_view_switch pf w s)) as Ht.
  cbn zeta in Ht. fold (after_transition pf w s) in Ht.
  destruct (log_block_control w (after_transition pf w s)) as [Hl _].
  split_obs Hr. split_obs Hl.
  destruct Hv as (_ & _ & Hvf & _ & _ & Hv).
  (* the invariant after the refresh block and the view switch *)
  assert (Hinv1 : cycle_inv pre (after_refresh pf w s))
    by (eapply cycle_inv_ext; eauto).
  assert (Hinv2 : cycle_inv (cycle_start pf w s pre) (after_view_switch pf w s)).
  { destruct Hv as [[Hv _] | (Hv1 & Hv2 & _)].
    - assert (Hpre : cycle_start pf w s pre = pre).
      { unfold cycle_start. rewrite Hv.
        now destruct (transition_state (after_refresh pf w s)) as [[|]|]. }
      rewrite Hpre.
      eapply cycle_inv_ext; [exact Hv | exact Hvf | exact Hinv1].
    - unfold cycle_start. rewrite Hv1, Hv2. unfold cycle_inv. now rewrite Hv2. }
  set (pre1 := cycle_start pf w s pre) in *.
  split.
  - (* the frame *)
    intros phase ops Hph Hev.
    unfold cycle_inv in Hinv2. rewrite Hph in Hinv2, Ht.
    destruct (phase_elapsed pf w (after_view_switch pf w s)).
    + destruct Ht as (Ht & _). rewrite Ht in Hev. discriminate.
    + destruct Ht as (_ & _ & _ & ops' & Hev' & Hbg).
      rewrite Hev' in Hev. injection Hev as <-.
      rewrite Hbg. unfold view_background, background_of_view.
      destruct phase.
      * eexists. split; [exact Hinv2 | reflexivity].
      * eexists. split; [exact Hinv2 | now rewrite negb_involutive].
  - (* the invariant at the end of the tick *)
    rewrite tick_state. unfold cycle_end.
    eapply cycle_inv_ext; [eassumption | eassumption |].
    unfold cycle_inv in *.
    destruct (transition_state (after_view_switch pf w s)) as [[|]|].
    + destruct (phase_elapsed pf w (after_view_switch pf w s)).
      * destruct Ht as (_ & -> & -> & _).
        destruct (effect_has_in_phase pf); [|exact I].
        now rewrite negb_involutive.
      * destruct Ht as (-> & -> & _). exact Hinv2.
    + destruct (phase_elapsed pf w (after_view_switch pf w s)).
      * destruct Ht as (_ & -> & _). exact I.
      * destruct Ht as (-> & -> & _). exact Hinv2.
    + destruct Ht as (-> & _). exact I.
Qed.

Lemma transition_frames_ok_from pre inputs s :
  cycle_inv pre s -> transition_frames_ok pf pre inputs s.
Proof.
  revert pre s. induction inputs as [|w rest IH]; intros pre s Hinv; [exact I|].
  cbn [transition_frames_ok]. cbn zeta.
  destruct (tick_cycle_inv w s pre Hinv) as [Hframe Hnext].
  split; [exact Hframe | apply IH; exact Hnext].
Qed.


End ProgramFacts.

(** ** Text raster cache *)

Lemma append_length a b :
  String.length (a ++ b) = (String.length a + String.length b)%nat.
Proof. induction a as [|c a IH]; [reflexivity|]. rewrite append_cons. cbn. now rewrite IH. Qed.

(** Two texts with the same font key have different cache keys. *)
Lemma append_inj_r a b k : a ++ k = b ++ k -> a = b.
Proof.
  revert b. induction a as [|c a IH]; intros [|c' b] H.
  - reflexivity.
  - apply (f_equal String.length) in H.
    rewrite !append_length in H. cbn in H. lia.
  - apply (f_equal String.length) in H.
    rewrite !append_length in H. cbn in H. lia.
  - rewrite !append_cons in H. injection H as -> H. f_equal. now apply IH.
Qed.

Lemma cachedBitmapText_miss text font (cache : RasterCache) :
  cache !! (text ++ fontKey font) = None ->
  fst (cachedBitmapText text font cache) = rasterize text font.
Proof.
  intros H. unfold cachedBitmapText, rasterize. rewrite H.
  now destruct (getbbox font text) as [[[? ?] w] h].
Qed.

Lemma cachedBitmapText_hit text font (cache : RasterCache) pre :
  cache !! (text ++ fontKey font) = Some pre ->
  cachedBitmapText text font cache = ((txt_width pre, txt_height pre, bitmap pre), cache).
Proof. intros H. unfold cachedBitmapText. now rewrite H. Qed.

(** A second call with the same arguments returns what the first returned
    and leaves the cache as the first left it. *)
Lemma cachedBitmapText_again text font (cache : RasterCache) :
  let first := cachedBitmapText text font cache in
  cachedBitmapText text font (snd first) = (fst first, snd first).
Proof.
  cbn zeta. unfold cachedBitmapText.
  destruct (cache !! (text ++ fontKey font)) as [pre|] eqn:E.
  - cbn. now rewrite E.
  - destruct (getbbox font text) as [[[? ?] w] h]. cbn.
    now rewrite lookup_insert_eq.
Qed.

(** The key is the text followed by the font's family and style names.  A
    text rasterised in one font is returned for every font with the same
    names, whatever its size. *)
Lemma cachedBitmapText_collision text font1 font2 (cache : RasterCache) :
  fontKey font1 = fontKey font2 ->
  cache !! (text ++ fontKey font1) = None ->
  fst (cachedBitmapText text font2 (snd (cachedBitmapText text font1 cache)))
  = rasterize text font1.
Proof.
  intros Hkey Hmiss. unfold cachedBitmapText at 2. rewrite Hmiss.
  unfold rasterize. destruct (getbbox font1 text) as [[[? ?] w] h]. cbn.
  unfold cachedBitmapText. rewrite <- Hkey, lookup_insert_eq. reflexivity.
Qed.

(** The cache after a call: the old one on a hit, one more entry on a miss. *)
Lemma cachedBitmapText_cache text font (cache : RasterCache) :
  let r := cachedBitmapText text font cache in
  match cache !! (text ++ fontKey font) with
  | Some pre => fst r = entry_result pre /\ snd r = cache
  | None =>
      fst r = rasterize text font
      /\ exists pre, entry_result pre = rasterize text font
           /\ snd r = <[text ++ fontKey font := pre]> cache
  end.
Proof.
  cbv zeta. unfold cachedBitmapText, rasterize, entry_result.
  destruct (cache !! (text ++ fontKey font)) as [pre|]; [split; reflexivity|].
  destruct (getbbox font text) as [[[x y] w] h]. cbn [fst snd].
  split; [reflexivity|]. eexists. split; [|reflexivity]. reflexivity.
Qed.

(** An entry, once stored, stays as it is. *)
Lemma cachedBitmapText_keeps text font (cache : RasterCache) key pre :
  cache !! key = Some pre ->
  snd (cachedBitmapText text font cache) !! key = Some pre.
Proof.
  intros Hk. pose proof (cachedBitmapText_cache text font cache) as H.
  cbv zeta in H.
  destruct (cache !! (text ++ fontKey font)) as [pre'|] eqn:E.
  - destruct H as [_ ->]. exact Hk.
  - destruct H as (_ & pre' & _ & ->).
    rewrite lookup_insert_ne; [exact Hk|]. intros <-. congruence.
Qed.

(** A call touches no key but its own. *)
Lemma cachedBitmapText_other_keys text font (cache : RasterCache) key :
  key <> text ++ fontKey font ->
  snd (cachedBitmapText text font cache) !! key = cache !! key.
Proof.
  intros Hne. pose proof (cachedBitmapText_cache text font cache) as H.
  cbv zeta in H.
  destruct (cache !! (text ++ fontKey font)) as [pre'|] eqn:E.
  - destruct H as [_ ->]. reflexivity.
  - destruct H as (_ & pre' & _ & ->).
    apply lookup_insert_ne. congruence.
Qed.

(** After a call the cache has the call's result under the call's key. *)
Lemma cachedBitmapText_stored text font (cache : RasterCache) :
  exists pre,
    snd (cachedBitmapText text font cache) !! (text ++ fontKey font) = Some pre
    /\ entry_result pre = fst (cachedBitmapText text font cache).
Proof.
  pose proof (cachedBitmapText_cache text font cache) as H. cbv zeta in H.
  destruct (cache !! (text ++ fontKey font)) as [pre|] eqn:E.
  - destruct H as [Hr Hc]. exists pre. rewrite Hc, Hr. auto.
  - destruct H as (Hr & pre & Hp & Hc). exists pre.
    rewrite Hc, lookup_insert_eq, Hr. auto.
Qed.

(** Calls whose keys do not clash, on a cache that answers each of them
    with its own rasterization, all return their own rasterization. *)
Lemma raster_calls_direct calls : forall cache : RasterCache,
  no_key_clash calls ->
  (forall c pre, In c calls -> cache !! raster_key c = Some pre ->
     entry_result pre = rasterize (fst c) (snd c)) ->
  fst (raster_calls calls cache) = map (fun c => rasterize (fst c) (snd c)) calls.
Proof.
  induction calls as [|[text font] rest IH]; intros cache Hclash Hsound;
    [reflexivity|].
  cbn [raster_calls map fst snd].
  pose proof (cachedBitmapText_cache text font cache) as Hcall. cbv zeta in Hcall.
  destruct (cachedBitmapText text font cache) as [r cache'] eqn:Ecall.
  cbn [fst snd] in Hcall.
  specialize (IH cache').
  destruct (raster_calls rest cache') as [rs cache''] eqn:Erest.
  cbn [fst] in *. f_equal.
  - destruct (cache !! (text ++ fontKey font)) as [pre|] eqn:E.
    + destruct Hcall as [-> _].
      apply (Hsound (text, font) pre); [now left | exact E].
    + destruct Hcall as [-> _]. reflexivity.
  - apply IH.
    + intros c1 c2 H1 H2. apply Hclash; now right.
    + intros c pre Hin Hlook.
      destruct (decide (raster_key c = text ++ fontKey font)) as [Heq|Hne].
      * destruct (cache !! (text ++ fontKey font)) as [pre0|] eqn:E.
        -- destruct Hcall as [_ ->].
           apply (Hsound c pre); [now right | exact Hlook].
        -- destruct Hcall as (_ & pre0 & Hp & ->).
           rewrite Heq, lookup_insert_eq in Hlook. injection Hlook as <-.
           rewrite Hp.
           apply (Hclash (text, font) c); [now left | now right | now rewrite Heq].
      * apply (Hsound c pre); [now right|].
        rewrite <- Hlook.
        change cache' with (snd (r, cache')). rewrite <- Ecall. symmetry.
        apply cachedBitmapText_other_keys. exact Hne.
Qed.



(** ** Layout fitter *)

(** Widths reported for a font do not change when the cache learns another
    text of that font. *)
Lemma measured_width_stable font (cache : RasterCache) text text' :
  measured_width font (snd (cachedBitmapText text font cache)) text'
  = measured_width font cache text'.
Proof.
  unfold measured_width, cachedBitmapText at 2.
  destruct (cache !! (text ++ fontKey font)) as [pre|] eqn:E; [reflexivity|].
  destruct (getbbox font text) as [[[x y] w] h] eqn:Hbox. cbn [snd].
  unfold cachedBitmapText.
  destruct (decide (text' = text)) as [->|Hne].
  - rewrite lookup_insert_eq, E, Hbox. reflexivity.
  - rewrite lookup_insert_ne
      by (intros H; apply append_inj_r in H; congruence).
    destruct (cache !! (text' ++ fontKey font)); [reflexivity|].
    now destruct (getbbox font text') as [[[? ?] ?] ?].
Qed.

Lemma fits_stable font total reserved extra (cache : RasterCache) text text' :
  fits font total reserved extra (snd (cachedBitmapText text font cache)) text'
  = fits font total reserved extra cache text'.
Proof. unfold fits. now rewrite measured_width_stable. Qed.

Lemma find_ext {A} (f g : A -> bool) l :
  (forall x, f x = g x) -> List.find f l = List.find g l.
Proof.
  intros H. induction l as [|a l IH]; [reflexivity|]. cbn. now rewrite H, IH.
Qed.

Lemma find_split {A} (f : A -> bool) l x :
  List.find f l = Some x ->
  f x = true
  /\ exists pre post, l = (pre ++ x :: post)%list /\ Forall (fun c => f c = false) pre.
Proof.
  induction l as [|a l IH]; [discriminate|]. cbn.
  destruct (f a) eqn:Ha.
  - intros [= ->]. split; [exact Ha|]. exists [], l. split; [reflexivity | constructor].
  - intros H. destruct (IH H) as (Hx & pre & post & -> & Hpre).
    split; [exact Hx|]. exists (a :: pre), post. split; [reflexivity|].
    constructor; assumption.
Qed.

Lemma find_all_fail {A} (f : A -> bool) l :
  List.find f l = None -> Forall (fun c => f c = false) l.
Proof.
  induction l as [|a l IH]; [constructor|]. cbn.
  destruct (f a) eqn:Ha; [discriminate|]. intros H. constructor; auto.
Qed.

Lemma last_in {A} (l : list A) a d : In (List.last (a :: l) d) (a :: l).
Proof.
  revert a. induction l as [|b l IH]; intros a; [now left|].
  right. change (List.last (a :: b :: l) d) with (List.last (b :: l) d). apply IH.
Qed.

(** The loop returns the first candidate that fits, and what
    [final_date_str] held when none does. *)
Lemma fit_loop_first_fit font total reserved extra candidates final (cache : RasterCache) :
  fst (fit_loop font total reserved extra candidates final cache)
  = first_fit (fits font total reserved extra cache) candidates final.
Proof.
  revert cache. induction candidates as [|c rest IH]; intros cache; [reflexivity|].
  cbn [fit_loop]. unfold first_fit. cbn [List.find].
  unfold fits at 1, measured_width.
  pose proof (fits_stable font total reserved extra cache c) as Hst.
  destruct (cachedBitmapText c font cache) as [[[w h] bmp] cache']. cbn [fst snd] in *.
  destruct (total - w - reserved >=? extra); [reflexivity|].
  rewrite IH. unfold first_fit.
  now rewrite (find_ext _ _ rest Hst).
Qed.

(** The fitter never fails on a list with a candidate, and answers with one
    of the candidates. *)
Lemma select_fit_total font total reserved extra candidates (cache : RasterCache) :
  candidates <> [] ->
  exists r cache',
    select_fit font total reserved extra candidates cache = Some (r, cache')
    /\ r = first_fit (fits font total reserved extra cache) candidates
                     (List.last candidates "")
    /\ In r candidates.
Proof.
  intros Hne. destruct candidates as [|c rest]; [congruence|].
  unfold select_fit, last_item.
  pose proof (fit_loop_first_fit font total reserved extra (c :: rest)
                (List.last rest c) cache) as H.
  destruct (fit_loop font total reserved extra (c :: rest) (List.last rest c) cache)
    as [r cache'].
  cbn [fst] in H. exists r, cache'. split; [reflexivity|].
  rewrite last_cons. split; [exact H|].
  subst r. unfold first_fit.
  destruct (List.find _ (c :: rest)) eqn:E.
  - apply List.find_some in E. tauto.
  - rewrite <- last_cons with (d := ""). apply last_in.
Qed.

Lemma date_formats_not_empty now : Forall (fun c => c <> "") (date_formats now).
Proof.
  unfold date_formats.
  assert (H : forall a b, a ++ ", " ++ b <> "").
  { intros [|c a] b; discriminate. }
  repeat constructor; apply H.
Qed.

(** C5: the date line is the first of the three candidates whose width, as
    the raster cache reports it, leaves the reserved gap, and the last
    candidate when none does; so it is always one of the candidates, never
    the empty string, and it misses the budget only if every candidate
    does. *)
Theorem date_line_is_first_fit (pf : Platform) (now : DateTime)
    (is_umbrella_visible : bool) (s : AppState) :
  let candidates := date_formats now in
  let fit := fits (the_font_medium_tall pf) (the_device_width pf) (MAX_CLOCK_WIDTH pf)
                  (icon_space_needed is_umbrella_visible s) (bitmapRenderCache s) in
  let chosen := value_of (get_display_date_str pf now is_umbrella_visible s) in
  chosen = first_fit fit candidates (List.last candidates "")
  /\ In chosen candidates
  /\ chosen <> ""
  /\ (fit chosen = true ->
      exists pre post,
        candidates = (pre ++ chosen :: post)%list
        /\ Forall (fun c => fit c = false) pre)
  /\ (fit chosen = false ->
      Forall (fun c => fit c = false) candidates
      /\ chosen = List.last candidates "").
Proof.
  cbn zeta.
  set (fit := fits (the_font_medium_tall pf) (the_device_width pf) (MAX_CLOCK_WIDTH pf)
                   (icon_space_needed is_umbrella_visible s) (bitmapRenderCache s)).
  assert (Hchosen : value_of (get_display_date_str pf now is_umbrella_visible s)
                    = first_fit fit (date_formats now) (List.last (date_formats now) "")).
  { unfold get_display_date_str, value_of.
    pose proof (fit_loop_first_fit (the_font_medium_tall pf) (the_device_width pf)
                  (MAX_CLOCK_WIDTH pf) (icon_space_needed is_umbrella_visible s)
                  (date_formats now) (List.last (date_formats now) "")
                  (bitmapRenderCache s)) as H.
    destruct fit_loop as [r cache']. exact H. }
  rewrite Hchosen.
  assert (Hin : In (first_fit fit (date_formats now) (List.last (date_formats now) ""))
                   (date_formats now)).
  { unfold first_fit. destruct (List.find fit (date_formats now)) eqn:E.
    - apply List.find_some in E. tauto.
    - apply last_in. }
  split; [reflexivity|]. split; [exact Hin|]. split; [|split].
  - pose proof (date_formats_not_empty now) as Hne.
    rewrite List.Forall_forall in Hne. auto.
  - unfold first_fit in *. destruct (List.find fit (date_formats now)) eqn:E.
    + intros _. apply find_split in E. tauto.
    + intros Hfit. apply find_all_fail in E.
      rewrite List.Forall_forall in E. rewrite (E _ Hin) in Hfit. discriminate.
  - unfold first_fit in *. destruct (List.find fit (date_formats now)) eqn:E.
    + intros Hfit. apply List.find_some in E. destruct E as [_ E]. congruence.
    + intros _. split; [now apply find_all_fail | reflexivity].
Qed.

(** ** Start without an API key *)

Lemma key_missing_spec pf :
  key_missing pf = true
  <-> API_KEY (the_config pf) = "key_not_set" \/ API_KEY (the_config pf) = "".
Proof. unfold key_missing. now rewrite orb_true_iff, !String.eqb_eq. Qed.

(** The cache the module leaves at import holds the two clock strings only. *)
Lemma module_cache_lookup pf key :
  key <> "23:59" ++ fontKey (the_font_large pf) ->
  key <> ":59" ++ fontKey (the_font_medium pf) ->
  snd (module_raster_init pf) !! key = None.
Proof.
  intros H1 H2. unfold module_raster_init, cachedBitmapText.
  rewrite lookup_empty.
  destruct (getbbox (the_font_large pf) "23:59") as [[[? ?] w1] h1].
  rewrite lookup_insert_ne, lookup_empty
    by (rewrite !append_cons; discriminate).
  destruct (getbbox (the_font_medium pf) ":59") as [[[? ?] w2] h2].
  cbn [snd]. now rewrite !lookup_insert_ne, lookup_empty by congruence.
Qed.

(** C8 (amended): when the API key is the placeholder or empty, [main]
    draws the message "API Key Not Set!" once, sleeps for 1800 seconds and
    returns; it makes no request and never enters the loop, whatever input
    the loop would have had. *)
Theorem missing_key_message_then_return (pf : Platform) (i : StartupInput)
    (inputs : list TickInput) :
  API_KEY (the_config pf) = "key_not_set" \/ API_KEY (the_config pf) = "" ->
  main pf i inputs
  = Returned
      [ Flush [DrawBitmap (10, 20)
                 (PicText (snd (rasterize "API Key Not Set!" (the_font_medium pf))))];
        Sleep 1800 ].
Proof.
  intros Hkey. apply key_missing_spec in Hkey. unfold main. rewrite Hkey.
  rewrite cachedBitmapText_miss
    by (apply module_cache_lookup; rewrite !append_cons; discriminate).
  now destruct (rasterize "API Key Not Set!" (the_font_medium pf)) as [[w h] bmp].
Qed.

Lemma missing_key_message_then_return_witness :
  (API_KEY (the_config Sample.platform_no_key) = "key_not_set"
   \/ API_KEY (the_config Sample.platform_no_key) = "")
  /\ main Sample.platform_no_key Sample.cold_start [Sample.input_at 1 ""]
     = Returned
         [ Flush [DrawBitmap (10, 20)
                    (PicText (snd (rasterize "API Key Not Set!"
                                     (the_font_medium Sample.platform_no_key))))];
           Sleep 1800 ].
Proof.
  split.
  - left. reflexivity.
  - apply (missing_key_message_then_return Sample.platform_no_key Sample.cold_start
             [Sample.input_at 1 ""]).
    left. reflexivity.
Defined.

(** C8 as the specification words it fails: without a key the program does
    not idle for ever, [main] returns. *)
Lemma missing_key_does_not_idle_forever :
  API_KEY (the_config Sample.platform_no_key) = loadConfig_API_KEY (fun _ => None)
  /\ ~ still_running (main Sample.platform_no_key Sample.cold_start
                           [Sample.input_at 1 ""; Sample.input_at 2000 ""]).
Proof.
  split; [reflexivity|]. vm_compute. intros [].
Qed.

Example configured_start_keeps_running :
  still_running (main Sample.platform Sample.cold_start [Sample.input_at 1 ""]).
Proof. vm_compute. exact I. Qed.

(** ** The loop and the operating hours *)

(** Outside the operating hours an iteration only sleeps for a minute;
    inside, it is one tick. *)
Lemma loop_iteration_by_hours (pf : Platform) (w : TickInput) (s : AppState) :
  let on := is_within_operating_hours (OPERATING_HOURS (the_config pf)) (now_hour w) in
  let s0 := if match is_active s with
               | Some b => negb (Bool.eqb on b)
               | None => true
               end
            then set_is_active (Some on) s else s in
  is_active s0 = Some on
  /\ loop_iteration pf w s = (if on then tick pf w s0 else (tt, s0, [Sleep 60])).
Proof.
  cbn zeta. unfold loop_iteration, bind, gets, when, assign, ret, emit.
  destruct (is_within_operating_hours _ _) eqn:Hon;
    destruct (is_active s) as [[|]|] eqn:Hb;
    cbn -[tick]; rewrite ?Hb; cbn -[tick];
    (split; [reflexivity|]);
    try reflexivity;
    now destruct (tick pf w _) as [[[] ?] ?].
Qed.

(** ** The sample run *)

Section SampleFacts.
Import Sample SampleRun.

(** One view switch, tick by tick: two Out frames over the current-weather
    background, the flip, one In frame over the forecast background, the
    return to idle and a steady frame of the forecast view. *)
Example view_switch_observed :
  observe platform_timed view_switch_run state0_timed
  = [ (Some PhaseOut, false, [current_bg]);
      (Some PhaseOut, false, [current_bg]);
      (Some PhaseIn, true, []);
      (Some PhaseIn, true, [new_forecast_bg]);
      (None, true, []);
      (None, true, [new_forecast_bg]) ].
Proof. vm_compute. reflexivity. Qed.

Example view_switch_moves :
  run_trace platform_timed (firstn 5 view_switch_run) state0_timed
  = [ None; Some PhaseOut; Some PhaseOut; Some PhaseOut;
      Some PhaseOut; Some PhaseOut; Some PhaseOut; Some PhaseOut;
      Some PhaseOut; Some PhaseOut; Some PhaseIn; Some PhaseIn;
      Some PhaseIn; Some PhaseIn; Some PhaseIn; Some PhaseIn;
      Some PhaseIn; Some PhaseIn; None; None ].
Proof. vm_compute. reflexivity. Qed.

Example tick_at_1801_refreshes :
  refresh_due platform 1801 0 = true
  /\ existsb is_http (events_of (tick platform (input_at 1801 tip) state0)) = true
  /\ refresh_state_of (state_after (tick platform (input_at 1801 tip) state0))
     = (1801%Q, Some weather_body, Some forecast_body, tip).
Proof. repeat split; vm_compute; reflexivity. Qed.

Example sentinel_keeps_tip :
  ai_tip_cache (state_after (tick platform
                               (input_at 1801 "Weather tip currently unavailable.")
                               state0))
  = "Fetching weather tip...".
Proof. vm_compute. reflexivity. Qed.

(** The date line on displays of 256, 200, 170 and 100 pixels. *)
Example date_line_by_width :
  List.map (fun width =>
              value_of (get_display_date_str (platform_of_width width) new_year false
                          (startup (platform_of_width width) cold_start)))
           [256; 200; 170; 100]
  = [ "Monday, 1st January 2024"; "Monday, 1st January";
      "Mon, 1st January"; "Mon, 1st January" ].
Proof. vm_compute. reflexivity. Qed.
End SampleFacts.

(** C1 as the specification words it fails: with an interval of 1800
    seconds and a last success at 0, the tick at 1800 makes no request. *)
Lemma tick_at_1800_does_not_refresh :
  UPDATE_INTERVAL_SECONDS (the_config Sample.platform) = 1800
  /\ last_update_time Sample.state0 = 0%Q
  /\ t_stale_check (Sample.input_at 1800 SampleRun.tip) = 1800%Q
  /\ refresh_due Sample.platform 1800 0 = false
  /\ existsb is_http
       (events_of (tick Sample.platform (Sample.input_at 1800 SampleRun.tip) Sample.state0))
     = false.
Proof. repeat split; vm_compute; reflexivity. Qed.

(** C6 as the specification words it fails: the tick that enters the Out
    phase leaves the marquee where it was, one pixel up. *)
Lemma marquee_kept_at_out_entry :
  let before := run Sample.platform_timed [Sample.input_at 1 ""] SampleRun.state0_timed in
  let after := state_after (tick Sample.platform_timed (Sample.input_at 6 "") before) in
  transition_state before = None
  /\ transition_state after = Some PhaseOut
  /\ marquee_of before = (1, 0, 0, false)
  /\ marquee_of after = (1, 0, 0, false)
  /\ marquee_of after <> marquee_zero.
Proof.
  cbn zeta.
  split; [vm_compute; reflexivity|].
  split; [vm_compute; reflexivity|].
  split; [vm_compute; reflexivity|].
  split; [vm_compute; reflexivity|].
  vm_compute. discriminate.
Qed.

(** ** Age of the data ([format_time_ago]) *)

Lemma Qltb_lt a b : Qltb a b = true <-> (a < b)%Q.
Proof.
  unfold Qltb. rewrite negb_true_iff, <- not_true_iff_false, Qle_bool_iff.
  split; [apply Qnot_le_lt | apply Qlt_not_le].
Qed.

Lemma Qltb_ge a b : Qltb a b = false <-> (b <= a)%Q.
Proof. unfold Qltb. rewrite negb_false_iff. apply Qle_bool_iff. Qed.

(** Truncation of a non-negative rational between two integers. *)
Lemma Qtrunc_between (x : Q) (lo hi : Z) :
  0 <= lo -> (inject_Z lo <= x)%Q -> (x < inject_Z hi)%Q ->
  lo <= Qtrunc x < hi
  /\ (inject_Z (Qtrunc x) <= x < inject_Z (Qtrunc x) + 1)%Q.
Proof.
  intros Hlo Hx1 Hx2. unfold Qtrunc.
  assert (H0 : (0 <= x)%Q).
  { apply Qle_trans with (inject_Z lo); [|exact Hx1].
    change 0%Q with (inject_Z 0). now rewrite <- Zle_Qle. }
  apply Qle_bool_iff in H0. rewrite H0.
  pose proof (Qfloor_le x) as Hf1. pose proof (Qlt_floor x) as Hf2.
  rewrite inject_Z_plus in Hf2. change (inject_Z 1) with 1%Q in Hf2.
  split; [|split; assumption].
  split.
  - apply Z.lt_succ_r. unfold Z.succ. rewrite Zlt_Qlt.
    rewrite inject_Z_plus. change (inject_Z 1) with 1%Q. lra.
  - rewrite Zlt_Qlt. lra.
Qed.

(** The whole number of units of size [k] in [diff]. *)
Lemma Qtrunc_div_between (diff : Q) (k lo hi : Z) :
  0 < k -> 0 <= lo ->
  (inject_Z lo * inject_Z k <= diff)%Q -> (diff < inject_Z hi * inject_Z k)%Q ->
  lo <= Qtrunc (diff / inject_Z k) < hi
  /\ (inject_Z (Qtrunc (diff / inject_Z k)) * inject_Z k <= diff
      < (inject_Z (Qtrunc (diff / inject_Z k)) + 1) * inject_Z k)%Q.
Proof.
  intros Hk Hlo H1 H2.
  assert (Hk' : (0 < inject_Z k)%Q).
  { change 0%Q with (inject_Z 0). now rewrite <- Zlt_Qlt. }
  assert (Hx : (diff / inject_Z k * inject_Z k == diff)%Q).
  { rewrite Qmult_comm. apply Qmult_div_r.
    intros E. rewrite E in Hk'. discriminate. }
  set (x := (diff / inject_Z k)%Q) in *.
  rewrite <- Hx in H1, H2.
  apply Qmult_le_r in H1; [|exact Hk']. apply Qmult_lt_r in H2; [|exact Hk'].
  destruct (Qtrunc_between x lo hi Hlo H1 H2) as [Hm [Hq1 Hq2]].
  split; [exact Hm|]. split.
  - rewrite <- Hx. apply Qmult_le_r; assumption.
  - rewrite <- Hx. apply Qmult_lt_r; assumption.
Qed.

(** X1: the age shown is "Just updated" below a minute (also when the
    clock is behind the time stamp), whole minutes from 1 to 59 below an
    hour, whole hours from 1 to 23 below a day and whole days from 1 on
    beyond; a time stamp of 0 gives the empty string. *)
Theorem format_time_ago_units (now timestamp : Q) :
  let diff := (now - timestamp)%Q in
  let shown := format_time_ago now timestamp in
  ((timestamp == 0)%Q -> shown = "")
  /\ (~ (timestamp == 0)%Q ->
      ((diff < 60)%Q -> shown = "Just updated")
      /\ ((60 <= diff)%Q -> (diff < 3600)%Q ->
          exists m, 1 <= m <= 59
            /\ (inject_Z m * 60 <= diff < (inject_Z m + 1) * 60)%Q
            /\ shown = "Updated " ++ PyStr.of_int m ++ "m ago")
      /\ ((3600 <= diff)%Q -> (diff < 86400)%Q ->
          exists h, 1 <= h <= 23
            /\ (inject_Z h * 3600 <= diff < (inject_Z h + 1) * 3600)%Q
            /\ shown = "Updated " ++ PyStr.of_int h ++ "h ago")
      /\ ((86400 <= diff)%Q ->
          exists d, 1 <= d
            /\ (inject_Z d * 86400 <= diff < (inject_Z d + 1) * 86400)%Q
            /\ shown = "Updated " ++ PyStr.of_int d ++ "d ago")).
Proof.
  cbn zeta. unfold format_time_ago. split.
  - intros H. apply Qeq_bool_iff in H. now rewrite H.
  - intros H. destruct (Qeq_bool timestamp 0) eqn:E;
      [apply Qeq_bool_iff in E; contradiction|].
    set (diff := (now - timestamp)%Q).
    split; [|split; [|split]].
    + intros Hd. apply Qltb_lt in Hd. now rewrite Hd.
    + intros H1 H2. apply Qltb_ge in H1. apply Qltb_lt in H2 as H2'.
      rewrite H1, H2'. apply Qltb_ge in H1.
      destruct (Qtrunc_div_between diff 60 1 60) as [Hm Hq]; try lia;
        [exact H1 | exact H2 |].
      change (inject_Z 60) with 60%Q in Hm, Hq.
      exists (Qtrunc (diff / 60)). split; [lia|]. split; [exact Hq | reflexivity].
    + intros H1 H2.
      assert (H60 : (60 <= diff)%Q) by lra.
      apply Qltb_ge in H60, H1. apply Qltb_lt in H2 as H2'.
      rewrite H60, H1, H2'. apply Qltb_ge in H1.
      destruct (Qtrunc_div_between diff 3600 1 24) as [Hm Hq]; try lia;
        [exact H1 | exact H2 |].
      change (inject_Z 3600) with 3600%Q in Hm, Hq.
      exists (Qtrunc (diff / 3600)). split; [lia|]. split; [exact Hq | reflexivity].
    + intros H1.
      assert (H60 : (60 <= diff)%Q) by lra.
      assert (H3600 : (3600 <= diff)%Q) by lra.
      apply Qltb_ge in H60, H3600, H1.
      rewrite H60, H3600, H1. apply Qltb_ge in H1.
      set (top := Qfloor (diff / 86400) + 1).
      assert (Hup : (diff < inject_Z top * inject_Z 86400)%Q).
      { pose proof (Qlt_floor (diff / 86400)) as Hf. fold top in Hf.
        assert (Hx : (diff / 86400 * 86400 == diff)%Q) by (rewrite Qmult_comm; apply Qmult_div_r; discriminate).
        rewrite <- Hx at 1. apply Qmult_lt_r; [reflexivity | exact Hf]. }
      destruct (Qtrunc_div_between diff 86400 1 top) as [Hm Hq]; try lia;
        [exact H1 | exact Hup |].
      change (inject_Z 86400) with 86400%Q in Hm, Hq.
      exists (Qtrunc (diff / 86400)). split; [lia|]. split; [exact Hq | reflexivity].
Qed.
(** ** Requests with retries ([_make_request_with_retries]) *)

(** X2: a request is tried at most [MAX_RETRIES] = 3 times and stops at the
    first attempt that succeeds, whose response it returns; it returns
    [None] exactly when all three attempts fail; it sleeps
    [RETRY_DELAY_SECONDS] after each failed attempt but the last, and does
    nothing else. *)
Theorem request_stops_at_first_success {Body : Type} (target : Endpoint)
    (http : nat -> option Body) (s : AppState) :
  let r := _make_request_with_retries target http s in
  let tries := length (requests_of (events_of r)) in
  state_after r = s
  /\ (1 <= tries <= MAX_RETRIES)%nat
  /\ (value_of r = None <-> forall k, (k < MAX_RETRIES)%nat -> http k = None)
  /\ (forall b, value_of r = Some b ->
      http (tries - 1)%nat = Some b
      /\ forall j, (j < tries - 1)%nat -> http j = None)
  /\ requests_of (events_of r) = repeat target tries
  /\ sleeps_of (events_of r) = repeat RETRY_DELAY_SECONDS (tries - 1)
  /\ length (events_of r) = (tries + (tries - 1))%nat.
Proof.
  cbn zeta. unfold _make_request_with_retries, MAX_RETRIES.
  cbn [request_attempts].
  destruct (http 0%nat) as [b0|] eqn:H0;
    [|destruct (http 1%nat) as [b1|] eqn:H1;
      [|destruct (http 2%nat) as [b2|] eqn:H2]];
    cbn;
    (split; [reflexivity|]); (split; [lia|]);
    (split; [|split; [|split; [reflexivity|split; reflexivity]]]).
  - split; [discriminate|]. intros H. rewrite H in H0 by lia. discriminate.
  - intros b [= <-]. split; [exact H0|]. intros j Hj. lia.
  - split; [discriminate|]. intros H. rewrite H in H1 by lia. discriminate.
  - intros b [= <-]. split; [exact H1|].
    intros j Hj. assert (j = 0%nat) as -> by lia. exact H0.
  - split; [discriminate|]. intros H. rewrite H in H2 by lia. discriminate.
  - intros b [= <-]. split; [exact H2|].
    intros j Hj. destruct j as [|[|j]]; [exact H0 | exact H1 | lia].
  - split; [|reflexivity]. intros _ k Hk. destruct k as [|[|[|k]]]; auto; lia.
  - intros b. discriminate.
Qed.
(** ** What a refresh changes, writes and requests *)

Lemma requests_of_app ev1 ev2 :
  requests_of (ev1 ++ ev2) = (requests_of ev1 ++ requests_of ev2)%list.
Proof. apply flat_map_app. Qed.

Lemma saved_docs_app ev1 ev2 :
  saved_docs (ev1 ++ ev2) = (saved_docs ev1 ++ saved_docs ev2)%list.
Proof. apply flat_map_app. Qed.

Lemma requests_of_quiet ev : Forall no_http ev -> requests_of ev = [].
Proof.
  induction 1 as [|e ev He _ IH]; [reflexivity|].
  destruct e; cbn in *; try exact IH. discriminate.
Qed.

Lemma saved_docs_of_attempts {Body} target (http : nat -> option Body) attempt remaining :
  saved_docs (snd (request_attempts target http attempt remaining)) = [].
Proof.
  revert attempt. induction remaining as [|n IH]; intros attempt; cbn; [reflexivity|].
  destruct (http attempt); [reflexivity|].
  specialize (IH (S attempt)).
  destruct (request_attempts target http (S attempt) n) as [r ev]. cbn in *.
  match goal with
  | |- context [if ?c then _ else _] => destruct c
  end; cbn; exact IH.
Qed.

Section RefreshFacts.
Variable pf : Platform.

Lemma refresh_block_outcome (w : TickInput) (s : AppState) :
  let due := refresh_due pf (t_stale_check w) (last_update_time s) in
  let wd := weather_fetched w in
  let fd := forecast_fetched w in
  let s' := after_refresh pf w s in
  let ev := events_of (refresh_block pf w s) in
  last_update_time s'
  = (if due && answered wd then t_weather_received w else last_update_time s)
  /\ weather_data_cache s' = (if due && usable wd then wd else weather_data_cache s)
  /\ current_weather_bg s'
     = (if due && usable wd then option_map render_current_weather_bg wd
        else current_weather_bg s)
  /\ forecast_data_cache s' = (if due && usable fd then fd else forecast_data_cache s)
  /\ forecast_bg s'
     = (if due && usable fd then option_map render_forecast_bg fd else forecast_bg s)
  /\ requests_of ev
     = (if due then
          requests_of (attempt_events WeatherApi (weather_http w))
          ++ requests_of (attempt_events ForecastApi (forecast_http w))
          ++ (if usable wd && negb (key_missing pf)
              then requests_of (attempt_events AssistantApi (assistant_http w))
              else [])
        else [])%list
  /\ saved_docs ev
     = ((if due && usable wd then
           match wd with
           | Some data =>
               [(WEATHER_CACHE_FILE,
                 WeatherDoc (last_update_time s') data (saved_tip (ai_tip_cache s')))]
           | None => []
           end
         else [])
        ++ (if due && usable fd then
              match fd with
              | Some data => [(FORECAST_CACHE_FILE, ForecastDoc data)]
              | None => []
              end
            else []))%list.
Proof.
  cbn zeta.
  unfold after_refresh, weather_fetched, forecast_fetched, attempt_events, saved_tip.
  pose proof (saved_docs_of_attempts WeatherApi (weather_http w) 0 MAX_RETRIES) as Hs1.
  pose proof (saved_docs_of_attempts ForecastApi (forecast_http w) 0 MAX_RETRIES) as Hs2.
  pose proof (saved_docs_of_attempts AssistantApi (assistant_http w) 0 MAX_RETRIES) as Hs3.
  unfold refresh_block, get_weather, get_forecast, get_ai_weather_tip,
    _make_request_with_retries, reset_marquee, bind, gets, assign, when, emit, ret.
  revert Hs1 Hs2 Hs3.
  generalize (request_attempts WeatherApi (weather_http w) 0 MAX_RETRIES).
  generalize (request_attempts ForecastApi (forecast_http w) 0 MAX_RETRIES).
  generalize (request_attempts AssistantApi (assistant_http w) 0 MAX_RETRIES).
  intros [tip_response ev3] [forecast_data ev2] [weather_data ev1].
  cbn [fst snd]. intros Hs1 Hs2 Hs3.
  destruct (refresh_due pf (t_stale_check w) (last_update_time s)); cbn;
    [|repeat split].
  assert (Hfc : forecast_data = None
                \/ (exists fc, forecast_data = Some fc /\ truthy fc = false)
                \/ (exists fc, forecast_data = Some fc /\ truthy fc = true)).
  { destruct forecast_data as [fc|]; [|now left].
    right. destruct (truthy fc) eqn:E; eauto. }
  assert (Hwd : weather_data = None
                \/ (exists d, weather_data = Some d /\ truthy d = false)
                \/ (exists d, weather_data = Some d /\ truthy d = true)).
  { destruct weather_data as [d|]; [|now left].
    right. destruct (truthy d) eqn:E; eauto. }
  destruct Hfc as [-> | [(fc & -> & Hfc) | (fc & -> & Hfc)]];
    destruct Hwd as [-> | [(d & -> & Hwd) | (d & -> & Hwd)]];
    cbn; rewrite ?Hfc, ?Hwd; cbn;
    try (destruct (key_missing pf); [|destruct tip_response as [[answer|]|]]; cbn;
         (case_if; cbn));
    rewrite ?requests_of_app, ?saved_docs_app, ?Hs1, ?Hs2, ?Hs3, ?app_nil_r;
    cbn; rewrite ?app_nil_r;
    repeat split; reflexivity.
Qed.


Lemma attempt_events_requests {Body} target (http : nat -> option Body) :
  (length (requests_of (attempt_events target http)) <= 3)%nat.
Proof.
  unfold attempt_events, MAX_RETRIES. cbn [request_attempts].
  destruct (http 0%nat); [cbn; lia|].
  destruct (http 1%nat); [cbn; lia|].
  destruct (http 2%nat); cbn; lia.
Qed.

Lemma log_block_events w s :
  events_of (log_block w s) = [] \/ events_of (log_block w s) = [PrintFramerate].
Proof.
  unfold log_block, bind, gets, when, emit, assign. cbn.
  case_if; cbn; auto.
Qed.

Lemma transition_block_events w s :
  events_of (transition_block pf w s) = []
  \/ exists ops, events_of (transition_block pf w s) = [Flush ops].
Proof.
  pose proof (transition_block_cases pf w s) as H. cbn zeta in H.
  destruct (transition_state s) as [phase|].
  - destruct (phase_elapsed pf w s).
    + left. tauto.
    + right. destruct H as (_ & _ & _ & ops & H & _). eauto.
  - right. destruct H as (_ & _ & ops & H & _). eauto.
Qed.

(** After the refresh block a tick neither requests nor writes anything. *)
Lemma tick_requests_and_docs w s :
  requests_of (events_of (tick pf w s)) = requests_of (events_of (refresh_block pf w s))
  /\ saved_docs (events_of (tick pf w s)) = saved_docs (events_of (refresh_block pf w s)).
Proof.
  rewrite tick_events.
  destruct (view_switch_block_spec pf w (after_refresh pf w s)) as (-> & _).
  rewrite !requests_of_app, !saved_docs_app.
  destruct (transition_block_events w (after_view_switch pf w s)) as [-> | [ops ->]];
    destruct (log_block_events w (after_transition pf w s)) as [-> | ->];
    cbn; rewrite ?app_nil_r; split; reflexivity.
Qed.

Lemma tick_backgrounds w s :
  (current_weather_bg (state_after (tick pf w s)), forecast_bg (state_after (tick pf w s)))
  = (current_weather_bg (after_refresh pf w s), forecast_bg (after_refresh pf w s)).
Proof.
  rewrite tick_state. unfold after_transition, after_view_switch.
  destruct (view_switch_block_spec pf w (after_refresh pf w s)) as (_ & _ & _ & Hb1 & _).
  destruct (transition_block_quiet pf w
              (state_after (view_switch_block pf w (after_refresh pf w s))))
    as (_ & _ & Hb2).
  destruct (log_block_spec w
              (state_after (transition_block pf w
                 (state_after (view_switch_block pf w (after_refresh pf w s))))))
    as (t & -> & _).
  rewrite <- Hb1, <- Hb2. reflexivity.
Qed.

(** The refresh state and the backgrounds at the end of a tick. *)
Lemma tick_outcome (w : TickInput) (s : AppState) :
  let due := refresh_due pf (t_stale_check w) (last_update_time s) in
  let wd := weather_fetched w in
  let fd := forecast_fetched w in
  let s' := state_after (tick pf w s) in
  last_update_time s'
  = (if due && answered wd then t_weather_received w else last_update_time s)
  /\ weather_data_cache s' = (if due && usable wd then wd else weather_data_cache s)
  /\ current_weather_bg s'
     = (if due && usable wd then option_map render_current_weather_bg wd
        else current_weather_bg s)
  /\ forecast_data_cache s' = (if due && usable fd then fd else forecast_data_cache s)
  /\ forecast_bg s'
     = (if due && usable fd then option_map render_forecast_bg fd else forecast_bg s).
Proof.
  cbn zeta.
  pose proof (tick_refresh_state pf w s) as Hr. unfold refresh_state_of in Hr.
  pose proof (tick_backgrounds w s) as Hb.
  destruct (refresh_block_outcome w s) as (H1 & H2 & H3 & H4 & H5 & _).
  cbn zeta in *.
  injection Hr as Hr1 Hr2 Hr3 Hr4. injection Hb as Hb1 Hb2.
  rewrite Hr1, Hr2, Hr3, Hb1, Hb2. auto.
Qed.

End RefreshFacts.
Section RefreshRuns.
Variable pf : Platform.

Lemma tick_tip_kept w s :
  refresh_due pf (t_stale_check w) (last_update_time s) && usable (weather_fetched w) = false ->
  ai_tip_cache (state_after (tick pf w s)) = ai_tip_cache s.
Proof.
  intros H.
  pose proof (tick_refresh_state pf w s) as Hr. unfold refresh_state_of in Hr.
  injection Hr as _ _ _ ->.
  destruct (refresh_block_tip pf w s) as (-> & _).
  unfold tip_requested. unfold usable in H.
  destruct (weather_fetched w); rewrite H; reflexivity.
Qed.

(** The cache files a tick writes, by the state it ends in. *)
Lemma tick_saved_docs w s :
  let due := refresh_due pf (t_stale_check w) (last_update_time s) in
  let wd := weather_fetched w in
  let fd := forecast_fetched w in
  let s' := state_after (tick pf w s) in
  saved_docs (events_of (tick pf w s))
  = ((if due && usable wd then
        match wd with
        | Some data =>
            [(WEATHER_CACHE_FILE,
              WeatherDoc (last_update_time s') data (saved_tip (ai_tip_cache s')))]
        | None => []
        end
      else [])
     ++ (if due && usable fd then
           match fd with
           | Some data => [(FORECAST_CACHE_FILE, ForecastDoc data)]
           | None => []
           end
         else []))%list.
Proof.
  cbv zeta.
  destruct (tick_requests_and_docs pf w s) as (_ & ->).
  destruct (refresh_block_outcome pf w s) as (_ & _ & _ & _ & _ & _ & ->).
  pose proof (tick_refresh_state pf w s) as Hr. unfold refresh_state_of in Hr.
  injection Hr as -> _ _ ->. reflexivity.
Qed.

Lemma tick_no_weather_doc w s :
  refresh_due pf (t_stale_check w) (last_update_time s) && usable (weather_fetched w) = false ->
  forall doc, ~ In (WEATHER_CACHE_FILE, doc) (saved_docs (events_of (tick pf w s))).
Proof.
  intros H doc Hin. rewrite tick_saved_docs in Hin. cbv zeta in Hin.
  rewrite H in Hin. cbn [app] in Hin. clear H.
  destruct (_ && _); [|exact Hin].
  destruct (forecast_fetched w); [|exact Hin].
  destruct Hin as [Hin|[]]. discriminate.
Qed.

Lemma attempt_events_target {Body} target (http : nat -> option Body) other :
  In other (requests_of (attempt_events target http)) -> other = target.
Proof.
  unfold attempt_events, MAX_RETRIES. cbn [request_attempts].
  destruct (http 0%nat), (http 1%nat), (http 2%nat); cbn; intuition congruence.
Qed.

(** X3: a weather request whose attempts all fail changes nothing of the
    weather side of the state (time stamp, data, tip, background), writes no
    weather cache file, and leaves the refresh due at every later time: the
    next tick asks again. *)
Theorem unanswered_weather_request_is_retried (w : TickInput) (s : AppState) (later : Q) :
  refresh_due pf (t_stale_check w) (last_update_time s) = true ->
  weather_fetched w = None ->
  (t_stale_check w <= later)%Q ->
  let s' := state_after (tick pf w s) in
  last_update_time s' = last_update_time s
  /\ weather_data_cache s' = weather_data_cache s
  /\ ai_tip_cache s' = ai_tip_cache s
  /\ current_weather_bg s' = current_weather_bg s
  /\ (forall doc, ~ In (WEATHER_CACHE_FILE, doc) (saved_docs (events_of (tick pf w s))))
  /\ ~ In AssistantApi (requests_of (events_of (tick pf w s)))
  /\ refresh_due pf later (last_update_time s') = true.
Proof.
  intros Hdue Hnone Hlater. cbv zeta.
  destruct (tick_outcome pf w s) as (H1 & H2 & H3 & _). cbv zeta in H1, H2, H3.
  rewrite Hdue, Hnone in H1, H2, H3. cbn [andb answered usable] in H1, H2, H3.
  assert (Hnot : refresh_due pf (t_stale_check w) (last_update_time s)
                 && usable (weather_fetched w) = false)
    by (rewrite Hnone; apply andb_false_r).
  split; [exact H1|]. split; [exact H2|].
  split; [apply tick_tip_kept; exact Hnot|].
  split; [exact H3|].
  split; [apply tick_no_weather_doc; exact Hnot|].
  split.
  - destruct (tick_requests_and_docs pf w s) as (-> & _).
    destruct (refresh_block_outcome pf w s) as (_ & _ & _ & _ & _ & -> & _).
    rewrite Hdue, Hnone. cbn [usable andb]. rewrite app_nil_r.
    intros Hin. apply in_app_or in Hin.
    destruct Hin as [Hin|Hin]; apply attempt_events_target in Hin; discriminate.
  - rewrite H1. apply refresh_due_stale. apply refresh_due_stale in Hdue.
    eapply Qlt_le_trans; [exact Hdue|].
    unfold Qminus. apply Qplus_le_l. exact Hlater.
Qed.

(** X4: once the weather server has answered, the time stamp is the time of
    the answer and no refresh is due until more than the update interval has
    passed since; this holds for an empty (falsy) body too, and then the
    old data, tip and background stay and no weather cache file is
    written. *)
Theorem answered_weather_request_starts_interval (w : TickInput) (s : AppState) :
  refresh_due pf (t_stale_check w) (last_update_time s) = true ->
  answered (weather_fetched w) = true ->
  let s' := state_after (tick pf w s) in
  last_update_time s' = t_weather_received w
  /\ (forall later, (later - t_weather_received w
                       <= inject_Z (UPDATE_INTERVAL_SECONDS (the_config pf)))%Q ->
        refresh_due pf later (last_update_time s') = false)
  /\ (usable (weather_fetched w) = false ->
        weather_data_cache s' = weather_data_cache s
        /\ ai_tip_cache s' = ai_tip_cache s
        /\ current_weather_bg s' = current_weather_bg s
        /\ forall doc, ~ In (WEATHER_CACHE_FILE, doc) (saved_docs (events_of (tick pf w s)))).
Proof.
  intros Hdue Hans. cbv zeta.
  destruct (tick_outcome pf w s) as (H1 & H2 & H3 & _). cbv zeta in H1, H2, H3.
  rewrite Hdue, Hans in H1. cbn [andb] in H1.
  split; [exact H1|]. split.
  - intros later Hl. rewrite H1. apply refresh_due_fresh. exact Hl.
  - intros Hu. rewrite Hdue, Hu in H2, H3. cbn [andb] in H2, H3.
    assert (Hnot : refresh_due pf (t_stale_check w) (last_update_time s)
                   && usable (weather_fetched w) = false)
      by (rewrite Hu; apply andb_false_r).
    split; [exact H2|].
    split; [apply tick_tip_kept; exact Hnot|].
    split; [exact H3|].
    apply tick_no_weather_doc; exact Hnot.
Qed.

(** X5: the forecast is stored whatever became of the weather request: when
    a refresh is due and the forecast request gives a truthy body, that body
    is cached, rendered and written to the forecast cache file; otherwise
    the forecast, its background and the file are left alone. *)
Theorem forecast_stored_on_its_own (w : TickInput) (s : AppState) :
  let due := refresh_due pf (t_stale_check w) (last_update_time s) in
  let fd := forecast_fetched w in
  let s' := state_after (tick pf w s) in
  forecast_data_cache s' = (if due && usable fd then fd else forecast_data_cache s)
  /\ forecast_bg s'
     = (if due && usable fd then option_map render_forecast_bg fd else forecast_bg s)
  /\ forall doc,
       In (FORECAST_CACHE_FILE, doc) (saved_docs (events_of (tick pf w s)))
       <-> exists data,
             doc = ForecastDoc data /\ due = true /\ fd = Some data /\ truthy data = true.
Proof.
  cbv zeta.
  destruct (tick_outcome pf w s) as (_ & _ & _ & H4 & H5). cbv zeta in H4, H5.
  split; [exact H4|]. split; [exact H5|].
  intros doc. rewrite tick_saved_docs. cbv zeta.
  rewrite in_app_iff.
  destruct (refresh_due pf (t_stale_check w) (last_update_time s)); cbn [andb].
  - split.
    + intros [Hin|Hin].
      * destruct (usable (weather_fetched w)); [|destruct Hin].
        destruct (weather_fetched w); [|destruct Hin].
        destruct Hin as [Hin|[]]. discriminate.
      * destruct (forecast_fetched w) as [data|] eqn:Hfd; cbn [usable] in Hin;
          [|destruct Hin].
        destruct (truthy data) eqn:Ht; [|destruct Hin].
        destruct Hin as [Hin|[]]. injection Hin as <-.
        exists data. auto.
    + intros (data & -> & _ & -> & Ht). right. cbn [usable]. rewrite Ht. now left.
  - split.
    + intros [[]|[]].
    + intros (data & _ & Hd & _). discriminate.
Qed.

End RefreshRuns.
Lemma attempt_events_repeat {Body} target (http : nat -> option Body) :
  exists n, (1 <= n <= 3)%nat
    /\ requests_of (attempt_events target http) = repeat target n.
Proof.
  unfold attempt_events, MAX_RETRIES. cbn [request_attempts].
  destruct (http 0%nat); [exists 1%nat; split; [lia | reflexivity]|].
  destruct (http 1%nat); [exists 2%nat; split; [lia | reflexivity]|].
  destruct (http 2%nat); exists 3%nat; (split; [lia | reflexivity]).
Qed.

Section RequestOrder.
Variable pf : Platform.


(** X7: a weather cache file written in a tick holds what the program holds
    in memory at the end of that tick: the time stamp, the (truthy) weather
    data that is now cached and rendered, and the tip; the tip is left out
    when it is a placeholder, so a written tip never contains 'unavailable'
    or 'Fetching'. *)
Theorem saved_weather_doc_mirrors_memory (w : TickInput) (s : AppState)
    (timestamp : Q) (data : Json) (tip : option string) :
  In (WEATHER_CACHE_FILE, WeatherDoc timestamp data tip)
     (saved_docs (events_of (tick pf w s))) ->
  let s' := state_after (tick pf w s) in
  timestamp = last_update_time s'
  /\ weather_data_cache s' = Some data
  /\ truthy data = true
  /\ current_weather_bg s' = Some (render_current_weather_bg data)
  /\ match tip with
     | Some t =>
         t = ai_tip_cache s'
         /\ PyStr.contains "unavailable" t = false
         /\ PyStr.contains "Fetching" t = false
     | None =>
         PyStr.contains "unavailable" (ai_tip_cache s') = true
         \/ PyStr.contains "Fetching" (ai_tip_cache s') = true
     end.
Proof.
  intros Hin. cbv zeta.
  rewrite tick_saved_docs in Hin. cbv zeta in Hin.
  destruct (tick_outcome pf w s) as (_ & H2 & H3 & _). cbv zeta in H2, H3.
  apply in_app_or in Hin. destruct Hin as [Hin|Hin].
  - destruct (refresh_due pf (t_stale_check w) (last_update_time s)
              && usable (weather_fetched w)) eqn:Hc; [|destruct Hin].
    apply andb_prop in Hc as [_ Hu].
    destruct (weather_fetched w) as [d|]; [|destruct Hin].
    destruct Hin as [Hin|[]]. injection Hin as <- <- <-.
    cbn [usable] in Hu. cbn [option_map] in H3.
    split; [reflexivity|]. split; [exact H2|]. split; [exact Hu|].
    split; [exact H3|].
    unfold saved_tip.
    destruct (PyStr.contains "unavailable" _) eqn:E1;
      destruct (PyStr.contains "Fetching" _) eqn:E2; cbn; auto.
  - destruct (_ && usable (forecast_fetched w)); [|destruct Hin].
    destruct (forecast_fetched w); [|destruct Hin].
    destruct Hin as [Hin|[]]. discriminate.
Qed.

(** X8: the weather cache file is read back at the next start as it was
    written: if [load_cache] returns the document a tick saved and
    [FORCE_REFRESH_ON_START] is off, start-up restores the time stamp and
    the weather data of the end of that tick, renders the weather
    background from that data, and restores the tip when one was saved; for
    a placeholder tip, which is not saved, it shows 'Weather tip
    unavailable.'. *)
Theorem restart_restores_saved_weather (w : TickInput) (s : AppState)
    (doc : CacheDoc) (i : StartupInput) :
  In (WEATHER_CACHE_FILE, doc) (saved_docs (events_of (tick pf w s))) ->
  weather_cache_file i = cached_info_of_doc doc ->
  FORCE_REFRESH_ON_START (the_config pf) = false ->
  let s' := state_after (tick pf w s) in
  let s0 := startup pf i in
  last_update_time s0 = last_update_time s'
  /\ weather_data_cache s0 = weather_data_cache s'
  /\ current_weather_bg s0
     = option_map render_current_weather_bg (weather_data_cache s')
  /\ ai_tip_cache s0
     = match saved_tip (ai_tip_cache s') with
       | Some t => t
       | None => "Weather tip unavailable."
       end
  /\ (saved_tip (ai_tip_cache s') <> None -> ai_tip_cache s0 = ai_tip_cache s').
Proof.
  intros Hin Hfile Hforce. cbv zeta.
  rewrite tick_saved_docs in Hin. cbv zeta in Hin.
  destruct (tick_outcome pf w s) as (_ & H2 & H3 & _). cbv zeta in H2, H3.
  apply in_app_or in Hin. destruct Hin as [Hin|Hin].
  - destruct (refresh_due pf (t_stale_check w) (last_update_time s)
              && usable (weather_fetched w)) eqn:Hc; [|destruct Hin].
    apply andb_prop in Hc as [_ Hu].
    destruct (weather_fetched w) as [d|]; [|destruct Hin].
    destruct Hin as [Hin|[]]. injection Hin as <-.
    cbn [usable] in Hu. cbn [option_map] in H3.
    rewrite H2. cbn [option_map].
    unfold startup. rewrite Hfile, Hforce. cbn [cached_info_of_doc].
    destruct (forecast_cache_file i) as [fc|]; cbn; rewrite ?Hu; cbn;
      [destruct (truthy fc); cbn|];
      (repeat split; try reflexivity;
       unfold saved_tip; destruct (_ && _); [reflexivity | congruence]).
  - destruct (_ && usable (forecast_fetched w)); [|destruct Hin].
    destruct (forecast_fetched w); [|destruct Hin].
    destruct Hin as [Hin|[]]. discriminate.
Qed.

End RequestOrder.

(** ** The refresh facts on sample iterations *)

Lemma unanswered_weather_request_is_retried_witness :
  refresh_due Sample.platform (t_stale_check (SampleNet.offline_at 1801))
    (last_update_time Sample.state0) = true
  /\ weather_fetched (SampleNet.offline_at 1801) = None
  /\ refresh_due Sample.platform 5000
       (last_update_time
          (state_after (tick Sample.platform (SampleNet.offline_at 1801) Sample.state0)))
     = true.
Proof.
  assert (H1 : refresh_due Sample.platform (t_stale_check (SampleNet.offline_at 1801))
                 (last_update_time Sample.state0) = true) by (vm_compute; reflexivity).
  assert (H2 : weather_fetched (SampleNet.offline_at 1801) = None)
    by (vm_compute; reflexivity).
  assert (H3 : (t_stale_check (SampleNet.offline_at 1801) <= 5000)%Q)
    by (vm_compute; discriminate).
  split; [exact H1|]. split; [exact H2|].
  exact (proj2 (proj2 (proj2 (proj2 (proj2 (proj2
           (unanswered_weather_request_is_retried Sample.platform
              (SampleNet.offline_at 1801) Sample.state0 5000 H1 H2 H3))))))).
Defined.

Lemma answered_weather_request_starts_interval_witness :
  refresh_due Sample.platform (t_stale_check (SampleNet.empty_answer_at 1801))
    (last_update_time Sample.state0) = true
  /\ answered (weather_fetched (SampleNet.empty_answer_at 1801)) = true
  /\ last_update_time
       (state_after (tick Sample.platform (SampleNet.empty_answer_at 1801) Sample.state0))
     = t_weather_received (SampleNet.empty_answer_at 1801).
Proof.
  assert (H1 : refresh_due Sample.platform (t_stale_check (SampleNet.empty_answer_at 1801))
                 (last_update_time Sample.state0) = true) by (vm_compute; reflexivity).
  assert (H2 : answered (weather_fetched (SampleNet.empty_answer_at 1801)) = true)
    by (vm_compute; reflexivity).
  split; [exact H1|]. split; [exact H2|].
  exact (proj1 (answered_weather_request_starts_interval Sample.platform
                  (SampleNet.empty_answer_at 1801) Sample.state0 H1 H2)).
Defined.

Lemma saved_weather_doc_mirrors_memory_witness :
  In (WEATHER_CACHE_FILE, WeatherDoc 1801 Sample.weather_body (Some SampleRun.tip))
     (saved_docs (events_of (tick Sample.platform (Sample.input_at 1801 SampleRun.tip)
                               Sample.state0)))
  /\ weather_data_cache
       (state_after (tick Sample.platform (Sample.input_at 1801 SampleRun.tip) Sample.state0))
     = Some Sample.weather_body.
Proof.
  assert (H : In (WEATHER_CACHE_FILE,
                  WeatherDoc 1801 Sample.weather_body (Some SampleRun.tip))
                (saved_docs (events_of (tick Sample.platform
                                          (Sample.input_at 1801 SampleRun.tip)
                                          Sample.state0))))
    by (vm_compute; left; reflexivity).
  split; [exact H|].
  exact (proj1 (proj2 (saved_weather_doc_mirrors_memory Sample.platform
                         (Sample.input_at 1801 SampleRun.tip) Sample.state0
                         1801 Sample.weather_body (Some SampleRun.tip) H))).
Defined.

Lemma restart_restores_saved_weather_witness :
  In (WEATHER_CACHE_FILE, SampleNet.saved_weather_doc)
     (saved_docs (events_of (tick Sample.platform (Sample.input_at 1801 SampleRun.tip)
                               Sample.state0)))
  /\ weather_cache_file (SampleNet.restart_from SampleNet.saved_weather_doc)
     = cached_info_of_doc SampleNet.saved_weather_doc
  /\ FORCE_REFRESH_ON_START (the_config Sample.platform) = false
  /\ last_update_time
       (startup Sample.platform (SampleNet.restart_from SampleNet.saved_weather_doc))
     = last_update_time
         (state_after (tick Sample.platform (Sample.input_at 1801 SampleRun.tip)
                         Sample.state0)).
Proof.
  assert (H1 : In (WEATHER_CACHE_FILE, SampleNet.saved_weather_doc)
                 (saved_docs (events_of (tick Sample.platform
                                           (Sample.input_at 1801 SampleRun.tip)
                                           Sample.state0))))
    by (vm_compute; left; reflexivity).
  assert (H2 : weather_cache_file (SampleNet.restart_from SampleNet.saved_weather_doc)
               = cached_info_of_doc SampleNet.saved_weather_doc) by reflexivity.
  assert (H3 : FORCE_REFRESH_ON_START (the_config Sample.platform) = false)
    by reflexivity.
  split; [exact H1|]. split; [exact H2|]. split; [exact H3|].
  exact (proj1 (restart_restores_saved_weather Sample.platform
                  (Sample.input_at 1801 SampleRun.tip) Sample.state0
                  SampleNet.saved_weather_doc
                  (SampleNet.restart_from SampleNet.saved_weather_doc) H1 H2 H3)).
Defined.
(** ** Operating hours *)

(** X9: reversing the two hours of the window gives the complementary
    window, at every hour, when the two hours differ; a window whose two
    hours are equal is never on. *)
Theorem reversed_hours_are_the_complement (s1 s2 : string) (a b now_hour : Z) :
  parse_operating_hours s1 = Some (a, b) ->
  parse_operating_hours s2 = Some (b, a) ->
  (a <> b ->
     is_within_operating_hours s2 now_hour
     = negb (is_within_operating_hours s1 now_hour))
  /\ (a = b ->
        is_within_operating_hours s1 now_hour = false
        /\ is_within_operating_hours s2 now_hour = false).
Proof.
  intros H1 H2. unfold is_within_operating_hours. rewrite H1, H2.
  split.
  - intros Hne.
    destruct (a <=? b) eqn:Eab; destruct (b <=? a) eqn:Eba;
      destruct (a <=? now_hour) eqn:E1; destruct (now_hour <? b) eqn:E2;
      destruct (b <=? now_hour) eqn:E3; destruct (now_hour <? a) eqn:E4;
      destruct (now_hour >=? a) eqn:E5; destruct (now_hour >=? b) eqn:E6;
      cbn; try reflexivity; lia.
  - intros ->. rewrite Z.leb_refl.
    destruct (b <=? now_hour) eqn:E1; destruct (now_hour <? b) eqn:E2;
      cbn; try (split; reflexivity); lia.
Qed.

Lemma reversed_hours_are_the_complement_witness :
  parse_operating_hours "8-22" = Some (8, 22)
  /\ parse_operating_hours "22-8" = Some (22, 8)
  /\ (8 <> 22 ->
        is_within_operating_hours "22-8" 3 = negb (is_within_operating_hours "8-22" 3)).
Proof.
  assert (H1 : parse_operating_hours "8-22" = Some (8, 22)) by reflexivity.
  assert (H2 : parse_operating_hours "22-8" = Some (22, 8)) by reflexivity.
  split; [exact H1|]. split; [exact H2|].
  exact (proj1 (reversed_hours_are_the_complement "8-22" "22-8" 8 22 3 H1 H2)).
Defined.

(** Outside the operating hours an iteration sleeps for a minute and does
    nothing else. *)
Lemma loop_iteration_off (pf : Platform) (w : TickInput) (s : AppState) :
  is_within_operating_hours (OPERATING_HOURS (the_config pf)) (now_hour w) = false ->
  events_of (loop_iteration pf w s) = [Sleep 60]
  /\ set_is_active None (state_after (loop_iteration pf w s)) = set_is_active None s
  /\ is_active (state_after (loop_iteration pf w s)) = Some false.
Proof.
  intros Hoff.
  destruct (loop_iteration_by_hours pf w s) as [Hact Hrun].
  cbv zeta in Hact, Hrun. rewrite Hoff in Hact, Hrun. rewrite Hrun.
  cbn [events_of state_after fst snd].
  split; [reflexivity|]. split; [|exact Hact].
  destruct (match is_active s with Some b => negb (eqb false b) | None => true end);
    reflexivity.
Qed.

(** X10: while the hour is outside the operating hours the loop only
    sleeps, a minute per iteration: it makes no request, draws no frame
    (the display is not cleared) and changes nothing of the state but
    [is_active]. *)
Theorem outside_hours_only_sleeps (pf : Platform) (inputs : list TickInput) (s : AppState) :
  (forall w, In w inputs ->
     is_within_operating_hours (OPERATING_HOURS (the_config pf)) (now_hour w) = false) ->
  events_of (main_loop pf inputs s) = repeat (Sleep 60) (length inputs)
  /\ set_is_active None (state_after (main_loop pf inputs s)) = set_is_active None s
  /\ (inputs <> [] -> is_active (state_after (main_loop pf inputs s)) = Some false).
Proof.
  revert s. induction inputs as [|w rest IH]; intros s Hoff.
  - cbn. repeat split. congruence.
  - cbn [main_loop length repeat].
    rewrite bind_events, bind_state.
    destruct (loop_iteration_off pf w s (Hoff w (or_introl eq_refl)))
      as (Hev & Hst & Hact).
    destruct (IH (state_after (loop_iteration pf w s))
                 (fun w' H => Hoff w' (or_intror H))) as (IHev & IHst & IHact).
    rewrite Hev, IHev, IHst, Hst.
    split; [reflexivity|]. split; [reflexivity|].
    intros _. destruct rest as [|w' rest'].
    + cbn. exact Hact.
    + apply IHact. discriminate.
Qed.

Lemma outside_hours_only_sleeps_witness :
  (forall w, In w SampleNight.night ->
     is_within_operating_hours (OPERATING_HOURS (the_config Sample.platform)) (now_hour w)
     = false)
  /\ events_of (main_loop Sample.platform SampleNight.night Sample.state0)
     = [Sleep 60; Sleep 60; Sleep 60].
Proof.
  assert (H : forall w, In w SampleNight.night ->
            is_within_operating_hours (OPERATING_HOURS (the_config Sample.platform))
              (now_hour w) = false).
  { intros w [<-|[<-|[<-|[]]]]; reflexivity. }
  split; [exact H|].
  exact (proj1 (outside_hours_only_sleeps Sample.platform SampleNight.night
                  Sample.state0 H)).
Defined.

(** ** The date line *)

(** X11: for every day of a month the ordinal suffix is the English one:
    'st' for 1, 21 and 31, 'nd' for 2 and 22, 'rd' for 3 and 23, 'th' for
    every other day, 11, 12 and 13 included. *)
Theorem ordinal_suffix_of_month_days (day : Z) :
  1 <= day <= 31 ->
  get_ordinal_suffix day
  = if existsb (Z.eqb day) [1; 21; 31] then "st"
    else if existsb (Z.eqb day) [2; 22] then "nd"
    else if existsb (Z.eqb day) [3; 23] then "rd"
    else "th".
Proof.
  intros Hday.
  assert (Hn : exists n : nat, day = Z.of_nat n /\ (n <= 31)%nat).
  { exists (Z.to_nat day). lia. }
  destruct Hn as (n & -> & Hn).
  do 32 (destruct n as [|n]; [try lia; vm_compute; reflexivity|]).
  lia.
Qed.

Lemma ordinal_suffix_of_month_days_witness :
  1 <= 22 <= 31 /\ get_ordinal_suffix 22 = "nd".
Proof.
  assert (H : 1 <= 22 <= 31) by lia.
  split; [exact H|].
  exact (ordinal_suffix_of_month_days 22 H).
Defined.
Lemma append_assoc (a b c : string) : (a ++ b) ++ c = a ++ (b ++ c).
Proof.
  induction a as [|ch a IH]; [reflexivity|].
  rewrite !append_cons. now rewrite IH.
Qed.

(** X12: on a valid week day the three candidates of the date line get
    strictly shorter: the first is the second followed by a space and the
    year, and the third is the second with the day name abbreviated. *)
Theorem date_candidates_get_shorter (now : DateTime) :
  0 <= weekday now <= 6 ->
  exists full short rest,
    strftime_A now = full
    /\ dict_get DAY_ABBREVIATIONS full "----" = short
    /\ date_formats now
       = [ (full ++ rest) ++ " " ++ strftime_Y now; full ++ rest; short ++ rest ]
    /\ (String.length short < String.length full)%nat
    /\ (String.length (short ++ rest) < String.length (full ++ rest)
        < String.length ((full ++ rest) ++ " " ++ strftime_Y now))%nat.
Proof.
  intros Hwd.
  exists (strftime_A now), (dict_get DAY_ABBREVIATIONS (strftime_A now) "----"),
    (", " ++ PyStr.of_int (day now) ++ get_ordinal_suffix (day now) ++ " " ++ strftime_B now).
  split; [reflexivity|]. split; [reflexivity|].
  assert (Hshort : (String.length (dict_get DAY_ABBREVIATIONS (strftime_A now) "----")
                    < String.length (strftime_A now))%nat).
  { unfold strftime_A.
    assert (Hn : exists n : nat, weekday now = Z.of_nat n /\ (n <= 6)%nat).
    { exists (Z.to_nat (weekday now)). lia. }
    destruct Hn as (n & -> & Hn). rewrite Nat2Z.id.
    do 7 (destruct n as [|n]; [cbn; lia|]). lia. }
  split; [|split; [exact Hshort|]].
  - unfold date_formats. cbv zeta.
    repeat rewrite append_assoc. reflexivity.
  - rewrite !append_length. cbn [String.length]. lia.
Qed.

Lemma date_candidates_get_shorter_witness :
  0 <= weekday Sample.new_year <= 6
  /\ exists full short rest,
       strftime_A Sample.new_year = full
       /\ dict_get DAY_ABBREVIATIONS full "----" = short
       /\ date_formats Sample.new_year
          = [ (full ++ rest) ++ " " ++ strftime_Y Sample.new_year;
              full ++ rest; short ++ rest ]
       /\ (String.length short < String.length full)%nat
       /\ (String.length (short ++ rest) < String.length (full ++ rest)
           < String.length ((full ++ rest) ++ " " ++ strftime_Y Sample.new_year))%nat.
Proof.
  assert (H : 0 <= weekday Sample.new_year <= 6) by (cbn; lia).
  split; [exact H|].
  exact (date_candidates_get_shorter Sample.new_year H).
Defined.

(** ** A display duration below zero *)

Section Frozen.
Variable pf : Platform.

(** With a negative display duration a tick of the idle controller stays
    idle, keeps the view and draws one frame. *)
Lemma tick_frozen w s :
  DISPLAY_DURATION (the_config pf) < 0 ->
  transition_state s = None ->
  transition_state (state_after (tick pf w s)) = None
  /\ is_showing_forecast (state_after (tick pf w s)) = is_showing_forecast s
  /\ exists ops, frames_of (events_of (tick pf w s)) = [ops].
Proof.
  intros Hneg Hidle. rewrite tick_state, tick_events.
  pose proof (refresh_block_control pf w s) as Hr. cbv beta in Hr.
  fold (after_refresh pf w s) in Hr.
  assert (Hnf : frames_of (events_of (refresh_block pf w s)) = []).
  { pose proof (refresh_block_no_flush pf w s) as Hrf. unfold events_of in *.
    induction Hrf as [|e ev He _ IH]; [reflexivity|].
    destruct e; cbn in *; try exact IH; discriminate. }
  pose proof (view_switch_block_spec pf w (after_refresh pf w s)) as Hv.
  cbv zeta in Hv. fold (after_view_switch pf w s) in Hv.
  pose proof (transition_block_cases pf w (after_view_switch pf w s)) as Ht.
  cbv zeta in Ht. fold (after_transition pf w s) in Ht.
  destruct (log_block_control w (after_transition pf w s)) as [Hl _].
  destruct (log_block_events w (after_transition pf w s)) as [Hle | Hle].
  all: split_obs Hr; split_obs Hl.
  all: destruct Hv as (Hve & _ & Hvv & _ & _ & Hvt).
  all: assert (Hts : transition_state (after_view_switch pf w s) = None)
         by (destruct Hvt as [[Hvt _] | (_ & _ & [[Hd _] | [Hd _]])];
             [congruence | lia | lia]).
  all: rewrite Hts in Ht; destruct Ht as (Ht1 & Ht2 & ops & Hte & _).
  all: (split; [congruence|]); (split; [congruence|]).
  all: exists ops; rewrite Hve, Hte, Hle.
  all: unfold frames_of in *; rewrite !flat_map_app, Hnf; reflexivity.
Qed.

(** X13: with a display duration below zero the view never changes: from
    an idle controller no tick starts a transition, the forecast view is
    never reached, and every tick draws exactly one frame. *)
Theorem negative_display_duration_never_switches (inputs : list TickInput) (s : AppState) :
  DISPLAY_DURATION (the_config pf) < 0 ->
  transition_state s = None ->
  transition_state (run pf inputs s) = None
  /\ is_showing_forecast (run pf inputs s) = is_showing_forecast s
  /\ Forall (fun t => t = None) (run_trace pf inputs s)
  /\ forall w, exists ops,
       frames_of (events_of (tick pf w (run pf inputs s))) = [ops].
Proof.
  intros Hneg. revert s.
  induction inputs as [|w rest IH]; intros s Hidle.
  - cbn [run run_trace]. repeat split; auto.
    intros w. destruct (tick_frozen w s Hneg Hidle) as (_ & _ & H). exact H.
  - destruct (tick_frozen w s Hneg Hidle) as (Ht & Hv & _).
    destruct (IH _ Ht) as (IH1 & IH2 & IH3 & IH4).
    cbn [run run_trace].
    split; [exact IH1|]. split; [congruence|]. split; [|exact IH4].
    apply Forall_app. split; [|exact IH3].
    pose proof (tick_moves pf w s) as Hm. unfold tick_trace in *.
    cbn [chain] in Hm. destruct Hm as (H1 & H2 & H3 & H4 & _).
    pose proof (refresh_block_control pf w s) as Hr. cbv beta in Hr.
    fold (after_refresh pf w s) in Hr. split_obs Hr.
    pose proof (view_switch_block_spec pf w (after_refresh pf w s)) as Hvs.
    cbv zeta in Hvs. fold (after_view_switch pf w s) in Hvs.
    destruct Hvs as (_ & _ & _ & _ & _ & Hvt).
    assert (Hts : transition_state (after_view_switch pf w s) = None)
      by (destruct Hvt as [[Hvt _] | (_ & _ & [[Hd _] | [Hd _]])];
          [congruence | lia | lia]).
    pose proof (transition_block_cases pf w (after_view_switch pf w s)) as Htc.
    cbv zeta in Htc. fold (after_transition pf w s) in Htc.
    rewrite Hts in Htc. destruct Htc as (Htc & _).
    repeat constructor; congruence.
Qed.

End Frozen.

Lemma negative_display_duration_never_switches_witness :
  DISPLAY_DURATION (the_config SampleFrozen.platform_frozen) < 0
  /\ transition_state SampleFrozen.state0_frozen = None
  /\ is_showing_forecast
       (run SampleFrozen.platform_frozen SampleFrozen.day_run SampleFrozen.state0_frozen)
     = is_showing_forecast SampleFrozen.state0_frozen.
Proof.
  assert (H1 : DISPLAY_DURATION (the_config SampleFrozen.platform_frozen) < 0)
    by (cbn; lia).
  assert (H2 : transition_state SampleFrozen.state0_frozen = None) by reflexivity.
  split; [exact H1|]. split; [exact H2|].
  exact (proj1 (proj2 (negative_display_duration_never_switches
                         SampleFrozen.platform_frozen SampleFrozen.day_run
                         SampleFrozen.state0_frozen H1 H2))).
Defined.
(** ** The transition overlay *)

Lemma Qtrunc_scale (n : Z) (p : Q) :
  0 <= n -> (0 <= p)%Q -> (p <= 1)%Q ->
  0 <= Qtrunc (inject_Z n * p) <= n.
Proof.
  intros Hn Hp0 Hp1.
  assert (Hn' : (0 <= inject_Z n)%Q).
  { change 0%Q with (inject_Z 0). now rewrite <- Zle_Qle. }
  assert (Hx0 : (0 <= inject_Z n * p)%Q) by (apply Qmult_le_0_compat; assumption).
  assert (Hx1 : (inject_Z n * p <= inject_Z n)%Q).
  { nra. }
  unfold Qtrunc. apply Qle_bool_iff in Hx0 as Hb. rewrite Hb.
  split.
  - change 0 with (Qfloor (inject_Z 0)). apply Qfloor_resp_le. exact Hx0.
  - rewrite <- (Qfloor_Z n) at 2. apply Qfloor_resp_le. exact Hx1.
Qed.

Lemma progress_in_unit_interval (elapsed duration : Q) :
  (0 <= elapsed)%Q -> (elapsed < duration)%Q ->
  (0 < duration)%Q /\ (0 <= elapsed / duration)%Q /\ (elapsed / duration < 1)%Q.
Proof.
  intros H0 H1.
  assert (Hd : (0 < duration)%Q) by (eapply Qle_lt_trans; eassumption).
  split; [exact Hd|]. split.
  - apply Qle_shift_div_l; [exact Hd|]. now rewrite Qmult_0_l.
  - apply Qlt_shift_div_r; [exact Hd|]. now rewrite Qmult_1_l.
Qed.

(** X14: in a transition frame of a clock that does not run backwards the
    progress [elapsed / duration] divides by a positive duration and lies
    in [0, 1), and every rectangle the wipe or blink effect draws over the
    frame lies within the screen, its corners in order. *)
Theorem transition_overlay_within_screen (pf : Platform) (is_out : bool) (elapsed : Q) :
  0 <= the_device_width pf ->
  0 <= the_device_height pf ->
  (0 <= elapsed)%Q ->
  Qgeb elapsed (TRANSITION_DURATION_SECONDS (the_config pf)) = false ->
  let duration := TRANSITION_DURATION_SECONDS (the_config pf) in
  (0 < duration)%Q
  /\ (0 <= elapsed / duration)%Q /\ (elapsed / duration < 1)%Q
  /\ Forall (rect_on_screen (the_device_width pf) (the_device_height pf))
            (transition_overlay pf is_out (elapsed / duration)).
Proof.
  intros HW HH H0 Hrun. cbv zeta.
  assert (H1 : (elapsed < TRANSITION_DURATION_SECONDS (the_config pf))%Q).
  { unfold Qgeb in Hrun. apply Qnot_le_lt. intros Hle.
    apply Qle_bool_iff in Hle. congruence. }
  destruct (progress_in_unit_interval _ _ H0 H1) as (Hd & Hp0 & Hp1).
  split; [exact Hd|]. split; [exact Hp0|]. split; [exact Hp1|].
  set (progress := (elapsed / TRANSITION_DURATION_SECONDS (the_config pf))%Q) in *.
  assert (Hp1' : (progress <= 1)%Q) by (apply Qlt_le_weak; exact Hp1).
  assert (Hq0 : (0 <= 1 - progress)%Q) by lra.
  assert (Hq1 : (1 - progress <= 1)%Q) by lra.
  pose proof (Z.div_pos _ 2 HW ltac:(lia)) as Hcx.
  pose proof (Z.div_pos _ 2 HH ltac:(lia)) as Hcy.
  pose proof (Z.mul_div_le (the_device_width pf) 2 ltac:(lia)) as Hcx2.
  pose proof (Z.mul_div_le (the_device_height pf) 2 ltac:(lia)) as Hcy2.
  pose proof (Qtrunc_scale _ progress HW Hp0 Hp1') as Hwipe.
  pose proof (Qtrunc_scale _ progress Hcx Hp0 Hp1') as Hbx.
  pose proof (Qtrunc_scale _ progress Hcy Hp0 Hp1') as Hby.
  pose proof (Qtrunc_scale _ (1 - progress) Hcx Hq0 Hq1) as Hbx'.
  pose proof (Qtrunc_scale _ (1 - progress) Hcy Hq0 Hq1) as Hby'.
  unfold transition_overlay.
  destruct (String.eqb (TRANSITION_EFFECT (the_config pf)) "wipe").
  - destruct is_out; repeat constructor; cbn; lia.
  - destruct (String.eqb (TRANSITION_EFFECT (the_config pf)) "blink");
      [|constructor].
    destruct is_out; repeat constructor; cbn; lia.
Qed.

Lemma transition_overlay_within_screen_witness :
  0 <= the_device_width Sample.platform
  /\ 0 <= the_device_height Sample.platform
  /\ (0 <= 1 # 10)%Q
  /\ Qgeb (1 # 10) (TRANSITION_DURATION_SECONDS (the_config Sample.platform)) = false
  /\ Forall (rect_on_screen (the_device_width Sample.platform)
               (the_device_height Sample.platform))
            (transition_overlay Sample.platform true
               ((1 # 10) / TRANSITION_DURATION_SECONDS (the_config Sample.platform))).
Proof.
  assert (H1 : 0 <= the_device_width Sample.platform) by (cbn; lia).
  assert (H2 : 0 <= the_device_height Sample.platform) by (cbn; lia).
  assert (H3 : (0 <= 1 # 10)%Q) by (vm_compute; discriminate).
  assert (H4 : Qgeb (1 # 10) (TRANSITION_DURATION_SECONDS (the_config Sample.platform))
               = false) by reflexivity.
  split; [exact H1|]. split; [exact H2|]. split; [exact H3|]. split; [exact H4|].
  exact (proj2 (proj2 (proj2 (transition_overlay_within_screen Sample.platform true
                                (1 # 10) H1 H2 H3 H4)))).
Defined.
(** ** The marquee *)

Lemma marquee_step_refl a : marquee_step a a.
Proof.
  destruct a as [[[up el] x] fired]. cbn.
  repeat split; try lia; auto.
Qed.

Lemma steps_of_preserves {A} (m : Prog A) : Preserves marquee_of m -> Steps m.
Proof. intros H s. rewrite (H s). apply marquee_step_refl. Qed.

Lemma steps_bind_l {A C} (m : Prog A) (k : A -> Prog C) :
  Preserves marquee_of m -> (forall a, Steps (k a)) -> Steps (bind m k).
Proof.
  intros Hm Hk s. rewrite bind_state, <- (Hm s). apply Hk.
Qed.

Lemma steps_bind_r {A C} (m : Prog A) (k : A -> Prog C) :
  Steps m -> (forall a, Preserves marquee_of (k a)) -> Steps (bind m k).
Proof.
  intros Hm Hk s. rewrite bind_state, (Hk _ (state_after (m s))). apply Hm.
Qed.

Section Marquee.
Variable pf : Platform.

Lemma advance_marquee_steps w tip_width tip_height :
  Steps (advance_marquee pf w tip_width tip_height).
Proof.
  intros s. unfold advance_marquee, bind, gets, assign, when, ret, marquee_of.
  destruct s; cbn.
  repeat (case_if; cbn); bool_hyps;
    repeat match goal with
           | H : (_ =? _) = false |- _ => apply Z.eqb_neq in H
           | H : (_ <? _) = false |- _ => apply Z.ltb_ge in H
           | H : negb _ = true |- _ => apply negb_true_iff in H
           | H : negb _ = false |- _ => apply negb_false_iff in H
           end;
    repeat split; try lia; auto; try congruence;
    try (intros; subst; split; congruence).
Qed.

Ltac solve_preserves :=
  solve [ repeat first
            [ apply preserves_get_display_date_str; intros; reflexivity
            | step_preserves ] ].

Lemma draw_frame_content_steps w background is_transitioning :
  Steps (draw_frame_content pf w background is_transitioning).
Proof.
  unfold draw_frame_content.
  repeat first
    [ apply advance_marquee_steps
    | apply steps_of_preserves; solve_preserves
    | apply steps_bind_l; [solve_preserves | intros ?]
    | apply steps_bind_r; [| intros ?; solve_preserves]
    | match goal with
      | |- Steps (match ?x with _ => _ end) => destruct x
      | |- Steps (when ?c _) => destruct c; cbn [when]
      end ].
Qed.

Lemma idle_of_preserves {A} (m : Prog A) :
  Preserves marquee_of m -> IdleWithoutTip m.
Proof. intros H s _. apply H. Qed.

Lemma idle_bind {A C} (m : Prog A) (k : A -> Prog C) :
  Preserves (fun s => (marquee_of s, ai_tip_cache s)) m ->
  (forall a, IdleWithoutTip (k a)) -> IdleWithoutTip (bind m k).
Proof.
  intros Hm Hk s Htip. rewrite bind_state.
  pose proof (f_equal fst (Hm s)) as E1. pose proof (f_equal snd (Hm s)) as E2.
  cbn [fst snd] in E1, E2.
  rewrite <- E1. apply Hk. congruence.
Qed.

Lemma idle_gets_tip {C} (k : string -> Prog C) :
  IdleWithoutTip (k "") -> IdleWithoutTip (bind (gets ai_tip_cache) k).
Proof.
  intros Hk s Htip. rewrite bind_state. cbn. rewrite Htip. now apply Hk.
Qed.

Lemma draw_frame_content_idle_without_tip w background is_transitioning :
  IdleWithoutTip (draw_frame_content pf w background is_transitioning).
Proof.
  unfold draw_frame_content.
  repeat first
    [ apply idle_gets_tip
    | apply idle_of_preserves; solve_preserves
    | apply idle_bind; [solve_preserves | intros ?]
    | match goal with
      | |- IdleWithoutTip (match ?x with _ => _ end) => destruct x
      end ].
Qed.

(** X15: a frame moves the marquee by one step at most and never
    backwards: each of [pixelsUp] and [scroll_x] stays or grows by one,
    [hasElevated] stays or goes from 0 to 1, a set completion flag stays
    set and stops the scroll, and the tip scrolls only once it has risen;
    a transition frame and a frame with an empty tip leave the marquee as
    it is. *)
Theorem frame_moves_marquee_one_step (w : TickInput) (background : option Image)
    (is_transitioning : bool) (s : AppState) :
  let s' := state_after (draw_frame_content pf w background is_transitioning s) in
  marquee_step (marquee_of s) (marquee_of s')
  /\ (is_transitioning = true -> marquee_of s' = marquee_of s)
  /\ (ai_tip_cache s = "" -> marquee_of s' = marquee_of s).
Proof.
  cbv zeta. split; [apply draw_frame_content_steps|]. split.
  - intros ->. apply draw_frame_content_frozen.
  - apply draw_frame_content_idle_without_tip.
Qed.

End Marquee.
(** ** The date line is fitted once a day *)

Lemma keeps_of_preserves {A} d (m : Prog A) :
  Preserves date_line_of m -> KeepsDateLine d m.
Proof. intros H s _. apply H. Qed.

Lemma keeps_bind {A C} d (m : Prog A) (k : A -> Prog C) :
  Preserves date_line_of m ->
  (forall a, KeepsDateLine d (k a)) -> KeepsDateLine d (bind m k).
Proof.
  intros Hm Hk s Hd. rewrite bind_state.
  pose proof (Hm s) as E. rewrite <- E. apply Hk.
  apply (f_equal snd) in E. cbn in E. congruence.
Qed.

Lemma keeps_bind_both {A C} d (m : Prog A) (k : A -> Prog C) :
  KeepsDateLine d m ->
  (forall a, KeepsDateLine d (k a)) -> KeepsDateLine d (bind m k).
Proof.
  intros Hm Hk s Hd. rewrite bind_state.
  pose proof (Hm s Hd) as E. rewrite <- E. apply Hk.
  apply (f_equal snd) in E. cbn in E. congruence.
Qed.

Lemma keeps_gets_day {C} d (k : Z -> Prog C) :
  KeepsDateLine d (k d) -> KeepsDateLine d (bind (gets cached_date_day) k).
Proof.
  intros Hk s Hd. rewrite bind_state. cbn. rewrite Hd. now apply Hk.
Qed.

Section DateLine.
Variable pf : Platform.

Ltac solve_preserves_date :=
  solve [ unfold advance_marquee;
          repeat first
            [ apply preserves_get_display_date_str; intros; reflexivity
            | step_preserves ] ].

Lemma draw_frame_content_keeps_date_line w background is_transitioning :
  KeepsDateLine (day (frame_now w))
    (draw_frame_content pf w background is_transitioning).
Proof.
  unfold draw_frame_content.
  repeat first
    [ apply keeps_gets_day; rewrite Z.eqb_refl; cbn [negb when]
    | apply keeps_of_preserves; solve_preserves_date
    | apply keeps_bind; [solve_preserves_date | intros ?]
    | apply keeps_bind_both; [| intros ?]
    | match goal with
      | |- KeepsDateLine _ (match ?x with _ => _ end) => destruct x
      end ].
Qed.

(** X16: the date line is fitted once per day of the month: a frame drawn
    on the day for which the line was last fitted keeps the cached line,
    whatever the view, the tip and the visibility of the umbrella icon have
    become since. *)
Theorem date_line_kept_within_day (w : TickInput) (background : option Image)
    (is_transitioning : bool) (s : AppState) :
  day (frame_now w) = cached_date_day s ->
  let s' := state_after (draw_frame_content pf w background is_transitioning s) in
  cached_date_str s' = cached_date_str s
  /\ cached_date_day s' = cached_date_day s.
Proof.
  intros Hday. cbv zeta.
  pose proof (draw_frame_content_keeps_date_line w background is_transitioning s
                (eq_sym Hday)) as H.
  unfold date_line_of in H. injection H as H1 H2. auto.
Qed.

End DateLine.

Lemma date_line_kept_within_day_witness :
  day (frame_now (Sample.input_at 1802 "Take an umbrella"))
  = cached_date_day SampleDay.after_first_frame
  /\ cached_date_str
       (state_after
          (draw_frame_content Sample.platform (Sample.input_at 1802 "Take an umbrella")
             None false SampleDay.after_first_frame))
     = cached_date_str SampleDay.after_first_frame.
Proof.
  assert (H : day (frame_now (Sample.input_at 1802 "Take an umbrella"))
              = cached_date_day SampleDay.after_first_frame)
    by (vm_compute; reflexivity).
  split; [exact H|].
  exact (proj1 (date_line_kept_within_day Sample.platform
                  (Sample.input_at 1802 "Take an umbrella") None false
                  SampleDay.after_first_frame H)).
Defined.
(** ** Configuration from the environment *)

Section LoadConfigFacts.
Variable getenv : string -> option string.
Variable float : string -> option Q.

Lemma int_setting_fails name default :
  int_setting getenv name default = None
  <-> exists v, getenv name = Some v /\ PyStr.int v = None.
Proof.
  unfold int_setting. destruct (getenv name) as [v|].
  - split; [eauto|]. intros (v' & [= <-] & H). exact H.
  - split; [discriminate|]. intros (v' & H & _). discriminate.
Qed.

Lemma float_setting_fails name default :
  float_setting getenv float name default = None
  <-> exists v, getenv name = Some v /\ float v = None.
Proof.
  unfold float_setting. destruct (getenv name) as [v|].
  - split; [eauto|]. intros (v' & [= <-] & H). exact H.
  - split; [discriminate|]. intros (v' & H & _). discriminate.
Qed.


End LoadConfigFacts.

(** X18: what the environment decides about the run.  [main] enters its
    loop exactly when [openWeatherApiKey] is set to something else than the
    empty string and 'key_not_set'; the transition effect is read without
    regard to case, and it has an entry phase when the variable is not set
    (the default is 'wipe') or set to a spelling of 'wipe' or 'blink'. *)
Theorem environment_decides_key_and_effect
    (getenv : string -> option string) (float : string -> option Q)
    (pf : Platform) (i : StartupInput) (inputs : list TickInput) :
  loadConfig getenv float = Some (the_config pf) ->
  (still_running (main pf i inputs)
   <-> exists key, getenv "openWeatherApiKey" = Some key
                   /\ key <> "" /\ key <> "key_not_set")
  /\ (getenv "transitionEffect" = None -> effect_has_in_phase pf = true)
  /\ (forall v, getenv "transitionEffect" = Some v ->
        (effect_has_in_phase pf = true
         <-> PyStr.lower v = "wipe" \/ PyStr.lower v = "blink")).
Proof.
  intros Hload.
  assert (Hkey : API_KEY (the_config pf) = loadConfig_API_KEY getenv
                 /\ TRANSITION_EFFECT (the_config pf)
                    = PyStr.lower (getenv_or getenv "transitionEffect" "wipe")).
  { unfold loadConfig in Hload.
    repeat match type of Hload with
           | and_then ?x _ = Some _ =>
               destruct x; [cbn [and_then] in Hload | discriminate]
           end.
    injection Hload as <-. split; reflexivity. }
  destruct Hkey as [Hkey Heff].
  split; [|split].
  - unfold main, still_running.
    pose proof (key_missing_spec pf) as Hm. rewrite Hkey in Hm.
    unfold loadConfig_API_KEY in Hm.
    destruct (key_missing pf) eqn:E.
    + destruct (fst (cachedBitmapText _ _ _)) as [[? ?] ?].
      split; [contradiction|].
      intros (key & Hk & Hne1 & Hne2). rewrite Hk in Hm.
      destruct (proj1 Hm eq_refl); contradiction.
    + destruct (main_loop pf inputs (startup pf i)) as [[? ?] ?].
      split; [intros _|trivial].
      destruct (getenv "openWeatherApiKey") as [key|].
      * exists key. split; [reflexivity|].
        split; intros ->; (assert (false = true) by (apply Hm; auto)); discriminate.
      * assert (false = true) by (apply Hm; auto). discriminate.
  - intros Hnone. apply effect_has_in_phase_spec. rewrite Heff.
    unfold getenv_or. rewrite Hnone. left. reflexivity.
  - intros v Hv. rewrite effect_has_in_phase_spec, Heff.
    unfold getenv_or. rewrite Hv. reflexivity.
Qed.

Lemma environment_decides_key_and_effect_witness :
  loadConfig SampleEnv.environment SampleEnv.float_of_examples
  = Some (the_config SampleEnv.platform_loaded)
  /\ (still_running (main SampleEnv.platform_loaded Sample.cold_start [])
      <-> exists key, SampleEnv.environment "openWeatherApiKey" = Some key
                      /\ key <> "" /\ key <> "key_not_set").
Proof.
  assert (H : loadConfig SampleEnv.environment SampleEnv.float_of_examples
              = Some (the_config SampleEnv.platform_loaded))
    by (vm_compute; reflexivity).
  split; [exact H|].
  exact (proj1 (environment_decides_key_and_effect SampleEnv.environment
                  SampleEnv.float_of_examples SampleEnv.platform_loaded
                  Sample.cold_start [] H)).
Defined.
